(** * A forecasting pipeline: preprocessing, raw loading and training

    Shallow embedding of [src/preprocess.py], [src/train.py],
    [src/evaluate.py] and [src/utils.py].

    A pandas [DataFrame] is a column store: an index, its name, and an
    ordered list of named columns of cells.  A missing value (NaN, NaT or
    None) is the cell [NaN].  The stages raise Python exceptions, modelled
    by [result]; the files a stage writes are kept in a finite map from
    paths to what was written, threaded through the stage by the monad
    [Run].  Numbers are exact rationals, and where Python or pandas
    computes in float64 the rounding to float64 is written out. *)

From Stdlib Require Import ZArith QArith Qround Qabs Qcanon.
From stdpp Require Import base list strings gmap pretty sorting.

Open Scope Z_scope.

(** ** Exceptions *)

Inductive exn : Type :=
  | FileNotFoundError
  | ParserError
  | KeyError (key : string)
  | IndexError
  | AttributeError
  | TypeError
  | OverflowError
  | ValueError (msg : string).

Inductive result (A : Type) : Type :=
  | Ok (a : A)
  | Raise (e : exn).
Arguments Ok {A} a.
Arguments Raise {A} e.

Global Instance result_ret : MRet result := λ A a, Ok a.
Global Instance result_bind : MBind result := λ A B k m,
  match m with
  | Ok a => k a
  | Raise e => Raise e
  end.

(** A stage of the pipeline: it runs on the files written so far (a store
    of type [S]) and either returns or raises, leaving a store behind in
    both cases. *)
Definition Run (S A : Type) : Type := S → result A * S.

Global Instance run_ret {S} : MRet (Run S) := λ A a st, (Ok a, st).
Global Instance run_bind {S} : MBind (Run S) := λ A B k m st,
  match m st with
  | (Ok a, st') => k a st'
  | (Raise e, st') => (Raise e, st')
  end.

Definition run_lift {S A} (r : result A) : Run S A := λ st, (r, st).
Definition run_modify {S} (f : S → S) : Run S unit := λ st, (Ok tt, f st).

(** ** Floating point *)

(** [a / d] rounded to the nearest integer, a tie to the even one, for
    [d] above 0. *)
Definition round_half_even (a d : Z) : Z :=
  let q := a / d in
  match 2 * (a mod d) ?= d with
  | Lt => q
  | Eq => if Z.even q then q else q + 1
  | Gt => q + 1
  end.

(** The float64 nearest to [q], in lowest terms, were the exponent not
    bounded above.  A float64 is a multiple [m * 2 ^ t] of
    [2 ^ -1074], the least one above 0, with a significand [m] of 53
    bits: [t] is 0 for the subnormal numbers and in the lowest binade,
    and one more from each binade to the next.  Of the two such
    neighbours of [q] the nearer one is taken, and in a tie the one
    with the even significand. *)
Definition float64_round (q : Q) : Q :=
  let a := Z.abs (Qnum q) in
  let d := Z.pos (Qden q) in
  let t := Z.log2 (a * 2 ^ 1022 / d) in
  let m := round_half_even (a * 2 ^ 1074) (d * 2 ^ t) in
  Qred (Qmake (Z.sgn (Qnum q) * m * 2 ^ t) (2 ^ 1074)).

(** A float64 of Python: a finite value, kept as the exact rational it
    is, an infinity, or NaN.  The sign of a zero is not kept: nothing
    here tells the two zeros apart. *)
Inductive float64 : Type :=
  | Finite (v : Q)
  | Inf (negative : bool)
  | Nan.

(** The float64 nearest to [q]: what rounds to [2 ^ 1024] or beyond is
    an infinity. *)
Definition float64_of_Q (q : Q) : float64 :=
  let r := float64_round q in
  if Qle_bool (inject_Z (2 ^ 1024)) (Qabs r) then Inf (Qnum q <? 0)
  else Finite r.

(** [a * b] on floats *)
Definition float64_mul (a b : float64) : float64 :=
  match a, b with
  | Finite x, Finite y => float64_of_Q (x * y)
  | Finite x, Inf s | Inf s, Finite x =>
      if Qeq_bool x 0 then Nan else Inf (xorb s (Qnum x <? 0))
  | Inf s, Inf t => Inf (xorb s t)
  | _, _ => Nan
  end.

(** ** Cells and tables *)

(** A cell of a table or an index label.  [Num] is a number (an int64 or a
    finite float64 value, kept as an exact rational), [Str] a Python
    string of an object-typed column, [Tm] a datetime64 value in
    nanoseconds since the epoch, [NaN] a missing value. *)
Inductive cell : Type :=
  | Num (v : Q)
  | Str (s : string)
  | Tm (t : Z)
  | NaN.

(** A column: its name and its cells. *)
Abbreviation column := (string * list cell)%type.

Record DataFrame : Type := mkFrame {
  index_name : option string;
  index : list cell;
  columns : list column
}.

Definition col_names (df : DataFrame) : list string := (columns df).*1.

(** [len(df)] *)
Definition len (df : DataFrame) : nat := length (index df).

Definition isna (c : cell) : bool :=
  match c with
  | NaN => true
  | _ => false
  end.

(** The index has a datetime64 dtype: every label is a time or NaT. *)
Definition is_datetime (c : cell) : bool :=
  match c with
  | Tm _ | NaN => true
  | _ => false
  end.

Definition is_datetime_index (ix : list cell) : bool := forallb is_datetime ix.

(** The times of an index, in order, NaT and other labels left out. *)
Definition timestamps (ix : list cell) : list Z :=
  omap (λ c, match c with Tm t => Some t | _ => None end) ix.

(** *** Column selection and assignment *)

Definition cols_named (name : string) (cs : list column) : list column :=
  filter (λ c : column, c.1 = name) cs.

Definition has_column (name : string) (df : DataFrame) : bool :=
  bool_decide (name ∈ col_names df).

(** [df[names]] for a list of names: the columns in the order asked for,
    [KeyError] for a name the table does not have. *)
Fixpoint getitem_cols (names : list string) (cs : list column)
  : result (list column) :=
  match names with
  | [] => Ok []
  | n :: rest =>
      match cols_named n cs with
      | [] => Raise (KeyError n)
      | found =>
          more ← getitem_cols rest cs; Ok (found ++ more)
      end
  end.

Definition getitem (names : list string) (df : DataFrame) : result DataFrame :=
  cs ← getitem_cols names (columns df);
  Ok (mkFrame (index_name df) (index df) cs).

(** [df[name] = values]: an existing column is overwritten in place, a
    new one goes last. *)
Definition setitem (name : string) (values : list cell) (df : DataFrame)
  : DataFrame :=
  mkFrame (index_name df) (index df)
    (if has_column name df
     then fmap (λ c : column, if decide (c.1 = name) then (name, values) else c)
              (columns df)
     else columns df ++ [(name, values)]).

(** [df.drop(columns=[name])]; with [errors='ignore'] a missing name is
    not an error, and where the source drops a name without it the name
    is there. *)
Definition drop_column (name : string) (df : DataFrame) : DataFrame :=
  mkFrame (index_name df) (index df)
    (filter (λ c : column, c.1 ≠ name) (columns df)).

(** [df.drop(columns=[name])] without [errors='ignore']. *)
Definition drop_column_strict (name : string) (df : DataFrame)
  : result DataFrame :=
  if has_column name df then Ok (drop_column name df)
  else Raise (KeyError name).

(** [pd.concat([a, b], axis=1)] of two tables over one index. *)
Definition concat_columns (a b : DataFrame) : DataFrame :=
  mkFrame (index_name a) (index a) (columns a ++ columns b).

(** *** Rows *)

(** The entries of [l] at the positions where the mask is true. *)
Fixpoint select {A} (mask : list bool) (l : list A) : list A :=
  match mask, l with
  | b :: mask', x :: l' => if b then x :: select mask' l' else select mask' l'
  | _, _ => []
  end.

Definition map_rows (f : ∀ A, list A → list A) (df : DataFrame) : DataFrame :=
  mkFrame (index_name df) (f cell (index df))
    (fmap (λ c : column, (c.1, f cell c.2)) (columns df)).

(** Row [i] has no missing value in any column. *)
Definition row_complete (cs : list column) (i : nat) : bool :=
  forallb (λ c : column, match c.2 !! i with
                         | Some x => negb (isna x)
                         | None => true
                         end) cs.

Definition complete_rows (df : DataFrame) : list bool :=
  fmap (row_complete (columns df)) (seq 0 (len df)).

(** [df.dropna()] *)
Definition dropna (df : DataFrame) : DataFrame :=
  map_rows (λ A, select (complete_rows df)) df.

(** A bound of a Python slice over [n] items: a negative bound counts
    from the end, and every bound is clipped to [0..n]. *)
Definition slice_bound (n : nat) (i : Z) : nat :=
  if i <? 0 then Z.to_nat (Z.max 0 (i + Z.of_nat n))
  else Z.to_nat (Z.min i (Z.of_nat n)).

(** [df.iloc[:stop]] and [df.iloc[start:]] *)
Definition iloc_to (stop : Z) (df : DataFrame) : DataFrame :=
  map_rows (λ A, take (slice_bound (len df) stop)) df.

Definition iloc_from (start : Z) (df : DataFrame) : DataFrame :=
  map_rows (λ A, drop (slice_bound (len df) start)) df.

(** [df.iloc[:, 0]] *)
Definition iloc_col0 (df : DataFrame) : result (list cell) :=
  match columns df with
  | c :: _ => Ok c.2
  | [] => Raise IndexError
  end.

(** [col.dtype == 'object']: the column holds Python strings. *)
Definition is_object (l : list cell) : bool :=
  existsb (λ c, match c with Str _ => true | _ => false end) l.

(** [astype('float64')] on one value of a column that is not of object
    dtype: an int64 becomes the float64 nearest to it (itself up to
    [2 ^ 53]; an int64 is far below the float64 range), and a float64, a
    time or a missing value stays as it is. *)
Definition astype_float64 (c : cell) : cell :=
  match c with
  | Num v => Num (float64_round v)
  | _ => c
  end.

(** [Series.shift(periods)]: the values move down by [periods] rows (up
    for a negative count) and the rows left without a value are missing.
    To hold the missing values a column of int64 becomes a column of
    float64; a column of object dtype keeps its values, and a shift by 0
    is a copy. *)
Definition shift_cells (periods : Z) (l : list cell) : list cell :=
  if periods =? 0 then l
  else
    let l := if is_object l then l else astype_float64 <$> l in
    let n := length l in
    if 0 <=? periods then
      let k := Nat.min (Z.to_nat periods) n in
      replicate k NaN ++ take (n - k) l
    else
      let k := Nat.min (Z.to_nat (- periods)) n in
      drop k l ++ replicate k NaN.

(** [df.shift(periods)] *)
Definition shift (periods : Z) (df : DataFrame) : DataFrame :=
  mkFrame (index_name df) (index df)
    (fmap (λ c : column, (c.1, shift_cells periods c.2)) (columns df)).

(** [df.columns = names] *)
Definition set_col_names (names : list string) (df : DataFrame) : DataFrame :=
  mkFrame (index_name df) (index df) (zip names (columns df).*2).

(** [Series.ffill()]: a missing value takes the last value seen above it. *)
Fixpoint ffill_from (last : cell) (l : list cell) : list cell :=
  match l with
  | [] => []
  | x :: rest =>
      if isna x then last :: ffill_from last rest
      else x :: ffill_from x rest
  end.

Definition ffill_cells (l : list cell) : list cell := ffill_from NaN l.

(** ** Text conversions of pandas

    What pandas reads out of a string and how it prints a value is the
    library's business; the pipeline only passes the results on. *)
Record Text : Type := {
  (** [pd.to_numeric] on one string; [None] where [errors='coerce']
      gives NaN *)
  num_of_str : string → option Q;
  (** the format [pd.to_datetime] guesses from one string, by
      [dayfirst]; [None] where it guesses none *)
  guess_datetime_format : bool → string → option string;
  (** [pd.to_datetime] on one string, under a format or, without one,
      each string on its own by [dayfirst]; [None] where
      [errors='coerce'] gives NaT *)
  time_of_str : option string → bool → string → option Z;
  (** [astype(str)] on a number and on a time *)
  str_of_num : Q → string;
  str_of_time : Z → string
}.

(** ** Calendar fields of a time (the [.hour], [.dayofweek], [.month] and
    [.year] of a DatetimeIndex), by the proleptic Gregorian calendar *)

Definition ns_per_hour : Z := 3600000000000.
Definition ns_per_day : Z := 24 * ns_per_hour.

Definition dt_hour (t : Z) : Z := (t mod ns_per_day) / ns_per_hour.

(** Monday is 0; the epoch fell on a Thursday. *)
Definition dt_dayofweek (t : Z) : Z := (t / ns_per_day + 3) mod 7.

(** Year and month of a day number counted from the epoch. *)
Definition civil_year_month (days : Z) : Z * Z :=
  let z := days + 719468 in
  let era := z / 146097 in
  let doe := z mod 146097 in
  let yoe := (doe - doe / 1460 + doe / 36524 - doe / 146096) / 365 in
  let doy := doe - (365 * yoe + yoe / 4 - yoe / 100) in
  let mp := (5 * doy + 2) / 153 in
  let m := if mp <? 10 then mp + 3 else mp - 9 in
  let y := yoe + era * 400 in
  (if m <=? 2 then y + 1 else y, m).

Definition dt_month (t : Z) : Z := (civil_year_month (t / ns_per_day)).2.
Definition dt_year (t : Z) : Z := (civil_year_month (t / ns_per_day)).1.

(** A field of a DatetimeIndex as a column; an index of another dtype has
    no such attribute. *)
Definition dt_field (f : Z → Z) (ix : list cell) : result (list cell) :=
  if is_datetime_index ix
  then Ok (fmap (λ c, match c with
                     | Tm t => Num (inject_Z (f t))
                     | _ => NaN
                     end) ix)
  else Raise AttributeError.

(** ** Files *)

(** How [pd.read_csv] is asked to read: [sep=';'] with
    [low_memory=False]; [index_col='datetime'] with [parse_dates=True];
    or [sep=None] with [engine='python'] and [low_memory=False]. *)
Inductive ReadMode : Type := SepSemicolon | IndexDatetime | SepSniff.

(** The files a stage can read: for each path that exists, what
    [pd.read_csv] makes of the file in each mode (parsing the text is the
    library's business).  The options of [SepSniff] are checked before
    any file is opened, and pandas refuses them: the Python engine does
    not take [low_memory]. *)
Definition low_memory_not_supported : exn :=
  ValueError
    "The 'low_memory' option is not supported with the 'python' engine".

Definition read_csv (fs : gmap string (ReadMode → result DataFrame))
    (mode : ReadMode) (path : string) : result DataFrame :=
  match mode with
  | SepSniff => Raise low_memory_not_supported
  | SepSemicolon | IndexDatetime =>
      match fs !! path with
      | Some parse => parse mode
      | None => Raise FileNotFoundError
      end
  end.
Arguments read_csv : simpl never.

(** [s.startswith(pre)] and [s.endswith(suf)] *)
Definition startswith (s pre : string) : bool :=
  String.eqb (String.substring 0 (String.length pre) s) pre.

Definition endswith (s suf : string) : bool :=
  let n := String.length s in
  let k := String.length suf in
  (k <=? n)%nat && String.eqb (String.substring (n - k) k s) suf.

(** [os.path.join(a, b)] *)
Definition path_join (a b : string) : string :=
  if startswith b "/" then b
  else if String.eqb a "" || endswith a "/" then a +:+ b
  else a +:+ "/" +:+ b.

(** ** Configuration ([params.yaml], as [load_params] reads it) *)

(** A number of [params.yaml] as it is written: an integer, a float
    literal with the rational it denotes, [.inf] with its sign, or
    [.nan]. *)
Inductive Number : Type :=
  | IntLit (z : Z)
  | FloatLit (q : Q)
  | InfLit (negative : bool)
  | NanLit.

Definition Hyper : Type := list (string * Q).

Record ModelConfig : Type := {
  params : Hyper;
  file_name : string
}.

Record PreprocessParams : Type := {
  target_column : string;
  test_split_ratio : Number
}.

Record TrainParams : Type := {
  features : list string
}.

Record Params : Type := {
  preprocess : PreprocessParams;
  train : TrainParams;
  models : gmap string ModelConfig
}.

(** ** [src/preprocess.py] *)

(** [create_lagged_features(df, lag)] *)
Definition create_lagged_features (df : DataFrame) (lag : Z) : DataFrame :=
  let df_lagged := shift lag df in
  set_col_names (fmap (λ col, col +:+ "_lag" +:+ pretty lag) (col_names df))
    df_lagged.

(** [int(x)] of a finite number: towards zero. *)
Definition py_int (q : Q) : Z := Z.quot (Qnum q) (Z.pos (Qden q)).

(** A number of Python: an [int] or a [float]. *)
Inductive number : Type :=
  | PyInt (z : Z)
  | PyFloat (x : float64).

(** What [yaml.safe_load] makes of a number: the float of a literal is
    the float64 nearest to it. *)
Definition number_of_literal (lit : Number) : number :=
  match lit with
  | IntLit z => PyInt z
  | FloatLit q => PyFloat (float64_of_Q q)
  | InfLit negative => PyFloat (Inf negative)
  | NanLit => PyFloat Nan
  end.

(** [float(n)] of an [int], as Python takes it before it multiplies an
    [int] by a [float]. *)
Definition float_of_int (n : Z) : result float64 :=
  match float64_of_Q (inject_Z n) with
  | Finite v => Ok (Finite v)
  | Inf _ | Nan => Raise OverflowError
  end.

(** [n * v] for an [int] [n]: exact on an [int], rounded on a [float]. *)
Definition int_mul (n : Z) (v : number) : result number :=
  match v with
  | PyInt z => Ok (PyInt (n * z))
  | PyFloat x => a ← float_of_int n; Ok (PyFloat (float64_mul a x))
  end.

(** [int(v)] *)
Definition int_of (v : number) : result Z :=
  match v with
  | PyInt z => Ok z
  | PyFloat (Finite x) => Ok (py_int x)
  | PyFloat (Inf _) => Raise OverflowError
  | PyFloat Nan => Raise (ValueError "cannot convert float NaN to integer")
  end.

(** [int(len(full_df) * test_split_ratio)] *)
Definition test_size_of (n : nat) (ratio : Number) : result Z :=
  product ← int_mul (Z.of_nat n) (number_of_literal ratio);
  int_of product.

(** The four tables [preprocess_data] saves. *)
Record Partitions : Type := {
  X_train : DataFrame;
  X_test : DataFrame;
  y_train : DataFrame;
  y_test : DataFrame
}.

Section Preprocess.
Context (tx : Text).

(** [pd.to_numeric(..., errors='coerce')] on one value *)
Definition to_numeric (c : cell) : cell :=
  match c with
  | Num v => Num v
  | Str s =>
      match num_of_str tx s with
      | Some v => Num v
      | None => NaN
      end
  | Tm _ | NaN => NaN
  end.

(** Lines 23-27: every object column is made numeric, then the table
    is filled forward. *)
Definition clean (df : DataFrame) : DataFrame :=
  mkFrame (index_name df) (index df)
    (fmap (λ c : column,
            (c.1, ffill_cells (if is_object c.2 then fmap to_numeric c.2
                               else c.2)))
         (columns df)).

(** Lines 29-33: the time-based features. *)
Definition add_time_features (df : DataFrame) : result DataFrame :=
  hour ← dt_field dt_hour (index df);
  let df := setitem "hour_of_day" hour df in
  dayofweek ← dt_field dt_dayofweek (index df);
  let df := setitem "day_of_week" dayofweek df in
  month ← dt_field dt_month (index df);
  let df := setitem "month" month df in
  year ← dt_field dt_year (index df);
  Ok (setitem "year" year df).

(** Lines 23-33: the cleaned table with its time-based features. *)
Definition cleaned (df : DataFrame) : result DataFrame :=
  add_time_features (clean df).

(** Lines 35-51: the target and the lagged features over the rows
    that have no missing value. *)
Definition lagged_table (prm : Params) (df : DataFrame) : result DataFrame :=
  let target_column := target_column (preprocess prm) in
  let features_to_use := features (train prm) in
  y ← getitem [target_column] df;
  X ← getitem features_to_use df;
  let X_lagged := create_lagged_features X 1 in
  let full_df := concat_columns y X_lagged in
  Ok (dropna full_df).

(** Lines 50-58: target and features apart again, and the split. *)
Definition split (prm : Params) (full_df : DataFrame) : result Partitions :=
  let target_column := target_column (preprocess prm) in
  y ← getitem [target_column] full_df;
  X ← drop_column_strict target_column full_df;
  test_size ← test_size_of (len full_df) (test_split_ratio (preprocess prm));
  Ok {| X_train := iloc_to (- test_size) X;
        X_test := iloc_from (- test_size) X;
        y_train := iloc_to (- test_size) y;
        y_test := iloc_from (- test_size) y |}.

(** Lines 23-58 of [preprocess_data]: from the table read to the four
    tables saved. *)
Definition partitions (prm : Params) (df : DataFrame) : result Partitions :=
  df ← cleaned df;
  full_df ← lagged_table prm df;
  split prm full_df.

(** [df.to_csv(path)] *)
Definition to_csv (path : string) (df : DataFrame)
  : Run (gmap string DataFrame) unit :=
  run_modify (insert path df).

(** [preprocess_data(input_path, output_dir, params)], on the tables
    saved so far.  Logging saves no table, and [os.makedirs] makes a
    directory, which is no file of the store; the directory is taken
    to be one that can be made. *)
Definition preprocess_data (fs : gmap string (ReadMode → result DataFrame))
    (input_path output_dir : string) (prm : Params)
  : Run (gmap string DataFrame) unit :=
  df ← run_lift (read_csv fs IndexDatetime input_path);
  p ← run_lift (partitions prm df);
  to_csv (path_join output_dir "X_train.csv") (X_train p);;
  to_csv (path_join output_dir "X_test.csv") (X_test p);;
  to_csv (path_join output_dir "y_train.csv") (y_train p);;
  to_csv (path_join output_dir "y_test.csv") (y_test p).

(** *** The raw loader *)

(** [astype(str)] on one value *)
Definition astype_str (c : cell) : string :=
  match c with
  | Str s => s
  | Num v => str_of_num tx v
  | Tm t => str_of_time tx t
  | NaN => "nan"
  end.

(** The format [pd.to_datetime] reads a column under: the one it
    guesses from the first value that is not missing, when that is a
    string. *)
Definition datetime_format (dayfirst : bool) (l : list cell) : option string :=
  match filter (λ c, isna c = false) l with
  | Str s :: _ => guess_datetime_format tx dayfirst s
  | _ => None
  end.

(** [pd.to_datetime(..., errors='coerce')] on a column: every string is
    read under the format of the column, and a number counts
    nanoseconds. *)
Definition to_datetime (dayfirst : bool) (l : list cell) : list cell :=
  let format := datetime_format dayfirst l in
  fmap (λ c, match c with
             | Tm t => Tm t
             | Str s =>
                 match time_of_str tx format dayfirst s with
                 | Some t => Tm t
                 | None => NaN
                 end
             | Num v => Tm (py_int v)
             | NaN => NaN
             end) l.

(** [df[name]] *)
Definition get_column (name : string) (df : DataFrame) : result (list cell) :=
  match cols_named name (columns df) with
  | c :: _ => Ok c.2
  | [] => Raise (KeyError name)
  end.

(** [df.set_index(name, inplace=True)] *)
Definition set_index (name : string) (df : DataFrame) : result DataFrame :=
  labels ← get_column name df;
  Ok (mkFrame (Some name) labels
        (filter (λ c : column, c.1 ≠ name) (columns df))).

(** [df.index = labels] *)
Definition with_index (labels : list cell) (df : DataFrame) : DataFrame :=
  mkFrame (index_name df) labels (columns df).

(** Lines 84-86 and 102-104: the index out of the Date and Time
    columns. *)
Definition index_by_date_and_time (df : DataFrame) : result DataFrame :=
  date ← get_column "Date" df;
  time ← get_column "Time" df;
  let stamps :=
    to_datetime true
      (zip_with (λ d t, Str (astype_str d +:+ " " +:+ astype_str t))
                date time) in
  df ← set_index "datetime" (setitem "datetime" stamps df);
  Ok (drop_column "Time" (drop_column "Date" df)).

(** Lines 79-97: the body of the [try]. *)
Definition load_attempt (fs : gmap string (ReadMode → result DataFrame))
    (input_path : string) : result DataFrame :=
  if endswith input_path ".txt" then
    df ← read_csv fs SepSemicolon input_path;
    if has_column "Date" df && has_column "Time" df then
      index_by_date_and_time df
    else if has_column "datetime" df then
      stamps ← get_column "datetime" df;
      set_index "datetime"
        (setitem "datetime" (to_datetime false stamps) df)
    else
      Ok (with_index (to_datetime false (index df)) df)
  else
    read_csv fs IndexDatetime input_path.

(** Lines 100-104: the handler of the [except].  Its read raises, so
    nothing after it runs. *)
Definition load_fallback (fs : gmap string (ReadMode → result DataFrame))
    (input_path : string) : result DataFrame :=
  df ← read_csv fs SepSniff input_path;
  if has_column "Date" df && has_column "Time" df then
    index_by_date_and_time df
  else Ok df.

(** [load_raw_file(input_path)] *)
Definition load_raw_file (fs : gmap string (ReadMode → result DataFrame))
    (input_path : string) : result DataFrame :=
  df ← match load_attempt fs input_path with
       | Ok df => Ok df
       | Raise _ => load_fallback fs input_path
       end;
  let df :=
    if is_datetime_index (index df) then df
    else with_index (to_datetime false (index df)) df in
  Ok (mkFrame (Some "datetime") (index df) (columns df)).

End Preprocess.

(** ** [src/train.py] *)

(** A model instance before fitting: its type and the keyword arguments
    it was made with. *)
Inductive Model : Type :=
  | RandomForestRegressor (kw : Hyper)
  | XGBRegressor (kw : Hyper)
  | LGBMRegressor (kw : Hyper).

Section Train.
(** What the three libraries do is their business.  [init_error] is
    what the constructor of a type raises on its keyword arguments, if
    it raises ([RandomForestRegressor] raises [TypeError] on a keyword
    it does not know); [fit] is any function that returns the fitted
    model or raises. *)
Context (init_error : Model → option exn).
Context {Fitted : Type}.
Context (fit : Model → DataFrame → list cell → result Fitted).

(** A call of a constructor on the unpacked [params]: the instance, or
    what the constructor raises. *)
Definition new (model : Model) : result Model :=
  match init_error model with
  | Some e => Raise e
  | None => Ok model
  end.

(** [get_model_instance(model_name, params)] *)
Definition get_model_instance (model_name : string) (kw : Hyper) : result Model :=
  if String.eqb model_name "RandomForestRegressor" then
    new (RandomForestRegressor kw)
  else if String.eqb model_name "XGBoostRegressor" then
    new (XGBRegressor kw)
  else if String.eqb model_name "LightGBMRegressor" then
    new (LGBMRegressor kw)
  else
    Raise (ValueError ("Unsupported model type: " +:+ model_name)).

(** [joblib.dump(model, path)] *)
Definition dump (model : Fitted) (path : string)
  : Run (gmap string Fitted) unit :=
  run_modify (insert path model).

(** [train_model(model_name, model_config, params)], on the model
    files saved so far; [params] is not used. *)
Definition train_model (fs : gmap string (ReadMode → result DataFrame))
    (model_name : string) (model_config : ModelConfig) (prm : Params)
  : Run (gmap string Fitted) unit :=
  let processed_data_dir := "data/processed" in
  let model_output_dir := "models" in
  let model_params := params model_config in
  let model_filename := file_name model_config in
  X_train ← run_lift (read_csv fs IndexDatetime
                        (path_join processed_data_dir "X_train.csv"));
  y_frame ← run_lift (read_csv fs IndexDatetime
                        (path_join processed_data_dir "y_train.csv"));
  y_train ← run_lift (iloc_col0 y_frame);
  model ← run_lift (get_model_instance model_name model_params);
  fitted ← run_lift (fit model X_train y_train);
  let model_path := path_join model_output_dir model_filename in
  dump fitted model_path.

End Train.

(** ** What a run of the preprocessor leaves behind *)

(** The four tables are on disk under [output_dir]. *)
Definition saved_as (disk : gmap string DataFrame) (output_dir : string)
    (p : Partitions) : Prop :=
  disk !! path_join output_dir "X_train.csv" = Some (X_train p) ∧
  disk !! path_join output_dir "X_test.csv" = Some (X_test p) ∧
  disk !! path_join output_dir "y_train.csv" = Some (y_train p) ∧
  disk !! path_join output_dir "y_test.csv" = Some (y_test p).

(** The table [preprocess_data] splits ([full_df] after [dropna]) and the
    cleaned table it is made from, for the file at [input_path]. *)
Definition cleaned_table (tx : Text)
    (fs : gmap string (ReadMode → result DataFrame)) (input_path : string)
  : result DataFrame :=
  df ← read_csv fs IndexDatetime input_path;
  cleaned tx df.

Definition full_table (tx : Text)
    (fs : gmap string (ReadMode → result DataFrame)) (input_path : string)
    (prm : Params) : result DataFrame :=
  df ← cleaned_table tx fs input_path;
  lagged_table prm df.

(** A table without rows. *)
Definition no_rows (df : DataFrame) : Prop :=
  index df = [] ∧ Forall (λ c : column, c.2 = []) (columns df).

(** The rows of a one-column table: each label with its value. *)
Definition rows_of (df : DataFrame) : list (cell * cell) :=
  match columns df with
  | c :: _ => zip (index df) c.2
  | [] => []
  end.

(** ** Sample data *)

(** A reader that knows the number [12] and one day-first time, and no
    other text. *)
Definition sample_text : Text := {|
  num_of_str := λ s, if String.eqb s "12" then Some (inject_Z 12) else None;
  guess_datetime_format := λ dayfirst s,
    if dayfirst && String.eqb s "16/12/2006 17:24:00"
    then Some "%d/%m/%Y %H:%M:%S" else None;
  time_of_str := λ format dayfirst s,
    if bool_decide (format = Some "%d/%m/%Y %H:%M:%S")
       && String.eqb s "16/12/2006 17:24:00"
    then Some 1166289840000000000 else None;
  str_of_num := λ _, "0";
  str_of_time := λ _, "1970-01-01"
|}.

(** Parameters with a float for the ratio. *)
Definition sample_params (target : string) (feats : list string) (ratio : Q)
  : Params :=
  {| preprocess := {| target_column := target;
                      test_split_ratio := FloatLit ratio |};
     train := {| features := feats |};
     models := ∅ |}.

(** A table of power readings [y] with one feature [p], one row per label. *)
Definition power_table (labels ys ps : list Z) : DataFrame :=
  mkFrame (Some "datetime") (Tm <$> labels)
    [("y", (λ v, Num (inject_Z v)) <$> ys);
     ("p", (λ v, Num (inject_Z v)) <$> ps)].

(** A directory with one file, which reads as [df] whatever the mode. *)
Definition one_file (path : string) (df : DataFrame)
  : gmap string (ReadMode → result DataFrame) :=
  {[ path := λ _, Ok df ]}.

(** Five readings, one per nanosecond from the epoch. *)
Definition five_rows : DataFrame :=
  power_table [0; 1; 2; 3; 4] [10; 11; 12; 13; 14] [1; 2; 3; 4; 5].

(** Four readings at consecutive times from [T] on. *)
Definition four_rows (T : Z) (y0 y1 y2 y3 p0 p1 p2 p3 : Q) : DataFrame :=
  mkFrame (Some "datetime") [Tm T; Tm (T + 1); Tm (T + 2); Tm (T + 3)]
    [("y", [Num y0; Num y1; Num y2; Num y3]);
     ("p", [Num p0; Num p1; Num p2; Num p3])].

(** Readings stored out of order, and readings with a time repeated. *)
Definition unsorted_rows : DataFrame :=
  power_table [5; 3; 1] [10; 11; 12] [1; 2; 3].

Definition repeated_rows : DataFrame :=
  power_table [2; 1; 1] [10; 11; 12] [1; 2; 3].

(** The raw file of the data set: two readings, the second with a time
    that does not parse and a value that is not a number. *)
Definition raw_txt : DataFrame :=
  mkFrame None [Num 0; Num 1]
    [("Date", [Str "16/12/2006"; Str "?"]);
     ("Time", [Str "17:24:00"; Str "17:25:00"]);
     ("Global_active_power", [Str "12"; Str "?"])].

(** A fit that keeps the instance as it is. *)
Definition sample_fit (m : Model) (X : DataFrame) (y : list cell)
  : result Model := Ok m.

(** Constructors for the samples: [RandomForestRegressor] takes the
    keywords [n_estimators] and [max_depth] and raises [TypeError] on
    any other, as on [learning_rate]; the other two take any keyword. *)
Definition sample_init_error (m : Model) : option exn :=
  match m with
  | RandomForestRegressor kw =>
      if forallb (λ k : string * Q,
                    String.eqb k.1 "n_estimators" || String.eqb k.1 "max_depth")
           kw
      then None else Some TypeError
  | XGBRegressor _ | LGBMRegressor _ => None
  end.

Definition sample_config : ModelConfig :=
  {| params := [("n_estimators", inject_Z 100)]; file_name := "model.joblib" |}.

(** The names of the time-based features. *)
Definition time_features : list string :=
  ["hour_of_day"; "day_of_week"; "month"; "year"].

(** The model type names [get_model_instance] knows. *)
Definition supported_models : list string :=
  ["RandomForestRegressor"; "XGBoostRegressor"; "LightGBMRegressor"].

(** A table as pandas keeps it: every column as long as the index. *)
Definition aligned (df : DataFrame) : Prop :=
  Forall (λ c : column, length c.2 = length (index df)) (columns df).

(** ** The scripts

    The three files end in a script that loads [params.yaml] and calls
    the function of the file.  A script returns, raises, or exits with a
    status ([exit(1)] raises [SystemExit], which no handler of the
    repository catches). *)

Inductive outcome (A : Type) : Type :=
  | Returned (a : A)
  | Raised (e : exn)
  | Exited (status : Z).
Arguments Returned {A} a.
Arguments Raised {A} e.
Arguments Exited {A} status.

Definition Script (S A : Type) : Type := S → outcome A * S.

Global Instance script_ret {S} : MRet (Script S) := λ A a st, (Returned a, st).
Global Instance script_bind {S} : MBind (Script S) := λ A B k m st,
  match m st with
  | (Returned a, st') => k a st'
  | (Raised e, st') => (Raised e, st')
  | (Exited status, st') => (Exited status, st')
  end.

(** A step of a script that touches no file. *)
Definition script_step {S A} (o : outcome A) : Script S A := λ st, (o, st).

(** A call of a function of the pipeline from a script. *)
Definition script_call {S A} (m : Run S A) : Script S A := λ st,
  match m st with
  | (Ok a, st') => (Returned a, st')
  | (Raise e, st') => (Raised e, st')
  end.

(** *** [src/utils.py] *)

(** What [yaml.safe_load] makes of a text: a value, or a [YAMLError]. *)
Inductive yaml (A : Type) : Type :=
  | YamlValue (a : A)
  | YAMLError.
Arguments YamlValue {A} a.
Arguments YAMLError {A}.

(** The [validation] section of [params.yaml]. *)
Record Validation : Type := {
  plots_dir : string
}.

(** [params.yaml] with all the sections the scripts read. *)
Record AllParams : Type := {
  pipeline : Params;
  validation : Validation
}.

(** [load_params(params_path)], over the text files there are: a missing
    file and a text that is no YAML both end the process with status 1. *)
Definition load_params {A} (texts : gmap string string)
    (safe_load : string → yaml A) (params_path : string) : outcome A :=
  match texts !! params_path with
  | None => Exited 1
  | Some text =>
      match safe_load text with
      | YamlValue params => Returned params
      | YAMLError => Exited 1
      end
  end.

(** *** The script of [src/preprocess.py] (lines 118-136) *)

Section PreprocessScript.
Context (tx : Text).
(** What [pd.read_csv] makes, in each mode, of the file [to_csv] writes
    for a table. *)
Context (csv_reader : DataFrame → ReadMode → result DataFrame).
Context (texts : gmap string string) (safe_load : string → yaml AllParams).

Definition preprocess_main (fs : gmap string (ReadMode → result DataFrame))
  : Script (gmap string DataFrame) unit :=
  params ← script_step (load_params texts safe_load "params.yaml");
  let input_file := "data/raw/household_power_consumption.txt" in
  let output_directory := "data/processed" in
  raw_df ← script_step (match load_raw_file tx fs input_file with
                        | Ok df => Returned df
                        | Raise e => Raised e
                        end);
  let tmp_raw_path :=
    path_join (path_join "data" "raw")
      "household_power_consumption_prepared.csv" in
  script_call (to_csv tmp_raw_path raw_df);;
  script_call
    (preprocess_data tx (<[tmp_raw_path := csv_reader raw_df]> fs)
       tmp_raw_path output_directory (pipeline params)).

End PreprocessScript.

(** *** The script of [src/train.py] (lines 56-70) *)

Section TrainScript.
Context (init_error : Model → option exn).
Context {Fitted : Type}.
Context (fit : Model → DataFrame → list cell → result Fitted).
(** What [argparse] makes of the command line is the library's
    business: [parse_args] is the value of [--model-name], or the exit
    of the parser (status 2 for a command line it refuses, status 0
    after [--help]). *)
Context (parse_args : outcome string).
Context (texts : gmap string string) (safe_load : string → yaml AllParams).

(** The script. *)
Definition train_main (fs : gmap string (ReadMode → result DataFrame))
  : Script (gmap string Fitted) unit :=
  model_name ← script_step parse_args;
  all_params ← script_step (load_params texts safe_load "params.yaml");
  match models (pipeline all_params) !! model_name with
  | Some model_config =>
      script_call
        (train_model init_error fit fs model_name model_config
           (pipeline all_params))
  | None => script_step (Exited 1)
  end.

End TrainScript.

(** *** [src/evaluate.py] *)

(** What an evaluation writes: the metrics as JSON, and the two
    figures. *)
Inductive Artifact (Score : Type) : Type :=
  | MetricsJson (mae rmse r2_score : Score)
  | ResidualsOverTime (title : string) (times residuals : list cell)
  | ResidualsHistogram (title : string) (residuals : list cell).
Arguments MetricsJson {Score} mae rmse r2_score.
Arguments ResidualsOverTime {Score} title times residuals.
Arguments ResidualsHistogram {Score} title residuals.

(** A model configuration with the [name] entry the script adds. *)
Record NamedConfig : Type := {
  name : string;
  config : ModelConfig
}.

Section Evaluate.
(** What the libraries compute is their business: the prediction of a
    fitted model, the three scores, the square root and the difference
    of two series are any functions. *)
Context {Fitted Score : Type}.
Context (predict : Fitted → DataFrame → result (list cell)).
Context (mean_absolute_error mean_squared_error r2_score
           : list cell → list cell → result Score).
Context (sqrt : Score → Score).
Context (subtract : list cell → list cell → result (list cell)).

(** [joblib.load(path)] *)
Definition joblib_load (saved : gmap string Fitted) (path : string)
  : result Fitted :=
  match saved !! path with
  | Some model => Ok model
  | None => Raise FileNotFoundError
  end.

(** Writing a file: [json.dump] into an opened file, [plt.savefig]. *)
Definition write_file (path : string) (a : Artifact Score)
  : Run (gmap string (Artifact Score)) unit :=
  run_modify (insert path a).

(** [evaluate_model(model_config, params)], on the metrics and figures
    saved so far. *)
Definition evaluate_model (saved : gmap string Fitted)
    (fs : gmap string (ReadMode → result DataFrame))
    (model_config : NamedConfig) (prm : AllParams)
  : Run (gmap string (Artifact Score)) unit :=
  let model_name := name model_config in
  let model_filename := file_name (config model_config) in
  let model_path := path_join "models" model_filename in
  let processed_data_dir := "data/processed" in
  let metrics_output_dir := "metrics" in
  let plots_dir := plots_dir (validation prm) in
  model ← run_lift (joblib_load saved model_path);
  X_test ← run_lift (read_csv fs IndexDatetime
                       (path_join processed_data_dir "X_test.csv"));
  y_frame ← run_lift (read_csv fs IndexDatetime
                        (path_join processed_data_dir "y_test.csv"));
  y_test ← run_lift (iloc_col0 y_frame);
  predictions ← run_lift (predict model X_test);
  mae ← run_lift (mean_absolute_error y_test predictions);
  mse ← run_lift (mean_squared_error y_test predictions);
  let rmse := sqrt mse in
  r2 ← run_lift (r2_score y_test predictions);
  let metrics := MetricsJson mae rmse r2 in
  let metrics_path :=
    path_join metrics_output_dir (model_name +:+ "_metrics.json") in
  write_file metrics_path metrics;;
  residuals ← run_lift (subtract y_test predictions);
  write_file
    (path_join plots_dir (model_name +:+ "_residuals_over_time.png"))
    (ResidualsOverTime (model_name +:+ " - Residuals Over Time")
       (index y_frame) residuals);;
  write_file
    (path_join plots_dir (model_name +:+ "_residuals_histogram.png"))
    (ResidualsHistogram (model_name +:+ " - Distribution of Residuals")
       residuals).

(** What [argparse] makes of the command line: the value of
    [--model-name], or the exit of the parser (status 2 for a command
    line it refuses, status 0 after [--help]). *)
Context (parse_args : outcome string).
Context (texts : gmap string string) (safe_load : string → yaml AllParams).

(** The script (lines 64-81): the configuration of the model goes on
    with its name added. *)
Definition evaluate_main (saved : gmap string Fitted)
    (fs : gmap string (ReadMode → result DataFrame))
  : Script (gmap string (Artifact Score)) unit :=
  model_name ← script_step parse_args;
  all_params ← script_step (load_params texts safe_load "params.yaml");
  match models (pipeline all_params) !! model_name with
  | Some model_config_data =>
      script_call
        (evaluate_model saved fs
           {| name := model_name; config := model_config_data |} all_params)
  | None => script_step (Exited 1)
  end.

End Evaluate.

(** Readings with a value that is no number, a value read as text and
    a missing value. *)
Definition dirty_rows : DataFrame :=
  mkFrame (Some "datetime") [Tm 0; Tm 1; Tm 2; Tm 3]
    [("y", [Str "?"; Str "12"; Str "?"; NaN]);
     ("year", [Num 1; Num 2; Num 3; Num 4])].

(** A [params.yaml] with two models, one of a type the trainer does
    not know; [safe_load] reads the text [ok] as it and no other text. *)
Definition sample_all_params : AllParams :=
  {| pipeline :=
       {| preprocess := {| target_column := "y";
                           test_split_ratio := FloatLit (1 # 2) |};
          train := {| features := ["p"] |};
          models := {[ "XGBoostRegressor" := sample_config;
                       "LinearRegression" := sample_config ]} |};
     validation := {| plots_dir := "plots" |} |}.

Definition sample_yaml (text : string) : yaml AllParams :=
  if String.eqb text "ok" then YamlValue sample_all_params else YAMLError.

(** The processed tables and the raw file, each read as [five_rows]
    or [raw_txt] whatever the mode. *)
Definition sample_files : gmap string (ReadMode → result DataFrame) :=
  {[ "data/processed/X_train.csv" := λ _, Ok five_rows;
     "data/processed/y_train.csv" := λ _, Ok five_rows;
     "data/processed/X_test.csv" := λ _, Ok five_rows;
     "data/processed/y_test.csv" := λ _, Ok five_rows;
     "data/raw/household_power_consumption.txt" := λ _, Ok raw_txt ]}.

(** Predictions and scores that are all 0. *)
Definition sample_predict (m : Model) (X : DataFrame) : result (list cell) :=
  Ok (replicate (len X) (Num 0)).

Definition sample_score (y p : list cell) : result Q := Ok 0%Q.

Definition sample_subtract (y p : list cell) : result (list cell) := Ok y.

(** A reading of a table written that gives the table back. *)
Definition sample_csv_reader (df : DataFrame) (mode : ReadMode)
  : result DataFrame := Ok df.

(** * Properties *)

(** ** Lists and tables *)

Lemma select_sublist {A} (mask : list bool) (l : list A) :
  select mask l `sublist_of` l.
Proof.
  revert l. induction mask as [|b mask IH]; intros [|x l]; simpl;
    try apply sublist_nil_l.
  destruct b; [apply sublist_skip | apply sublist_cons]; apply IH.
Qed.

Lemma select_zip {A B} (mask : list bool) (l : list A) (k : list B) :
  zip (select mask l) (select mask k) = select mask (zip l k).
Proof.
  revert l k. induction mask as [|b mask IH]; intros [|x l] [|y k]; simpl;
    try reflexivity.
  - destruct b; simpl; destruct (select mask l); reflexivity.
  - destruct b; [|apply IH]. simpl. f_equal. apply IH.
Qed.

Lemma sublist_omap {A B} (f : A → option B) (l k : list A) :
  l `sublist_of` k → omap f l `sublist_of` omap f k.
Proof.
  induction 1 as [|x l k _ IH|x l k _ IH]; simpl.
  - constructor.
  - destruct (f x); [apply sublist_skip|]; exact IH.
  - destruct (f x); [apply sublist_cons|]; exact IH.
Qed.

Lemma StronglySorted_sublist {A} (R : relation A) (l k : list A) :
  l `sublist_of` k → StronglySorted R k → StronglySorted R l.
Proof.
  induction 1 as [|x l k Hlk IH|x l k Hlk IH]; intros Hk.
  - constructor.
  - apply StronglySorted_inv in Hk as [Hk Hx]. constructor; [auto|].
    rewrite Forall_forall in Hx |- *. intros y Hy.
    apply Hx. eapply elem_of_sublist; eassumption.
  - apply StronglySorted_inv in Hk as [Hk _]. auto.
Qed.

Lemma timestamps_app (l k : list cell) :
  timestamps (l ++ k) = timestamps l ++ timestamps k.
Proof. apply omap_app. Qed.

(** ** Floating point *)

Lemma round_half_even_exact (q d : Z) : 0 < d → round_half_even (q * d) d = q.
Proof.
  intros Hd. unfold round_half_even.
  rewrite Z.mod_mul by lia. rewrite Z.div_mul by lia.
  change (2 * 0) with 0.
  destruct (Z.compare_spec 0 d); [lia | reflexivity | lia].
Qed.

(** Rounding stays between the integers around the quotient. *)
Lemma round_half_even_bounds (a d lo hi : Z) :
  0 < d → lo * d ≤ a → a < hi * d → lo ≤ round_half_even a d ≤ hi.
Proof.
  intros Hd Hlo Hhi. unfold round_half_even.
  assert (Hq : lo ≤ a / d < hi).
  { split; [apply Z.div_le_lower_bound; lia
           | apply Z.div_lt_upper_bound; lia]. }
  destruct (2 * (a mod d) ?= d); [destruct (Z.even (a / d))|..]; lia.
Qed.

(** Two fractions of one value have the same integer part. *)
Lemma div_cross (a d n D k : Z) :
  0 < d → 0 < D → a * D = n * d → (a * k) / d = (n * k) / D.
Proof.
  intros Hd HD Heq.
  pose proof (Z.div_mod (n * k) D ltac:(lia)) as Hnk.
  pose proof (Z.mod_pos_bound (n * k) D HD) as Hr.
  set (q := n * k / D) in *. set (r := (n * k) mod D) in *.
  assert (Hx : D * (a * k - d * q) = d * r).
  { transitivity (a * D * k - d * (D * q)); [ring|].
    rewrite Heq. replace (D * q) with (n * k - r) by lia. ring. }
  symmetry. apply (Z.div_unique _ _ _ (a * k - d * q)); [left | ring].
  split; nia.
Qed.

(** The significand of a rounding is one of 53 bits, or [2 ^ 53] after
    a carry, and the exponent of what is rounded is found again in the
    result. *)
Lemma rounding_significand (a d : Z) :
  0 ≤ a → 0 < d →
  let t := Z.log2 (a * 2 ^ 1022 / d) in
  let m := round_half_even (a * 2 ^ 1074) (d * 2 ^ t) in
  0 ≤ m ≤ 2 ^ 53 ∧
  Z.log2 (m * 2 ^ t / 2 ^ 52) = (if m =? 2 ^ 53 then t + 1 else t).
Proof.
  intros Ha Hd t m.
  assert (Ht : 0 ≤ t) by apply Z.log2_nonneg.
  assert (HT : 0 < 2 ^ t) by (apply Z.pow_pos_nonneg; lia).
  assert (HT1 : 2 ^ (t + 1) = 2 * 2 ^ t) by (rewrite Z.pow_add_r by lia; lia).
  assert (HP : 2 ^ 1074 = 2 ^ 1022 * 2 ^ 52) by reflexivity.
  assert (HK : 0 < 2 ^ 1022) by reflexivity.
  set (K := 2 ^ 1022) in *. set (P := 2 ^ 1074) in *. clearbody K P.
  assert (Hq : 0 ≤ a * K / d) by (apply Z.div_pos; lia).
  pose proof (Z.mul_div_le (a * K) d Hd) as Hlo.
  pose proof (Z.mul_succ_div_gt (a * K) d Hd) as Hhi.
  destruct (decide (a * K / d = 0)) as [H0 | H0].
  - assert (t = 0) as Ht0 by (subst t; rewrite H0; reflexivity).
    rewrite H0 in *. subst m. rewrite Ht0 in *.
    assert (Hm : 0 ≤ round_half_even (a * P) (d * 2 ^ 0) ≤ 2 ^ 52).
    { change (2 ^ 0) with 1. apply round_half_even_bounds; nia. }
    set (m := round_half_even _ _) in *.
    split; [lia|].
    destruct (m =? 2 ^ 53) eqn:Hm53; [apply Z.eqb_eq in Hm53; lia|].
    change (2 ^ 0) with 1. rewrite Z.mul_1_r.
    destruct (decide (m = 2 ^ 52)) as [-> | Hne]; [reflexivity|].
    rewrite Z.div_small by lia. reflexivity.
  - destruct (Z.log2_spec (a * K / d) ltac:(lia)) as [Hl Hh].
    fold t in Hl, Hh. replace (Z.succ t) with (t + 1) in Hh by lia.
    assert (Hm : 2 ^ 52 ≤ m ≤ 2 ^ 53).
    { apply round_half_even_bounds; nia. }
    split; [lia|].
    destruct (m =? 2 ^ 53) eqn:Hm53.
    + apply Z.eqb_eq in Hm53. rewrite Hm53.
      assert (Heq : 2 ^ 53 * 2 ^ t = 2 ^ (t + 1) * 2 ^ 52) by lia.
      rewrite Heq, Z.div_mul by lia. apply Z.log2_pow2. lia.
    + apply Z.eqb_neq in Hm53. apply Z.log2_unique; [lia|].
      split.
      * apply Z.div_le_lower_bound; nia.
      * apply Z.div_lt_upper_bound; [lia|].
        rewrite Z.pow_succ_r by lia. nia.
Qed.

(** What is read off a fraction in lowest terms. *)
Lemma Qred_num_den (n : Z) (p : positive) :
  let r := Qred (n # p) in
  Qnum r * Z.pos p = n * Z.pos (Qden r) ∧
  Z.abs (Qnum r) * Z.pos p = Z.abs n * Z.pos (Qden r) ∧
  Z.sgn (Qnum r) = Z.sgn n.
Proof.
  intros r. pose proof (Qred_correct (n # p)) as Heq. fold r in Heq.
  unfold Qeq in Heq. simpl in Heq.
  split; [exact Heq|]. split.
  - rewrite <- (Z.abs_eq (Z.pos p)), <- (Z.abs_eq (Z.pos (Qden r))) by lia.
    rewrite <- !Z.abs_mul. by rewrite Heq.
  - assert (H : Z.sgn (Qnum r * Z.pos p) = Z.sgn (n * Z.pos (Qden r)))
      by (by rewrite Heq).
    rewrite !Z.sgn_mul in H. simpl in H. lia.
Qed.

Lemma Qred_int (z n : Z) (p : positive) :
  n = z * Z.pos p → Qred (n # p) = inject_Z z.
Proof.
  intros ->. rewrite <- (Qred_identity (inject_Z z)).
  - apply Qred_complete. unfold Qeq, inject_Z. simpl. lia.
  - simpl. apply Z.gcd_1_r.
Qed.

(** Rounding gives a float64: what is rounded once rounds to itself. *)
Lemma float64_round_idempotent (q : Q) :
  float64_round (float64_round q) = float64_round q.
Proof.
  unfold float64_round at 2.
  set (a := Z.abs (Qnum q)). set (d := Z.pos (Qden q)).
  assert (Ha : 0 ≤ a) by apply Z.abs_nonneg.
  assert (Hd : 0 < d) by done.
  destruct (rounding_significand a d Ha Hd) as [Hm Hlog].
  set (t := Z.log2 (a * 2 ^ 1022 / d)) in *.
  set (m := round_half_even (a * 2 ^ 1074) (d * 2 ^ t)) in *.
  assert (Ht : 0 ≤ t) by apply Z.log2_nonneg.
  assert (HT : 0 < 2 ^ t) by (apply Z.pow_pos_nonneg; lia).
  set (n := Z.sgn (Qnum q) * m * 2 ^ t).
  assert (Hn : Z.abs n = m * 2 ^ t ∧ Z.sgn n * (m * 2 ^ t) = n).
  { destruct (decide (m = 0)) as [Hm0 | Hm0].
    - subst n. rewrite Hm0. rewrite !Z.mul_0_r, !Z.mul_0_l. done.
    - assert (Hq : Qnum q ≠ 0).
      { intros Hq. apply Hm0. subst m a. rewrite Hq.
        change (Z.abs 0) with 0. rewrite Z.mul_0_l.
        apply (round_half_even_exact 0). lia. }
      assert (Hs1 : Z.sgn (Qnum q) = 1 ∨ Z.sgn (Qnum q) = -1) by lia.
      assert (HM : 0 < m * 2 ^ t) by nia.
      subst n. rewrite <- Z.mul_assoc.
      destruct Hs1 as [-> | ->]; lia. }
  destruct Hn as [Habs Hsgn].
  destruct (Qred_num_den n (2 ^ 1074)) as (_ & Hcross & Hs).
  set (r := Qred (n # 2 ^ 1074)) in *.
  unfold float64_round.
  set (a' := Z.abs (Qnum r)) in *. set (d' := Z.pos (Qden r)) in *.
  assert (Hd' : 0 < d') by done.
  assert (Ht' : Z.log2 (a' * 2 ^ 1022 / d')
                = if m =? 2 ^ 53 then t + 1 else t).
  { rewrite (div_cross a' d' (Z.abs n) (Z.pos (2 ^ 1074)) (2 ^ 1022))
      by done.
    rewrite Habs. rewrite <- Hlog.
    change (Z.pos (2 ^ 1074)) with (2 ^ 52 * 2 ^ 1022).
    by rewrite Z.div_mul_cancel_r. }
  rewrite Ht'. rewrite Habs in Hcross.
  apply Qred_complete. unfold Qeq. cbn [Qnum Qden]. f_equal.
  change (Z.sgn (Qnum q) * _ * _) with n.
  rewrite Hs. etrans; [|exact Hsgn]. rewrite <- Z.mul_assoc. f_equal.
  change (Z.pos (2 ^ 1074)) with (2 ^ 1074) in Hcross.
  destruct (m =? 2 ^ 53) eqn:Hm53.
  - apply Z.eqb_eq in Hm53. rewrite Hm53 in *.
    replace (a' * 2 ^ 1074) with (2 ^ 52 * (d' * 2 ^ (t + 1))).
    + rewrite round_half_even_exact
        by (apply Z.mul_pos_pos; [done | apply Z.pow_pos_nonneg; lia]).
      rewrite Z.pow_add_r by lia. lia.
    + rewrite Hcross, Z.pow_add_r by lia. lia.
  - replace (a' * 2 ^ 1074) with (m * (d' * 2 ^ t)) by (rewrite Hcross; lia).
    rewrite round_half_even_exact by (apply Z.mul_pos_pos; done).
    reflexivity.
Qed.

(** An integer of 53 bits, and [2 ^ 53], is a float64. *)
Lemma float64_round_small_int (z : Z) :
  Z.abs z ≤ 2 ^ 53 → float64_round (inject_Z z) = inject_Z z.
Proof.
  intros Hz. destruct (decide (z = 0)) as [-> | Hz0];
    [vm_compute; reflexivity|].
  unfold float64_round. cbn [Qnum Qden inject_Z].
  assert (Ha : 0 < Z.abs z) by lia.
  rewrite Z.div_1_r, Z.log2_mul_pow2 by lia.
  pose proof (Z.log2_nonneg (Z.abs z)) as Hnn.
  assert (He : Z.log2 (Z.abs z) ≤ 53).
  { change 53 with (Z.log2 (2 ^ 53)). by apply Z.log2_le_mono. }
  destruct (Z.log2_spec _ Ha) as [Hlo _].
  set (e := Z.log2 (Z.abs z)) in *.
  assert (HT : 0 < 2 ^ (1022 + e)) by (apply Z.pow_pos_nonneg; lia).
  assert (Hc : ∃ c, Z.abs z * 2 ^ 1074 = c * (1 * 2 ^ (1022 + e))).
  { destruct (decide (e = 53)) as [He53 | Hne].
    - exists (2 ^ 52). rewrite He53 in *.
      assert (Z.abs z = 2 ^ 53) as -> by lia. reflexivity.
    - exists (Z.abs z * 2 ^ (52 - e)).
      rewrite Z.mul_1_l, <- Z.mul_assoc, <- Z.pow_add_r by lia.
      do 2 f_equal. lia. }
  destruct Hc as [c Hc]. rewrite Hc, round_half_even_exact by lia.
  apply Qred_int. change (Z.pos (2 ^ 1074)) with (2 ^ 1074).
  rewrite <- Z.mul_assoc. rewrite Z.mul_1_l in Hc. rewrite <- Hc.
  rewrite Z.mul_assoc, (Z.mul_comm (Z.sgn z)), Z.abs_sgn. reflexivity.
Qed.

Lemma astype_float64_idempotent (x : cell) :
  astype_float64 (astype_float64 x) = astype_float64 x.
Proof.
  destruct x as [v|s|t|]; try reflexivity.
  simpl. by rewrite float64_round_idempotent.
Qed.

Lemma astype_float64_small_int (z : Z) :
  Z.abs z ≤ 2 ^ 53 → astype_float64 (Num (inject_Z z)) = Num (inject_Z z).
Proof. intros Hz. simpl. by rewrite float64_round_small_int. Qed.

(** ** The lag *)

Lemma create_lagged_features_columns (df : DataFrame) (lag : Z) :
  columns (create_lagged_features df lag) =
  fmap (λ c : column, (c.1 +:+ "_lag" +:+ pretty lag, shift_cells lag c.2))
      (columns df).
Proof.
  unfold create_lagged_features, set_col_names, col_names, shift. simpl.
  induction (columns df) as [|[n c] cs IH]; simpl; [reflexivity|].
  f_equal. exact IH.
Qed.

Lemma length_shift_cells (lag : Z) (l : list cell) :
  length (shift_cells lag l) = length l.
Proof.
  unfold shift_cells. destruct (lag =? 0); [reflexivity|].
  assert (Hlen : length (if is_object l then l else astype_float64 <$> l)
                 = length l)
    by (destruct (is_object l); [reflexivity | apply length_fmap]).
  cbv zeta. destruct (0 <=? lag);
    rewrite length_app, length_replicate, ?length_take, ?length_drop, Hlen;
    lia.
Qed.

(** A shift that is no copy, row by row: the rows left without a value
    are missing, and every other row holds the value found [lag] rows
    away in the column as the shift keeps it. *)
Lemma shift_cells_lookup (lag : Z) (l : list cell) (i : nat) :
  lag ≠ 0 → (i < length l)%nat →
  shift_cells lag l !! i =
  if 0 <=? lag
  then (if Z.of_nat i <? lag then Some NaN
        else (if is_object l then l else astype_float64 <$> l)
               !! (i - Z.to_nat lag)%nat)
  else (if Z.of_nat (length l) <=? Z.of_nat i - lag then Some NaN
        else (if is_object l then l else astype_float64 <$> l)
               !! (i + Z.to_nat (- lag))%nat).
Proof.
  intros Hne Hi. unfold shift_cells.
  destruct (lag =? 0) eqn:H0; [apply Z.eqb_eq in H0; contradiction|].
  assert (Hlen : length (if is_object l then l else astype_float64 <$> l)
                 = length l)
    by (destruct (is_object l); [reflexivity | apply length_fmap]).
  cbv zeta. generalize dependent (if is_object l then l
                                  else astype_float64 <$> l).
  intros l' Hlen. rewrite Hlen.
  destruct (0 <=? lag) eqn:Hlag.
  - apply Z.leb_le in Hlag. destruct (Z.of_nat i <? lag) eqn:Hil.
    + apply Z.ltb_lt in Hil. rewrite lookup_app_l
        by (rewrite length_replicate; lia).
      apply lookup_replicate_2. lia.
    + apply Z.ltb_ge in Hil.
      replace (Z.to_nat lag `min` length l)%nat with (Z.to_nat lag) by lia.
      rewrite lookup_app_r by (rewrite length_replicate; lia).
      rewrite length_replicate. apply lookup_take_lt. lia.
  - apply Z.leb_gt in Hlag.
    destruct (Z.of_nat (length l) <=? Z.of_nat i - lag) eqn:Hil.
    + apply Z.leb_le in Hil.
      rewrite lookup_app_r by (rewrite length_drop; lia).
      apply lookup_replicate_2. rewrite length_drop. lia.
    + apply Z.leb_gt in Hil.
      replace (Z.to_nat (- lag) `min` length l)%nat with (Z.to_nat (- lag))
        by lia.
      rewrite lookup_app_l by (rewrite length_drop; lia).
      rewrite lookup_drop. f_equal. lia.
Qed.

Lemma shift_cells_one_first (x : cell) (l : list cell) :
  shift_cells 1 (x :: l) !! 0%nat = Some NaN.
Proof. rewrite shift_cells_lookup by (simpl; lia). reflexivity. Qed.

Lemma shift_cells_one_next (l : list cell) (t : nat) (x : cell) :
  l !! t = Some x → (S t < length l)%nat →
  shift_cells 1 l !! S t
  = Some (if is_object l then x else astype_float64 x).
Proof.
  intros Hx Ht. rewrite shift_cells_lookup by lia.
  change (0 <=? 1) with true. cbv iota.
  destruct (Z.of_nat (S t) <? 1) eqn:Hlt; [apply Z.ltb_lt in Hlt; lia|].
  replace (S t - Z.to_nat 1)%nat with t by lia.
  destruct (is_object l); [exact Hx|].
  rewrite list_lookup_fmap, Hx. reflexivity.
Qed.

(** C3, as the code has it.  For every table and each of its columns
    [c], the column that [create_lagged_features] makes of [c] with a lag
    of one stands at the same place under the name of [c] with the suffix
    [_lag1], over the same index, and is as long.  At the first row it
    holds a missing value, and at every row after the first the value
    [c] had one row before, as the lag keeps it: a column of strings
    keeps its values, and every other column is held as float64, which
    leaves a value that is a float64 and an integer up to [2 ^ 53] as it
    is, and rounds an integer beyond to the float64 nearest to it. *)
Theorem lagged_column_is_previous_row
    (df : DataFrame) (j : nat) (name : string) (cells : list cell) :
  columns df !! j = Some (name, cells) →
  index (create_lagged_features df 1) = index df ∧
  (∃ lagged,
     columns (create_lagged_features df 1) !! j
       = Some (name +:+ "_lag1", lagged) ∧
     length lagged = length cells ∧
     (∀ t x, (S t < length cells)%nat → cells !! t = Some x →
        lagged !! S t
        = Some (if is_object cells then x else astype_float64 x)) ∧
     ((0 < length cells)%nat → lagged !! 0%nat = Some NaN)) ∧
  (∀ x, astype_float64 (astype_float64 x) = astype_float64 x) ∧
  (∀ z, Z.abs z ≤ 2 ^ 53 →
        astype_float64 (Num (inject_Z z)) = Num (inject_Z z)).
Proof.
  intros Hj. split; [reflexivity|].
  split; [|split; [apply astype_float64_idempotent
                  | apply astype_float64_small_int]].
  exists (shift_cells 1 cells). split_and!.
  - rewrite create_lagged_features_columns, list_lookup_fmap, Hj. reflexivity.
  - apply length_shift_cells.
  - intros t x Ht Hx. by apply shift_cells_one_next.
  - intros Hlen. destruct cells; [simpl in Hlen; lia|].
    apply shift_cells_one_first.
Qed.

Lemma lagged_column_is_previous_row_witness :
  columns (power_table [0; 1; 2] [10; 11; 12] [1; 2; 3]) !! 1%nat
    = Some ("p", [Num 1; Num 2; Num 3]%Q) ∧
  ∃ lagged,
    columns (create_lagged_features
               (power_table [0; 1; 2] [10; 11; 12] [1; 2; 3]) 1) !! 1%nat
      = Some ("p_lag1", lagged) ∧
    lagged !! 0%nat = Some NaN ∧
    lagged !! 1%nat = Some (Num 1%Q) ∧
    lagged !! 2%nat = Some (Num 2%Q).
Proof.
  split; [reflexivity|].
  destruct (lagged_column_is_previous_row
              (power_table [0; 1; 2] [10; 11; 12] [1; 2; 3]) 1 "p"
              [Num 1; Num 2; Num 3]%Q eq_refl)
    as (_ & (lagged & Hcol & _ & Hnext & Hfirst) & _ & Hint).
  exists lagged. split; [exact Hcol|]. split; [apply Hfirst; simpl; lia|].
  split.
  - rewrite (Hnext 0%nat (Num 1%Q)) by (simpl; (lia || reflexivity)).
    exact (f_equal Some (Hint 1 ltac:(by vm_compute))).
  - rewrite (Hnext 1%nat (Num 2%Q)) by (simpl; (lia || reflexivity)).
    exact (f_equal Some (Hint 2 ltac:(by vm_compute))).
Defined.

(** C3, as stated, fails: in a column of integers the value
    9007199254740993, which is [2 ^ 53 + 1], is lagged into the float64
    9007199254740992. *)
Lemma lagged_integer_is_rounded :
  ∃ lagged,
    columns (create_lagged_features
               (power_table [0; 1] [10; 11]
                  [9007199254740993; 9007199254740993]) 1) !! 1%nat
      = Some ("p_lag1", lagged) ∧
    lagged !! 1%nat = Some (Num (inject_Z 9007199254740992)) ∧
    Num (inject_Z 9007199254740992) ≠ Num (inject_Z 9007199254740993).
Proof.
  eexists. split; [vm_compute; reflexivity|].
  split; [reflexivity | discriminate].
Qed.

(** ** Paths and the files saved *)

Lemma path_join_ne (a b c : string) :
  startswith b "/" = false → startswith c "/" = false →
  b ≠ c → path_join a b ≠ path_join a c.
Proof.
  intros Hb Hc Hne Heq. unfold path_join in Heq. rewrite Hb, Hc in Heq.
  destruct (String.eqb a "" || endswith a "/");
    repeat apply String.app_inj in Heq; simplify_eq.
Qed.

Lemma preprocess_data_unfold tx fs input_path output_dir prm disk :
  preprocess_data tx fs input_path output_dir prm disk =
  match df ← read_csv fs IndexDatetime input_path; partitions tx prm df with
  | Ok p =>
      (Ok tt,
       <[path_join output_dir "y_test.csv" := y_test p]>
         (<[path_join output_dir "y_train.csv" := y_train p]>
            (<[path_join output_dir "X_test.csv" := X_test p]>
               (<[path_join output_dir "X_train.csv" := X_train p]> disk))))
  | Raise e => (Raise e, disk)
  end.
Proof.
  unfold preprocess_data, mbind, run_bind, run_lift, to_csv, run_modify.
  destruct (read_csv fs IndexDatetime input_path) as [df|e]; simpl;
    [|reflexivity].
  destruct (partitions tx prm df) as [p|e]; reflexivity.
Qed.

Lemma saved_as_writes (disk : gmap string DataFrame) output_dir p :
  saved_as
    (<[path_join output_dir "y_test.csv" := y_test p]>
       (<[path_join output_dir "y_train.csv" := y_train p]>
          (<[path_join output_dir "X_test.csv" := X_test p]>
             (<[path_join output_dir "X_train.csv" := X_train p]> disk))))
    output_dir p.
Proof.
  assert (Hne : ∀ b c, startswith b "/" = false → startswith c "/" = false →
                       b ≠ c → path_join output_dir b ≠ path_join output_dir c)
    by (intros; by apply path_join_ne).
  unfold saved_as.
  repeat split;
    repeat (first [ apply lookup_insert_eq
                  | rewrite lookup_insert_ne by (apply Hne; done) ]).
Qed.

(** A run that returns has read a table, cleaned it, lagged it, split it
    and saved the four parts. *)
Lemma preprocess_data_inv tx fs input_path output_dir prm disk disk' :
  preprocess_data tx fs input_path output_dir prm disk = (Ok tt, disk') →
  ∃ df' full p,
    cleaned_table tx fs input_path = Ok df' ∧
    lagged_table prm df' = Ok full ∧
    full_table tx fs input_path prm = Ok full ∧
    split prm full = Ok p ∧
    saved_as disk' output_dir p.
Proof.
  rewrite preprocess_data_unfold. unfold full_table, cleaned_table, partitions.
  destruct (read_csv fs IndexDatetime input_path) as [df|e]; simpl;
    [|discriminate].
  destruct (cleaned tx df) as [df'|e]; simpl; [|discriminate].
  destruct (lagged_table prm df') as [full|e] eqn:Hfull; simpl;
    [|discriminate].
  destruct (split prm full) as [p|e] eqn:Hp; simpl; [|discriminate].
  intros [= <-]. exists df', full, p.
  split_and!; try done. apply saved_as_writes.
Qed.

(** A run returns whenever the table splits, and raises what reading,
    cleaning, lagging or splitting raises, with nothing saved. *)
Lemma preprocess_data_returns tx fs input_path output_dir prm disk full p :
  full_table tx fs input_path prm = Ok full →
  split prm full = Ok p →
  ∃ disk',
    preprocess_data tx fs input_path output_dir prm disk = (Ok tt, disk') ∧
    saved_as disk' output_dir p.
Proof.
  rewrite preprocess_data_unfold. unfold full_table, cleaned_table, partitions.
  destruct (read_csv fs IndexDatetime input_path) as [df|e]; simpl;
    [|discriminate].
  destruct (cleaned tx df) as [df'|e]; simpl; [|discriminate].
  intros Hfull Hp. rewrite Hfull. simpl. rewrite Hp.
  eexists. split; [reflexivity | apply saved_as_writes].
Qed.

Lemma preprocess_data_raises tx fs input_path output_dir prm disk e disk' :
  preprocess_data tx fs input_path output_dir prm disk = (Raise e, disk') →
  disk' = disk.
Proof.
  rewrite preprocess_data_unfold.
  destruct (_ ← read_csv fs IndexDatetime input_path; _); congruence.
Qed.

(** ** Cleaning *)

Lemma cleaned_cases tx df :
  (is_datetime_index (index df) = false ∧ cleaned tx df = Raise AttributeError) ∨
  (is_datetime_index (index df) = true ∧
   ∃ hour dayofweek month year,
     cleaned tx df =
     Ok (setitem "year" year
           (setitem "month" month
              (setitem "day_of_week" dayofweek
                 (setitem "hour_of_day" hour (clean tx df)))))).
Proof.
  unfold cleaned, add_time_features, dt_field.
  change (index (clean tx df)) with (index df).
  destruct (is_datetime_index (index df)) eqn:Hix; [right | by left].
  split; [reflexivity|]. do 4 eexists. simpl.
  change (index (setitem ?n ?v ?d)) with (index d).
  change (index (clean tx df)) with (index df).
  rewrite Hix. simpl. reflexivity.
Qed.

Lemma cleaned_inv tx df df' :
  cleaned tx df = Ok df' →
  is_datetime_index (index df) = true ∧
  index df' = index df ∧ index_name df' = index_name df.
Proof.
  destruct (cleaned_cases tx df) as [[_ ->]|[Hix (h & d & m & y & ->)]];
    [discriminate|].
  intros [= <-]. done.
Qed.

Lemma cleaned_returns tx df :
  is_datetime_index (index df) = true → ∃ df', cleaned tx df = Ok df'.
Proof.
  destruct (cleaned_cases tx df) as [[Hix _]|[_ (h & d & m & y & ->)]];
    [congruence | eauto].
Qed.

Lemma col_names_clean tx df : col_names (clean tx df) = col_names df.
Proof.
  unfold col_names, clean. simpl. rewrite <- list_fmap_compose.
  apply list_fmap_ext. intros ? [n c] _. reflexivity.
Qed.

Lemma col_names_setitem name values df :
  col_names (setitem name values df) =
  if has_column name df then col_names df else col_names df ++ [name].
Proof.
  unfold setitem, col_names. simpl. destruct (has_column name df).
  - rewrite <- list_fmap_compose. apply list_fmap_ext. intros ? [n c] _. simpl.
    destruct (decide (n = name)); simpl; congruence.
  - rewrite fmap_app. reflexivity.
Qed.

Lemma NoDup_col_names_setitem name values df :
  NoDup (col_names df) → NoDup (col_names (setitem name values df)).
Proof.
  intros Hnd. rewrite col_names_setitem. unfold has_column.
  case_bool_decide as Hin; [exact Hnd|].
  apply NoDup_app. split_and!; [exact Hnd | | apply NoDup_singleton].
  intros x Hx ->%list_elem_of_singleton. contradiction.
Qed.

Lemma NoDup_col_names_cleaned tx df df' :
  cleaned tx df = Ok df' → NoDup (col_names df) → NoDup (col_names df').
Proof.
  destruct (cleaned_cases tx df) as [[_ ->]|[_ (h & d & m & y & ->)]];
    [discriminate|].
  intros [= <-] Hnd.
  do 4 apply NoDup_col_names_setitem. by rewrite col_names_clean.
Qed.

(** ** Selecting columns *)

Lemma cols_named_absent name (cs : list column) :
  name ∉ cs.*1 → cols_named name cs = [].
Proof.
  unfold cols_named. induction cs as [|[n c] cs IH]; simpl; [done|].
  intros Hn. rewrite not_elem_of_cons in Hn. destruct Hn as [Hne Hn].
  rewrite filter_cons_False by (simpl; congruence). auto.
Qed.

Lemma cols_named_names name (cs : list column) :
  NoDup cs.*1 → cols_named name cs ≠ [] → (cols_named name cs).*1 = [name].
Proof.
  unfold cols_named. induction cs as [|[n c] cs IH]; simpl; [done|].
  intros [Hn Hnd]%NoDup_cons. rewrite filter_cons. simpl.
  destruct (decide (n = name)) as [->|Hne]; [|auto].
  intros _. fold (cols_named name cs). rewrite cols_named_absent by done.
  reflexivity.
Qed.

Lemma getitem_cols_names names (cs r : list column) :
  NoDup cs.*1 → getitem_cols names cs = Ok r → r.*1 = names.
Proof.
  intros Hnd. revert r. induction names as [|n names IH]; simpl; intros r.
  - by intros [= <-].
  - destruct (cols_named n cs) as [|c found] eqn:Hfound; [discriminate|].
    destruct (getitem_cols names cs) as [more|e]; simpl; [|discriminate].
    intros [= <-].
    assert (H : (cols_named n cs).*1 = [n])
      by (apply cols_named_names; [done | by rewrite Hfound]).
    rewrite Hfound in H. simpl in H. injection H as Hc Hf.
    apply fmap_nil_inv in Hf as ->. simpl. rewrite Hc. f_equal. by apply IH.
Qed.

Lemma getitem_inv names df d :
  getitem names df = Ok d →
  ∃ cs, getitem_cols names (columns df) = Ok cs ∧
        d = mkFrame (index_name df) (index df) cs.
Proof.
  unfold getitem. destruct (getitem_cols names (columns df)) as [cs|e]; simpl;
    [|discriminate].
  intros [= <-]. eauto.
Qed.

(** [df[[name]]] is the columns of that name, when there is one. *)
Lemma getitem_one name df d :
  getitem [name] df = Ok d →
  cols_named name (columns df) ≠ [] ∧
  d = mkFrame (index_name df) (index df) (cols_named name (columns df)).
Proof.
  unfold getitem. simpl.
  destruct (cols_named name (columns df)) as [|c found]; [discriminate|].
  simpl. rewrite app_nil_r. intros [= <-]. done.
Qed.

Lemma getitem_cols_returns names (cs : list column) :
  Forall (λ n, n ∈ cs.*1) names → ∃ r, getitem_cols names cs = Ok r.
Proof.
  induction 1 as [|n names Hn _ [r IH]]; simpl; [eauto|].
  destruct (cols_named n cs) as [|c found] eqn:Hfound.
  - exfalso. apply list_elem_of_fmap in Hn as ([n' c'] & Heq & Hin).
    simpl in Heq. subst n'.
    assert (Hc : (n, c') ∈ cols_named n cs)
      by (apply list_elem_of_filter; done).
    rewrite Hfound in Hc. by apply not_elem_of_nil in Hc.
  - rewrite IH. simpl. eauto.
Qed.

Lemma col_names_drop_column name df :
  col_names (drop_column name df) = filter (λ n, n ≠ name) (col_names df).
Proof.
  unfold col_names, drop_column. simpl.
  induction (columns df) as [|[n c] cs IH]; [reflexivity|].
  rewrite fmap_cons, !filter_cons. simpl.
  destruct (decide (n ≠ name)); simpl; rewrite <- IH; reflexivity.
Qed.

Lemma col_names_map_rows f df : col_names (map_rows f df) = col_names df.
Proof.
  unfold col_names, map_rows. simpl. rewrite <- list_fmap_compose.
  apply list_fmap_ext. intros ? [n c] _. reflexivity.
Qed.

Lemma col_names_create_lagged_features df lag :
  col_names (create_lagged_features df lag) =
  (λ col, col +:+ "_lag" +:+ pretty lag) <$> col_names df.
Proof.
  unfold col_names. rewrite create_lagged_features_columns.
  rewrite <- !list_fmap_compose. apply list_fmap_ext. intros ? [n c] _.
  reflexivity.
Qed.

(** ** Lagging and splitting *)

Lemma lagged_table_inv prm df full :
  lagged_table prm df = Ok full →
  ∃ y X,
    getitem [target_column (preprocess prm)] df = Ok y ∧
    getitem (features (train prm)) df = Ok X ∧
    full = dropna (concat_columns y (create_lagged_features X 1)).
Proof.
  unfold lagged_table.
  destruct (getitem [target_column (preprocess prm)] df) as [y|e]; simpl;
    [|discriminate].
  destruct (getitem (features (train prm)) df) as [X|e]; simpl;
    [|discriminate].
  intros [= <-]. eauto.
Qed.

Lemma split_inv prm full p :
  split prm full = Ok p →
  ∃ y test_size,
    getitem [target_column (preprocess prm)] full = Ok y ∧
    has_column (target_column (preprocess prm)) full = true ∧
    test_size_of (len full) (test_split_ratio (preprocess prm))
      = Ok test_size ∧
    let X := drop_column (target_column (preprocess prm)) full in
    let b := slice_bound (len full) (- test_size) in
    X_train p = map_rows (λ A, take b) X ∧
    X_test p = map_rows (λ A, drop b) X ∧
    y_train p = map_rows (λ A, take b) y ∧
    y_test p = map_rows (λ A, drop b) y.
Proof.
  unfold split, drop_column_strict.
  destruct (getitem [target_column (preprocess prm)] full) as [y|e] eqn:Hy;
    simpl; [|discriminate].
  destruct (has_column (target_column (preprocess prm)) full); simpl;
    [|discriminate].
  destruct (test_size_of (len full) (test_split_ratio (preprocess prm)))
    as [test_size|e]; simpl; [|discriminate].
  intros [= <-]. exists y, test_size. simpl.
  apply getitem_inv in Hy as (cs & _ & ->). done.
Qed.

(** The split raises for a missing target column, or when the test size
    cannot be computed, and for nothing else. *)
Lemma split_returns prm full test_size :
  has_column (target_column (preprocess prm)) full = true →
  test_size_of (len full) (test_split_ratio (preprocess prm)) = Ok test_size →
  ∃ p, split prm full = Ok p.
Proof.
  intros Hcol Hsize. unfold split, drop_column_strict, getitem. simpl.
  destruct (cols_named _ (columns full)) as [|c found] eqn:Hfound.
  - unfold has_column in Hcol. apply bool_decide_eq_true in Hcol.
    exfalso. apply list_elem_of_fmap in Hcol as ([n c] & Heq & Hin).
    simpl in Heq. subst n.
    assert (Hc : (target_column (preprocess prm), c)
                 ∈ cols_named (target_column (preprocess prm)) (columns full))
      by (apply list_elem_of_filter; done).
    rewrite Hfound in Hc. by apply not_elem_of_nil in Hc.
  - simpl. rewrite Hcol. simpl. rewrite Hsize. simpl. eauto.
Qed.

Lemma slice_bound_zero n : slice_bound n 0 = 0%nat.
Proof. unfold slice_bound. simpl. lia. Qed.

Lemma slice_bound_last n k :
  0 < k ≤ Z.of_nat n → slice_bound n (- k) = (n - Z.to_nat k)%nat.
Proof.
  intros Hk. unfold slice_bound.
  destruct (- k <? 0) eqn:Hneg; [|apply Z.ltb_ge in Hneg; lia]. lia.
Qed.

Lemma map_rows_take_0 df : no_rows (map_rows (λ A, take 0) df).
Proof.
  split; [reflexivity|]. unfold map_rows. simpl.
  apply Forall_fmap, Forall_true. done.
Qed.

Lemma map_rows_drop_0 df : map_rows (λ A, drop 0) df = df.
Proof.
  destruct df as [nm ix cs]. unfold map_rows. simpl. f_equal.
  induction cs as [|[n c] cs IH]; [reflexivity|].
  rewrite fmap_cons, IH. reflexivity.
Qed.

Lemma index_take_drop b df :
  index (map_rows (λ A, take b) df) ++ index (map_rows (λ A, drop b) df)
  = index df.
Proof. apply take_drop. Qed.

Lemma rows_of_map_rows (f : ∀ A, list A → list A) df :
  rows_of (map_rows f df) =
  match columns df with
  | c :: _ => zip (f cell (index df)) (f cell c.2)
  | [] => []
  end.
Proof. unfold rows_of, map_rows. simpl. by destruct (columns df). Qed.

Lemma rows_of_take_drop b df :
  rows_of (map_rows (λ A, take b) df) ++ rows_of (map_rows (λ A, drop b) df)
  = rows_of df.
Proof.
  rewrite !rows_of_map_rows. unfold rows_of.
  destruct (columns df) as [|c cs]; [reflexivity|]. cbv beta.
  rewrite <- zip_with_take, <- zip_with_drop. apply take_drop.
Qed.

Lemma col_names_dropna df : col_names (dropna df) = col_names df.
Proof. apply col_names_map_rows. Qed.

Lemma lagged_table_has_target prm df full :
  lagged_table prm df = Ok full →
  has_column (target_column (preprocess prm)) full = true.
Proof.
  intros (y & X & Hy & _ & ->)%lagged_table_inv.
  apply getitem_one in Hy as [Hne ->].
  unfold has_column. apply bool_decide_eq_true.
  rewrite col_names_dropna. unfold col_names, concat_columns. simpl.
  rewrite fmap_app. apply elem_of_app. left.
  destruct (cols_named _ (columns df)) as [|[n c] found] eqn:Hfound; [done|].
  assert (Hc : (n, c) ∈ cols_named (target_column (preprocess prm)) (columns df))
    by (rewrite Hfound; left).
  apply list_elem_of_filter in Hc as [Hn _]. simpl in Hn. subst n. left.
Qed.

(** The table that is split splits whenever its test size can be
    computed. *)
Lemma full_table_splits tx fs input_path prm full test_size :
  full_table tx fs input_path prm = Ok full →
  test_size_of (len full) (test_split_ratio (preprocess prm)) = Ok test_size →
  ∃ p, split prm full = Ok p.
Proof.
  unfold full_table. destruct (cleaned_table tx fs input_path) as [df'|e];
    simpl; [|discriminate].
  intros Hfull Hsize.
  eapply split_returns; [|exact Hsize].
  eapply lagged_table_has_target, Hfull.
Qed.

Lemma split_zero prm full p :
  split prm full = Ok p →
  test_size_of (len full) (test_split_ratio (preprocess prm)) = Ok 0 →
  no_rows (X_train p) ∧ no_rows (y_train p) ∧
  X_test p = drop_column (target_column (preprocess prm)) full ∧
  getitem [target_column (preprocess prm)] full = Ok (y_test p).
Proof.
  intros (y & k & Hy & _ & Hk & HXtr & HXte & Hytr & Hyte)%split_inv Hzero.
  assert (k = 0) as -> by congruence. simpl in *.
  rewrite slice_bound_zero in *.
  rewrite HXtr, HXte, Hytr, Hyte, !map_rows_drop_0.
  split_and!; try apply map_rows_take_0; done.
Qed.

Lemma split_last prm full p k :
  split prm full = Ok p →
  test_size_of (len full) (test_split_ratio (preprocess prm)) = Ok k →
  0 < k ≤ Z.of_nat (len full) →
  ∃ y,
    getitem [target_column (preprocess prm)] full = Ok y ∧
    let X := drop_column (target_column (preprocess prm)) full in
    let b := (len full - Z.to_nat k)%nat in
    X_train p = map_rows (λ A, take b) X ∧
    X_test p = map_rows (λ A, drop b) X ∧
    y_train p = map_rows (λ A, take b) y ∧
    y_test p = map_rows (λ A, drop b) y ∧
    Z.of_nat (len (X_test p)) = k ∧ Z.of_nat (len (y_test p)) = k.
Proof.
  intros (y & k' & Hy & _ & Hk' & HXtr & HXte & Hytr & Hyte)%split_inv Hk Hpos.
  assert (k' = k) as -> by congruence.
  exists y. split; [exact Hy|]. simpl in *.
  rewrite slice_bound_last in * by exact Hpos.
  split_and!; try done.
  - rewrite HXte. unfold len, map_rows in *. simpl. rewrite length_drop. lia.
  - rewrite Hyte. apply getitem_inv in Hy as (cs & _ & ->).
    unfold len, map_rows in *. simpl. rewrite length_drop. lia.
Qed.

(** ** The split *)

(** C10.  Whenever the test size computed from the table that is split
    is 0, the run saves a train partition without rows and a test
    partition that is the whole table: all its feature rows in [X_test],
    all its target rows in [y_test]. *)
Theorem zero_test_size_puts_every_row_in_test
    tx fs input_path output_dir prm disk full :
  full_table tx fs input_path prm = Ok full →
  test_size_of (len full) (test_split_ratio (preprocess prm)) = Ok 0 →
  ∃ disk' p,
    preprocess_data tx fs input_path output_dir prm disk = (Ok tt, disk') ∧
    saved_as disk' output_dir p ∧
    no_rows (X_train p) ∧ no_rows (y_train p) ∧
    X_test p = drop_column (target_column (preprocess prm)) full ∧
    getitem [target_column (preprocess prm)] full = Ok (y_test p).
Proof.
  intros Hfull Hzero.
  destruct (full_table_splits _ _ _ _ _ _ Hfull Hzero) as [p Hp].
  destruct (preprocess_data_returns tx fs input_path output_dir prm disk
              full p Hfull Hp) as (disk' & Hrun & Hsaved).
  exists disk', p. split; [exact Hrun|]. split; [exact Hsaved|].
  by apply split_zero.
Qed.

Lemma zero_test_size_puts_every_row_in_test_witness :
  ∃ full disk' p,
    full_table sample_text (one_file "raw.csv" five_rows) "raw.csv"
      (sample_params "y" ["p"] (1 # 5)) = Ok full ∧
    len full = 4%nat ∧
    preprocess_data sample_text (one_file "raw.csv" five_rows) "raw.csv"
      "data/processed" (sample_params "y" ["p"] (1 # 5)) ∅ = (Ok tt, disk') ∧
    saved_as disk' "data/processed" p ∧
    no_rows (X_train p) ∧ no_rows (y_train p) ∧
    X_test p = drop_column "y" full ∧
    getitem ["y"] full = Ok (y_test p).
Proof.
  eexists.
  edestruct (zero_test_size_puts_every_row_in_test sample_text
               (one_file "raw.csv" five_rows) "raw.csv" "data/processed"
               (sample_params "y" ["p"] (1 # 5)) ∅)
    as (disk' & p & Hrun & Hsaved & Hrest);
    [vm_compute; reflexivity | vm_compute; reflexivity |].
  exists disk', p. split; [reflexivity|]. split; [reflexivity|].
  split; [exact Hrun|]. split; [exact Hsaved|]. exact Hrest.
Defined.

(** C1, where the code departs from it.  Five readings and a ratio of
    1/5 leave four rows to split; the floor of 4/5 is 0, and the run
    saves all four rows as the test partition and none as the train
    partition. *)
Theorem zero_test_size_fills_test_partition :
  ∃ full disk' p,
    full_table sample_text (one_file "raw.csv" five_rows) "raw.csv"
      (sample_params "y" ["p"] (1 # 5)) = Ok full ∧
    len full = 4%nat ∧
    Qfloor (inject_Z (Z.of_nat (len full)) * (1 # 5)) = 0 ∧
    preprocess_data sample_text (one_file "raw.csv" five_rows) "raw.csv"
      "data/processed" (sample_params "y" ["p"] (1 # 5)) ∅ = (Ok tt, disk') ∧
    saved_as disk' "data/processed" p ∧
    index (X_test p) = [Tm 1; Tm 2; Tm 3; Tm 4] ∧
    index (X_train p) = [] ∧
    len (y_test p) = 4%nat ∧
    len (y_train p) = 0%nat.
Proof.
  eexists.
  edestruct (preprocess_data_returns sample_text
               (one_file "raw.csv" five_rows) "raw.csv" "data/processed"
               (sample_params "y" ["p"] (1 # 5)) ∅)
    as (disk' & Hrun & Hsaved);
    [vm_compute; reflexivity | vm_compute; reflexivity |].
  exists disk'. eexists. split; [reflexivity|]. split; [reflexivity|].
  split; [reflexivity|]. split; [exact Hrun|]. split; [exact Hsaved|].
  repeat split.
Qed.

(** Where the test size computed, [int(n * ratio)] over the [n] rows
    of the table that is split, is a [k] above 0 and no more than [n],
    the test partitions saved have [k] rows and are the last [k] rows
    of that table, and the train partitions are the [n - k] rows before
    them. *)
Theorem test_partition_is_the_last_rows
    tx fs input_path output_dir prm disk full k :
  full_table tx fs input_path prm = Ok full →
  test_size_of (len full) (test_split_ratio (preprocess prm)) = Ok k →
  0 < k ≤ Z.of_nat (len full) →
  ∃ disk' p y,
    preprocess_data tx fs input_path output_dir prm disk = (Ok tt, disk') ∧
    saved_as disk' output_dir p ∧
    getitem [target_column (preprocess prm)] full = Ok y ∧
    let X := drop_column (target_column (preprocess prm)) full in
    let b := (len full - Z.to_nat k)%nat in
    X_train p = map_rows (λ A, take b) X ∧
    X_test p = map_rows (λ A, drop b) X ∧
    y_train p = map_rows (λ A, take b) y ∧
    y_test p = map_rows (λ A, drop b) y ∧
    Z.of_nat (len (X_test p)) = k ∧ Z.of_nat (len (y_test p)) = k.
Proof.
  intros Hfull Hk Hpos.
  destruct (full_table_splits _ _ _ _ _ _ Hfull Hk) as [p Hp].
  destruct (preprocess_data_returns tx fs input_path output_dir prm disk
              full p Hfull Hp) as (disk' & Hrun & Hsaved).
  destruct (split_last prm full p k Hp Hk Hpos) as (y & Hy & Hrest).
  exists disk', p, y. done.
Qed.

Lemma test_partition_is_the_last_rows_witness :
  ∃ full disk' p y,
    full_table sample_text (one_file "raw.csv" five_rows) "raw.csv"
      (sample_params "y" ["p"] (1 # 2)) = Ok full ∧
    len full = 4%nat ∧
    preprocess_data sample_text (one_file "raw.csv" five_rows) "raw.csv"
      "data/processed" (sample_params "y" ["p"] (1 # 2)) ∅ = (Ok tt, disk') ∧
    saved_as disk' "data/processed" p ∧
    getitem ["y"] full = Ok y ∧
    X_train p = map_rows (λ A, take 2) (drop_column "y" full) ∧
    X_test p = map_rows (λ A, drop 2) (drop_column "y" full) ∧
    y_train p = map_rows (λ A, take 2) y ∧
    y_test p = map_rows (λ A, drop 2) y ∧
    Z.of_nat (len (X_test p)) = 2 ∧ Z.of_nat (len (y_test p)) = 2.
Proof.
  eexists.
  edestruct (test_partition_is_the_last_rows sample_text
               (one_file "raw.csv" five_rows) "raw.csv" "data/processed"
               (sample_params "y" ["p"] (1 # 2)) ∅)
    as (disk' & p & y & Hrun & Hsaved & Hy & Hrest);
    [vm_compute; reflexivity | vm_compute; reflexivity
    | split; [reflexivity | by vm_compute] |].
  exists disk', p, y. split; [reflexivity|]. split; [reflexivity|].
  split; [exact Hrun|]. split; [exact Hsaved|]. split; [exact Hy|].
  exact Hrest.
Defined.

(** C2, as the code has it.  Four readings at the consecutive times [T],
    [T+1], [T+2], [T+3], a target [y], the single feature [p] and a ratio
    of 1/2: the row at [T] has no lagged value and is dropped, three
    rows are left, the test size is the floor of 3/2, that is 1, and the
    run saves the rows at [T+1] and [T+2] for training and the row at
    [T+3] for testing, each with the target of its own time and, as a
    float64, the feature of the time before. *)
Theorem four_rows_split_two_and_one
    tx (T : Z) (y0 y1 y2 y3 p0 p1 p2 p3 : Q) (path output_dir : string) disk :
  ∃ full disk',
    full_table tx (one_file path (four_rows T y0 y1 y2 y3 p0 p1 p2 p3)) path
      (sample_params "y" ["p"] (1 # 2)) = Ok full ∧
    index full = [Tm (T + 1); Tm (T + 2); Tm (T + 3)] ∧
    test_size_of (len full) (FloatLit (1 # 2)) = Ok 1 ∧
    preprocess_data tx (one_file path (four_rows T y0 y1 y2 y3 p0 p1 p2 p3))
      path output_dir (sample_params "y" ["p"] (1 # 2)) disk = (Ok tt, disk') ∧
    saved_as disk' output_dir
      {| X_train := mkFrame (Some "datetime") [Tm (T + 1); Tm (T + 2)]
                      [("p_lag1", [astype_float64 (Num p0);
                                   astype_float64 (Num p1)])];
         X_test := mkFrame (Some "datetime") [Tm (T + 3)]
                     [("p_lag1", [astype_float64 (Num p2)])];
         y_train := mkFrame (Some "datetime") [Tm (T + 1); Tm (T + 2)]
                      [("y", [Num y1; Num y2])];
         y_test := mkFrame (Some "datetime") [Tm (T + 3)]
                     [("y", [Num y3])] |}.
Proof.
  assert (Hfull :
    full_table tx (one_file path (four_rows T y0 y1 y2 y3 p0 p1 p2 p3)) path
      (sample_params "y" ["p"] (1 # 2))
    = Ok (mkFrame (Some "datetime") [Tm (T + 1); Tm (T + 2); Tm (T + 3)]
            [("y", [Num y1; Num y2; Num y3]);
             ("p_lag1", [astype_float64 (Num p0); astype_float64 (Num p1);
                         astype_float64 (Num p2)])])).
  { unfold full_table, cleaned_table, read_csv, one_file.
    rewrite lookup_singleton_eq. unfold four_rows.
    generalize (T + 1) (T + 2) (T + 3). intros t1 t2 t3.
    cbv -[float64_round]. reflexivity. }
  assert (Hsize : test_size_of 3 (FloatLit (1 # 2)) = Ok 1)
    by (vm_compute; reflexivity).
  eexists.
  edestruct (preprocess_data_returns tx
               (one_file path (four_rows T y0 y1 y2 y3 p0 p1 p2 p3)) path
               output_dir (sample_params "y" ["p"] (1 # 2)) disk)
    as (disk' & Hrun & Hsaved); [exact Hfull | |].
  { unfold split, sample_params. cbn [preprocess target_column test_split_ratio].
    change (len _) with 3%nat. rewrite Hsize. reflexivity. }
  exists disk'. split; [exact Hfull|]. split; [reflexivity|].
  split; [exact Hsize|]. split; [exact Hrun | exact Hsaved].
Qed.

(** C2, as stated, fails: with [T = 0] the run saves the rows at 1 and 2
    for training and the row at 3 for testing, not the row at 1 for
    training and the rows at 2 and 3 for testing. *)
Lemma four_rows_split_is_not_one_and_two :
  ∃ disk' p,
    preprocess_data sample_text
      (one_file "raw.csv" (four_rows 0 10 11 12 13 1 2 3 4)) "raw.csv"
      "data/processed" (sample_params "y" ["p"] (1 # 2)) ∅ = (Ok tt, disk') ∧
    saved_as disk' "data/processed" p ∧
    index (X_train p) = [Tm 1; Tm 2] ∧
    index (X_test p) = [Tm 3] ∧
    index (X_train p) ≠ [Tm (0 + 1)] ∧
    index (X_test p) ≠ [Tm (0 + 2); Tm (0 + 3)].
Proof.
  edestruct (preprocess_data_returns sample_text
               (one_file "raw.csv" (four_rows 0 10 11 12 13 1 2 3 4))
               "raw.csv" "data/processed"
               (sample_params "y" ["p"] (1 # 2)) ∅)
    as (disk' & Hrun & Hsaved);
    [vm_compute; reflexivity | vm_compute; reflexivity |].
  exists disk'. eexists. split; [exact Hrun|]. split; [exact Hsaved|].
  repeat split; discriminate.
Qed.

(** ** Order in time *)

Lemma split_index prm full p :
  split prm full = Ok p →
  index (X_train p) ++ index (X_test p) = index full ∧
  index (y_train p) ++ index (y_test p) = index full.
Proof.
  intros (y & k & Hy & _ & _ & HXtr & HXte & Hytr & Hyte)%split_inv.
  rewrite HXtr, HXte, Hytr, Hyte, !index_take_drop.
  apply getitem_inv in Hy as (cs & _ & ->). done.
Qed.

Lemma lagged_table_index prm df full :
  lagged_table prm df = Ok full → index full `sublist_of` index df.
Proof.
  intros (y & X & Hy & _ & ->)%lagged_table_inv.
  apply getitem_inv in Hy as (cs & _ & ->). apply select_sublist.
Qed.

Lemma cleaned_table_inv tx fs input_path df' :
  cleaned_table tx fs input_path = Ok df' →
  ∃ df, read_csv fs IndexDatetime input_path = Ok df ∧ cleaned tx df = Ok df'.
Proof.
  unfold cleaned_table.
  destruct (read_csv fs IndexDatetime input_path) as [df|e]; simpl;
    [eauto | discriminate].
Qed.

(** The partitions of a table whose times ascend. *)
Lemma split_ascending prm full p :
  split prm full = Ok p →
  StronglySorted Z.lt (timestamps (index full)) →
  (∀ a b, a ∈ timestamps (index (X_test p)) →
          b ∈ timestamps (index (X_train p)) → b < a) ∧
  (∀ a b, a ∈ timestamps (index (y_test p)) →
          b ∈ timestamps (index (y_train p)) → b < a).
Proof.
  intros [HX Hy]%split_index Hsorted.
  split; intros a b Ha Hb;
    eapply (StronglySorted_app_1_elem_of Z.lt); try eassumption;
    rewrite <- timestamps_app; congruence.
Qed.

(** C4, as the code has it.  For every table read whose times stand in
    strictly ascending order, every time in the test partitions saved is
    strictly later than every time in the train partitions saved. *)
Theorem test_times_follow_train_times
    tx fs input_path output_dir prm disk disk' df :
  read_csv fs IndexDatetime input_path = Ok df →
  StronglySorted Z.lt (timestamps (index df)) →
  preprocess_data tx fs input_path output_dir prm disk = (Ok tt, disk') →
  ∃ p,
    saved_as disk' output_dir p ∧
    (∀ a b, a ∈ timestamps (index (X_test p)) →
            b ∈ timestamps (index (X_train p)) → b < a) ∧
    (∀ a b, a ∈ timestamps (index (y_test p)) →
            b ∈ timestamps (index (y_train p)) → b < a).
Proof.
  intros Hread Hsorted (df' & full & p & Hclean & Hfull & _ & Hp & Hsaved)
    %preprocess_data_inv.
  exists p. split; [exact Hsaved|]. apply (split_ascending prm full); [done|].
  apply cleaned_table_inv in Hclean as (df0 & Hread0 & Hclean).
  assert (df0 = df) as -> by congruence.
  apply cleaned_inv in Hclean as (_ & Hix & _).
  eapply StronglySorted_sublist; [|exact Hsorted].
  apply sublist_omap. rewrite <- Hix. by eapply lagged_table_index.
Qed.

Lemma test_times_follow_train_times_witness :
  StronglySorted Z.lt (timestamps (index five_rows)) ∧
  ∃ disk',
    preprocess_data sample_text (one_file "raw.csv" five_rows) "raw.csv"
      "data/processed" (sample_params "y" ["p"] (1 # 2)) ∅ = (Ok tt, disk') ∧
    ∃ p,
      saved_as disk' "data/processed" p ∧
      (∀ a b, a ∈ timestamps (index (X_test p)) →
              b ∈ timestamps (index (X_train p)) → b < a) ∧
      (∀ a b, a ∈ timestamps (index (y_test p)) →
              b ∈ timestamps (index (y_train p)) → b < a).
Proof.
  assert (Hsorted : StronglySorted Z.lt (timestamps (index five_rows)))
    by (repeat constructor; lia).
  split; [exact Hsorted|].
  edestruct (preprocess_data_returns sample_text
               (one_file "raw.csv" five_rows) "raw.csv" "data/processed"
               (sample_params "y" ["p"] (1 # 2)) ∅)
    as (disk' & Hrun & _);
    [vm_compute; reflexivity | vm_compute; reflexivity |].
  exists disk'. split; [exact Hrun|].
  exact (test_times_follow_train_times sample_text
           (one_file "raw.csv" five_rows) "raw.csv" "data/processed"
           (sample_params "y" ["p"] (1 # 2)) ∅ disk' five_rows
           eq_refl Hsorted Hrun).
Defined.

(** C4, as stated, fails: readings stored at the times 5, 3, 1 give a
    train partition at time 3 and a test partition at time 1. *)
Lemma test_time_before_train_time :
  ∃ disk' p,
    preprocess_data sample_text (one_file "raw.csv" unsorted_rows) "raw.csv"
      "data/processed" (sample_params "y" ["p"] (1 # 2)) ∅ = (Ok tt, disk') ∧
    saved_as disk' "data/processed" p ∧
    timestamps (index (X_train p)) = [3] ∧
    timestamps (index (X_test p)) = [1] ∧
    1 < 3.
Proof.
  edestruct (preprocess_data_returns sample_text
               (one_file "raw.csv" unsorted_rows) "raw.csv" "data/processed"
               (sample_params "y" ["p"] (1 # 2)) ∅)
    as (disk' & Hrun & Hsaved);
    [vm_compute; reflexivity | vm_compute; reflexivity |].
  exists disk'. eexists. split; [exact Hrun|]. split; [exact Hsaved|].
  repeat split.
Qed.

(** ** The cleaned table *)

(** C5, as the code has it.  For every table read with a datetime index,
    cleaning returns a table over the same index, label for label in the
    order read: nothing is sorted and nothing is dropped, so the cleaned
    index ascends strictly, or is free of repeated times, exactly when
    the index read is. *)
Theorem cleaning_keeps_the_index tx fs input_path df :
  read_csv fs IndexDatetime input_path = Ok df →
  is_datetime_index (index df) = true →
  ∃ df',
    cleaned_table tx fs input_path = Ok df' ∧
    index df' = index df ∧
    (StronglySorted Z.lt (timestamps (index df'))
     ↔ StronglySorted Z.lt (timestamps (index df))) ∧
    (NoDup (index df') ↔ NoDup (index df)).
Proof.
  intros Hread Hix. destruct (cleaned_returns tx df Hix) as [df' Hclean].
  exists df'. unfold cleaned_table. rewrite Hread. simpl.
  split; [exact Hclean|].
  apply cleaned_inv in Hclean as (_ & -> & _). done.
Qed.

Lemma cleaning_keeps_the_index_witness :
  is_datetime_index (index five_rows) = true ∧
  ∃ df',
    cleaned_table sample_text (one_file "raw.csv" five_rows) "raw.csv"
      = Ok df' ∧
    index df' = index five_rows ∧
    (StronglySorted Z.lt (timestamps (index df'))
     ↔ StronglySorted Z.lt (timestamps (index five_rows))) ∧
    (NoDup (index df') ↔ NoDup (index five_rows)).
Proof.
  split; [reflexivity|].
  exact (cleaning_keeps_the_index sample_text (one_file "raw.csv" five_rows)
           "raw.csv" five_rows eq_refl eq_refl).
Defined.

(** C5, as stated, fails: a table read with the times 2, 1, 1 is cleaned
    into a table with the times 2, 1, 1, which neither ascend nor are
    free of repetition. *)
Lemma cleaned_index_unsorted_with_repeats :
  ∃ df',
    is_datetime_index (index repeated_rows) = true ∧
    cleaned_table sample_text (one_file "raw.csv" repeated_rows) "raw.csv"
      = Ok df' ∧
    index df' = [Tm 2; Tm 1; Tm 1] ∧
    ¬ StronglySorted Z.lt (timestamps (index df')) ∧
    ¬ NoDup (index df').
Proof.
  eexists. split; [reflexivity|]. split; [vm_compute; reflexivity|].
  split; [reflexivity|]. split.
  - intros Hs. apply StronglySorted_inv in Hs as [_ Hs].
    apply Forall_inv in Hs. lia.
  - intros Hnd. apply NoDup_cons in Hnd as [_ Hnd].
    apply NoDup_cons in Hnd as [Hnin _]. apply Hnin. left.
Qed.

(** ** The feature matrix *)

Lemma col_names_concat_columns a b :
  col_names (concat_columns a b) = col_names a ++ col_names b.
Proof. unfold col_names, concat_columns. simpl. apply fmap_app. Qed.

Lemma lagged_table_col_names prm df full :
  NoDup (col_names df) →
  lagged_table prm df = Ok full →
  col_names full =
  target_column (preprocess prm)
    :: ((λ col, col +:+ "_lag1") <$> features (train prm)).
Proof.
  intros Hnd (y & X & Hy & HX & ->)%lagged_table_inv.
  rewrite col_names_dropna, col_names_concat_columns.
  rewrite col_names_create_lagged_features.
  apply getitem_inv in Hy as (ycs & Hy & ->).
  apply getitem_inv in HX as (Xcs & HX & ->).
  apply getitem_cols_names in Hy; [|exact Hnd].
  apply getitem_cols_names in HX; [|exact Hnd].
  unfold col_names. simpl. rewrite Hy, HX. reflexivity.
Qed.

Lemma split_col_names prm full p :
  split prm full = Ok p →
  col_names (X_train p)
    = filter (λ n, n ≠ target_column (preprocess prm)) (col_names full) ∧
  col_names (X_test p)
    = filter (λ n, n ≠ target_column (preprocess prm)) (col_names full).
Proof.
  intros (y & k & _ & _ & _ & -> & -> & _)%split_inv.
  rewrite !col_names_map_rows, col_names_drop_column. done.
Qed.

(** C6, as the code has it.  For a table read under distinct column
    names, the feature tables saved hold one column for each configured
    feature, in the configured order, named by the feature name with the
    suffix [_lag1] (a lagged name equal to the target's name left out),
    and no other column: no column under an unlagged name, and a calendar
    column only where the configuration lists it as a feature. *)
Theorem feature_matrix_holds_the_lagged_features
    tx fs input_path output_dir prm disk disk' df :
  read_csv fs IndexDatetime input_path = Ok df →
  NoDup (col_names df) →
  preprocess_data tx fs input_path output_dir prm disk = (Ok tt, disk') →
  ∃ p,
    saved_as disk' output_dir p ∧
    col_names (X_train p)
      = filter (λ n, n ≠ target_column (preprocess prm))
          ((λ col, col +:+ "_lag1") <$> features (train prm)) ∧
    col_names (X_test p) = col_names (X_train p).
Proof.
  intros Hread Hnd (df' & full & p & Hclean & Hfull & _ & Hp & Hsaved)
    %preprocess_data_inv.
  exists p. split; [exact Hsaved|].
  apply cleaned_table_inv in Hclean as (df0 & Hread0 & Hclean).
  assert (df0 = df) as -> by congruence.
  apply (NoDup_col_names_cleaned _ _ _ Hclean) in Hnd.
  apply (lagged_table_col_names _ _ _ Hnd) in Hfull.
  apply split_col_names in Hp as [-> ->]. rewrite Hfull.
  rewrite filter_cons_False by (intros Hne; by apply Hne). done.
Qed.

Lemma feature_matrix_holds_the_lagged_features_witness :
  NoDup (col_names five_rows) ∧
  ∃ disk',
    preprocess_data sample_text (one_file "raw.csv" five_rows) "raw.csv"
      "data/processed" (sample_params "y" ["p"; "hour_of_day"] (1 # 2)) ∅
      = (Ok tt, disk') ∧
    ∃ p,
      saved_as disk' "data/processed" p ∧
      col_names (X_train p) = ["p_lag1"; "hour_of_day_lag1"] ∧
      col_names (X_test p) = col_names (X_train p).
Proof.
  assert (Hnd : NoDup (col_names five_rows)) by compute_done.
  split; [exact Hnd|].
  edestruct (preprocess_data_returns sample_text
               (one_file "raw.csv" five_rows) "raw.csv" "data/processed"
               (sample_params "y" ["p"; "hour_of_day"] (1 # 2)) ∅)
    as (disk' & Hrun & _);
    [vm_compute; reflexivity | vm_compute; reflexivity |].
  exists disk'. split; [exact Hrun|].
  exact (feature_matrix_holds_the_lagged_features sample_text
           (one_file "raw.csv" five_rows) "raw.csv" "data/processed"
           (sample_params "y" ["p"; "hour_of_day"] (1 # 2)) ∅ disk' five_rows
           eq_refl Hnd Hrun).
Defined.

(** C6, as stated, fails: with the one configured feature [p] the
    feature tables saved have the one column [p_lag1]; the column [p]
    is not among them, nor is any of the four calendar columns, lagged
    or not. *)
Lemma feature_matrix_without_unlagged_columns :
  ∃ disk' p,
    preprocess_data sample_text (one_file "raw.csv" five_rows) "raw.csv"
      "data/processed" (sample_params "y" ["p"] (1 # 2)) ∅ = (Ok tt, disk') ∧
    saved_as disk' "data/processed" p ∧
    col_names (X_train p) = ["p_lag1"] ∧
    col_names (X_test p) = ["p_lag1"] ∧
    ("p" ∉ col_names (X_train p)) ∧
    Forall (λ n, (n ∉ col_names (X_train p)) ∧
                 ((n +:+ "_lag1") ∉ col_names (X_train p)))
      ["hour_of_day"; "day_of_week"; "month"; "year"].
Proof.
  edestruct (preprocess_data_returns sample_text
               (one_file "raw.csv" five_rows) "raw.csv" "data/processed"
               (sample_params "y" ["p"] (1 # 2)) ∅)
    as (disk' & Hrun & Hsaved);
    [vm_compute; reflexivity | vm_compute; reflexivity |].
  exists disk'. eexists. split; [exact Hrun|]. split; [exact Hsaved|].
  split; [reflexivity|]. split; [reflexivity|].
  split; [|repeat constructor]; compute_done.
Qed.

(** ** The target *)

Lemma columns_dropna df :
  columns (dropna df) =
  (λ c : column, (c.1, select (complete_rows df) c.2)) <$> columns df.
Proof. reflexivity. Qed.

(** The target rows of the table that is split are rows of the cleaned
    table's target column, each under its own label. *)
Lemma lagged_table_target_rows prm df full y :
  lagged_table prm df = Ok full →
  getitem [target_column (preprocess prm)] full = Ok y →
  ∃ target_cells,
    get_column (target_column (preprocess prm)) df = Ok target_cells ∧
    rows_of y `sublist_of` zip (index df) target_cells.
Proof.
  intros (y0 & X & Hy0 & _ & ->)%lagged_table_inv Hy.
  apply getitem_one in Hy0 as [Hne ->].
  apply getitem_one in Hy as [_ ->].
  unfold get_column.
  destruct (cols_named _ (columns df)) as [|[n c] found] eqn:Hfound; [done|].
  assert (Hc : (n, c) ∈ cols_named (target_column (preprocess prm)) (columns df))
    by (rewrite Hfound; left).
  apply list_elem_of_filter in Hc as [Hn _]. simpl in Hn. subst n.
  exists c. split; [reflexivity|].
  unfold rows_of. rewrite columns_dropna. simpl.
  unfold cols_named at 1. rewrite filter_cons_True by reflexivity. simpl.
  rewrite select_zip. apply select_sublist.
Qed.

(** C7.  Every row of the target tables saved is a row of the cleaned
    table's target column: the value saved under a label is the value
    the cleaned target has under that label, and the rows saved follow
    one another as they do in the cleaned table.  Lagging moves the
    features only. *)
Theorem target_is_never_shifted tx fs input_path output_dir prm disk disk' :
  preprocess_data tx fs input_path output_dir prm disk = (Ok tt, disk') →
  ∃ df' target_cells p,
    cleaned_table tx fs input_path = Ok df' ∧
    get_column (target_column (preprocess prm)) df' = Ok target_cells ∧
    saved_as disk' output_dir p ∧
    rows_of (y_train p) ++ rows_of (y_test p)
      `sublist_of` zip (index df') target_cells ∧
    (∀ t v, (t, v) ∈ rows_of (y_train p) ∨ (t, v) ∈ rows_of (y_test p) →
            (t, v) ∈ zip (index df') target_cells).
Proof.
  intros (df' & full & p & Hclean & Hfull & _ & Hp & Hsaved)
    %preprocess_data_inv.
  apply split_inv in Hp as (y & k & Hy & _ & _ & _ & _ & Hytr & Hyte).
  destruct (lagged_table_target_rows _ _ _ _ Hfull Hy)
    as (target_cells & Htarget & Hsub).
  exists df', target_cells, p.
  assert (Hrows : rows_of (y_train p) ++ rows_of (y_test p) = rows_of y)
    by (rewrite Hytr, Hyte; apply rows_of_take_drop).
  split_and!; try done.
  - by rewrite Hrows.
  - intros t v Hin. eapply elem_of_sublist; [|exact Hsub].
    rewrite <- Hrows. apply elem_of_app. exact Hin.
Qed.

Lemma target_is_never_shifted_witness :
  ∃ disk',
    preprocess_data sample_text (one_file "raw.csv" five_rows) "raw.csv"
      "data/processed" (sample_params "y" ["p"] (1 # 2)) ∅ = (Ok tt, disk') ∧
    ∃ df' target_cells p,
      cleaned_table sample_text (one_file "raw.csv" five_rows) "raw.csv"
        = Ok df' ∧
      get_column "y" df' = Ok target_cells ∧
      saved_as disk' "data/processed" p ∧
      rows_of (y_train p) ++ rows_of (y_test p)
        `sublist_of` zip (index df') target_cells ∧
      (∀ t v, (t, v) ∈ rows_of (y_train p) ∨ (t, v) ∈ rows_of (y_test p) →
              (t, v) ∈ zip (index df') target_cells).
Proof.
  edestruct (preprocess_data_returns sample_text
               (one_file "raw.csv" five_rows) "raw.csv" "data/processed"
               (sample_params "y" ["p"] (1 # 2)) ∅)
    as (disk' & Hrun & _);
    [vm_compute; reflexivity | vm_compute; reflexivity |].
  exists disk'. split; [exact Hrun|].
  exact (target_is_never_shifted sample_text (one_file "raw.csv" five_rows)
           "raw.csv" "data/processed" (sample_params "y" ["p"] (1 # 2))
           ∅ disk' Hrun).
Defined.

(** ** The raw loader *)

Lemma get_column_returns name df :
  has_column name df = true → ∃ cells, get_column name df = Ok cells.
Proof.
  unfold has_column, get_column. intros Hin%bool_decide_eq_true.
  destruct (cols_named name (columns df)) as [|c found] eqn:Hfound; [|eauto].
  exfalso. apply list_elem_of_fmap in Hin as ([n c] & Heq & Hin).
  simpl in Heq. subst n.
  assert (Hc : (name, c) ∈ cols_named name (columns df))
    by (apply list_elem_of_filter; done).
  rewrite Hfound in Hc. by apply not_elem_of_nil in Hc.
Qed.

Lemma has_column_setitem name values df :
  has_column name (setitem name values df) = true.
Proof.
  unfold has_column at 1. apply bool_decide_eq_true.
  rewrite col_names_setitem. destruct (has_column name df) eqn:Hcol.
  - by apply bool_decide_eq_true in Hcol.
  - apply elem_of_app. right. left.
Qed.

Lemma set_index_setitem_returns name values df :
  ∃ df', set_index name (setitem name values df) = Ok df'.
Proof.
  unfold set_index.
  destruct (get_column_returns name (setitem name values df)
              (has_column_setitem name values df)) as [cells ->].
  simpl. eauto.
Qed.

Lemma index_by_date_and_time_returns tx df :
  has_column "Date" df = true → has_column "Time" df = true →
  ∃ df', index_by_date_and_time tx df = Ok df'.
Proof.
  intros [date Hdate]%get_column_returns [time Htime]%get_column_returns.
  unfold index_by_date_and_time. rewrite Hdate, Htime. simpl.
  match goal with
  | |- context [set_index "datetime" (setitem "datetime" ?v df)] =>
      destruct (set_index_setitem_returns "datetime" v df) as [df' ->]
  end.
  simpl. eauto.
Qed.






(** The raw file of the data set loads into an index of one time and one
    NaT, named [datetime], with the Date and Time columns gone. *)
Example load_raw_file_txt :
  load_raw_file sample_text (one_file "raw.txt" raw_txt) "raw.txt"
  = Ok (mkFrame (Some "datetime") [Tm 1166289840000000000; NaN]
          [("Global_active_power", [Str "12"; Str "?"])]).
Proof. vm_compute. reflexivity. Qed.

Example calendar_fields_of_a_reading :
  dt_hour 1166289840000000000 = 17 ∧
  dt_dayofweek 1166289840000000000 = 5 ∧
  dt_month 1166289840000000000 = 12 ∧
  dt_year 1166289840000000000 = 2006.
Proof. repeat split. Qed.

(** ** The trainer *)

Lemma get_model_instance_unsupported init_error model_name kw :
  model_name ∉ supported_models →
  get_model_instance init_error model_name kw
  = Raise (ValueError ("Unsupported model type: " +:+ model_name)).
Proof.
  intros Hout. unfold get_model_instance, supported_models in *.
  destruct (String.eqb_spec model_name "RandomForestRegressor") as [->|_];
    [exfalso; apply Hout; set_solver|].
  destruct (String.eqb_spec model_name "XGBoostRegressor") as [->|_];
    [exfalso; apply Hout; set_solver|].
  destruct (String.eqb_spec model_name "LightGBMRegressor") as [->|_];
    [exfalso; apply Hout; set_solver|].
  reflexivity.
Qed.

Lemma train_model_unfold {Fitted} init_error
    (fit : Model → DataFrame → list cell → result Fitted)
    fs model_name model_config prm (saved : gmap string Fitted) :
  train_model init_error fit fs model_name model_config prm saved =
  match
    X_train ← read_csv fs IndexDatetime "data/processed/X_train.csv";
    y_frame ← read_csv fs IndexDatetime "data/processed/y_train.csv";
    y_train ← iloc_col0 y_frame;
    model ← get_model_instance init_error model_name (params model_config);
    fit model X_train y_train
  with
  | Ok fitted =>
      (Ok tt, <[path_join "models" (file_name model_config) := fitted]> saved)
  | Raise e => (Raise e, saved)
  end.
Proof.
  unfold train_model, mbind, run_bind, run_lift, dump, run_modify.
  change (path_join "data/processed" "X_train.csv")
    with "data/processed/X_train.csv".
  change (path_join "data/processed" "y_train.csv")
    with "data/processed/y_train.csv".
  destruct (read_csv fs IndexDatetime "data/processed/X_train.csv")
    as [X|e]; simpl; [|reflexivity].
  destruct (read_csv fs IndexDatetime "data/processed/y_train.csv")
    as [Y|e]; simpl; [|reflexivity].
  destruct (iloc_col0 Y) as [y|e]; simpl; [|reflexivity].
  destruct (get_model_instance init_error model_name (params model_config))
    as [m|e]; simpl; [|reflexivity].
  destruct (fit m X y); reflexivity.
Qed.

(** C9, as the code has it.  For every model type name outside the three
    names known, [get_model_instance] raises the unsupported-model-type
    error, and training raises and leaves the saved models as they were.
    The tables are read first, so what training raises is the error of
    the first step that fails: of reading [X_train.csv], of reading
    [y_train.csv], of taking the first column of the target table when
    it has none, and the unsupported-model-type error when these three
    go through.  For each of the three names known, [get_model_instance]
    calls the constructor of the type of that name on the parameters
    given: it returns the instance, or raises what the constructor
    raises. *)
Theorem unsupported_model_type_is_refused {Fitted} init_error
    (fit : Model → DataFrame → list cell → result Fitted)
    fs model_name model_config prm (saved : gmap string Fitted) :
  model_name ∉ supported_models →
  get_model_instance init_error model_name (params model_config)
    = Raise (ValueError ("Unsupported model type: " +:+ model_name)) ∧
  train_model init_error fit fs model_name model_config prm saved
    = (Raise
         match read_csv fs IndexDatetime "data/processed/X_train.csv" with
         | Raise e => e
         | Ok _ =>
             match read_csv fs IndexDatetime "data/processed/y_train.csv" with
             | Raise e => e
             | Ok y_frame =>
                 match columns y_frame with
                 | [] => IndexError
                 | _ :: _ =>
                     ValueError ("Unsupported model type: " +:+ model_name)
                 end
             end
         end,
       saved) ∧
  (∀ kw,
     get_model_instance init_error "RandomForestRegressor" kw
       = match init_error (RandomForestRegressor kw) with
         | Some e => Raise e
         | None => Ok (RandomForestRegressor kw)
         end ∧
     get_model_instance init_error "XGBoostRegressor" kw
       = match init_error (XGBRegressor kw) with
         | Some e => Raise e
         | None => Ok (XGBRegressor kw)
         end ∧
     get_model_instance init_error "LightGBMRegressor" kw
       = match init_error (LGBMRegressor kw) with
         | Some e => Raise e
         | None => Ok (LGBMRegressor kw)
         end).
Proof.
  intros Hout.
  pose proof (get_model_instance_unsupported init_error model_name
                (params model_config) Hout) as Hraise.
  split; [exact Hraise|]. split; [|done].
  rewrite train_model_unfold, Hraise.
  destruct (read_csv fs IndexDatetime "data/processed/X_train.csv")
    as [X|e]; simpl; [|reflexivity].
  destruct (read_csv fs IndexDatetime "data/processed/y_train.csv")
    as [Y|e]; simpl; [|reflexivity].
  unfold iloc_col0. destruct (columns Y) as [|c cs]; reflexivity.
Qed.

Lemma unsupported_model_type_is_refused_witness :
  ("LinearRegression" ∉ supported_models) ∧
  get_model_instance sample_init_error "LinearRegression"
      (params sample_config)
    = Raise (ValueError "Unsupported model type: LinearRegression") ∧
  train_model sample_init_error sample_fit
      (<["data/processed/y_train.csv" := λ _, Ok five_rows]>
         (one_file "data/processed/X_train.csv" five_rows))
      "LinearRegression" sample_config (sample_params "y" ["p"] (1 # 5)) ∅
    = (Raise (ValueError "Unsupported model type: LinearRegression"), ∅) ∧
  get_model_instance sample_init_error "RandomForestRegressor"
      [("n_estimators", inject_Z 100)]
    = Ok (RandomForestRegressor [("n_estimators", inject_Z 100)]) ∧
  get_model_instance sample_init_error "RandomForestRegressor"
      [("learning_rate", 1 # 10)]
    = Raise TypeError.
Proof.
  assert (Hout : "LinearRegression" ∉ supported_models) by compute_done.
  split; [exact Hout|].
  destruct (unsupported_model_type_is_refused sample_init_error sample_fit
              (<["data/processed/y_train.csv" := λ _, Ok five_rows]>
                 (one_file "data/processed/X_train.csv" five_rows))
              "LinearRegression" sample_config
              (sample_params "y" ["p"] (1 # 5)) ∅ Hout)
    as (Hraise & Hrun & Hknown).
  split; [exact Hraise|]. split; [exact Hrun|].
  split; [exact (proj1 (Hknown _)) | exact (proj1 (Hknown _))].
Defined.

(** C9, as stated, fails twice.  With no training table on disk,
    training with an unknown model type name raises [FileNotFoundError],
    not the unsupported-model-type error; and for the known name
    [RandomForestRegressor] with a keyword its constructor does not
    take, no instance is constructed: the [TypeError] of the constructor
    is raised. *)
Lemma training_reads_before_it_checks_the_name :
  train_model sample_init_error sample_fit ∅ "LinearRegression" sample_config
    (sample_params "y" ["p"] (1 # 5)) ∅
  = (Raise FileNotFoundError, ∅) ∧
  FileNotFoundError ≠ ValueError "Unsupported model type: LinearRegression" ∧
  get_model_instance sample_init_error "RandomForestRegressor"
    [("learning_rate", 1 # 10)]
  = Raise TypeError.
Proof. split; [reflexivity | split; [discriminate | reflexivity]]. Qed.

(** Training with a name known, over training tables that are read,
    saves what fitting returns under the configured file name. *)
Lemma train_model_saves {Fitted} init_error
    (fit : Model → DataFrame → list cell → result Fitted)
    fs model_name model_config prm (saved : gmap string Fitted)
    X Y c cs model fitted :
  read_csv fs IndexDatetime "data/processed/X_train.csv" = Ok X →
  read_csv fs IndexDatetime "data/processed/y_train.csv" = Ok Y →
  columns Y = c :: cs →
  get_model_instance init_error model_name (params model_config) = Ok model →
  fit model X c.2 = Ok fitted →
  train_model init_error fit fs model_name model_config prm saved
  = (Ok tt, <[path_join "models" (file_name model_config) := fitted]> saved).
Proof.
  intros HX HY Hc Hm Hfit. rewrite train_model_unfold, HX. simpl.
  rewrite HY. simpl. unfold iloc_col0. rewrite Hc. simpl.
  rewrite Hm. simpl. rewrite Hfit. reflexivity.
Qed.

Lemma train_model_saves_witness :
  train_model sample_init_error sample_fit
    (<["data/processed/y_train.csv" := λ _, Ok five_rows]>
       (one_file "data/processed/X_train.csv" five_rows))
    "XGBoostRegressor" sample_config (sample_params "y" ["p"] (1 # 5)) ∅
  = (Ok tt, {[ "models/model.joblib" := XGBRegressor (params sample_config) ]}).
Proof.
  exact (train_model_saves sample_init_error sample_fit
           (<["data/processed/y_train.csv" := λ _, Ok five_rows]>
              (one_file "data/processed/X_train.csv" five_rows))
           "XGBoostRegressor" sample_config (sample_params "y" ["p"] (1 # 5))
           ∅ five_rows five_rows _ _ (XGBRegressor (params sample_config))
           (XGBRegressor (params sample_config))
           eq_refl eq_refl eq_refl eq_refl eq_refl).
Defined.

(** * More of the preprocessor *)

(** ** The four tables, row for row *)

(** The feature and the target partitions lie over the same rows, and
    the train and the test partitions together are the rows of the
    table that is split, each once and in order, whatever the ratio. *)
Theorem partitions_share_their_rows
    tx fs input_path output_dir prm disk disk' :
  preprocess_data tx fs input_path output_dir prm disk = (Ok tt, disk') →
  ∃ full p,
    full_table tx fs input_path prm = Ok full ∧
    saved_as disk' output_dir p ∧
    index (X_train p) = index (y_train p) ∧
    index (X_test p) = index (y_test p) ∧
    index (X_train p) ++ index (X_test p) = index full.
Proof.
  intros (df' & full & p & _ & _ & Hfull & Hp & Hsaved)%preprocess_data_inv.
  exists full, p. split; [exact Hfull|]. split; [exact Hsaved|].
  destruct (split_index _ _ _ Hp) as [HX _].
  apply split_inv in Hp as (y & k & Hy & _ & _ & HXtr & HXte & Hytr & Hyte).
  apply getitem_inv in Hy as (cs & _ & ->).
  rewrite HXtr, HXte, Hytr, Hyte in *. done.
Qed.

Lemma partitions_share_their_rows_witness :
  ∃ disk',
    preprocess_data sample_text (one_file "raw.csv" five_rows) "raw.csv"
      "data/processed" (sample_params "y" ["p"] (3 # 2)) ∅ = (Ok tt, disk') ∧
    ∃ full p,
      full_table sample_text (one_file "raw.csv" five_rows) "raw.csv"
        (sample_params "y" ["p"] (3 # 2)) = Ok full ∧
      saved_as disk' "data/processed" p ∧
      index (X_train p) = index (y_train p) ∧
      index (X_test p) = index (y_test p) ∧
      index (X_train p) ++ index (X_test p) = index full.
Proof.
  edestruct (preprocess_data_returns sample_text
               (one_file "raw.csv" five_rows) "raw.csv" "data/processed"
               (sample_params "y" ["p"] (3 # 2)) ∅)
    as (disk' & Hrun & _);
    [vm_compute; reflexivity | vm_compute; reflexivity |].
  exists disk'. split; [exact Hrun|].
  exact (partitions_share_their_rows sample_text
           (one_file "raw.csv" five_rows) "raw.csv" "data/processed"
           (sample_params "y" ["p"] (3 # 2)) ∅ disk' Hrun).
Defined.

(** ** No missing value is saved *)

Lemma elem_of_select {A} (P : nat → bool) (l : list A) k n x :
  x ∈ select (P <$> seq k n) l →
  ∃ i, l !! i = Some x ∧ P (k + i)%nat = true.
Proof.
  revert k l. induction n as [|n IH]; intros k l; simpl.
  - intros Hx. by apply not_elem_of_nil in Hx.
  - destruct l as [|y l]; [intros Hx; by apply not_elem_of_nil in Hx|].
    destruct (P k) eqn:HP.
    + intros [-> | Hx]%elem_of_cons.
      * exists 0%nat. by rewrite Nat.add_0_r.
      * destruct (IH _ _ Hx) as (i & Hi & HPi). exists (S i).
        by rewrite Nat.add_succ_r.
    + intros Hx. destruct (IH _ _ Hx) as (i & Hi & HPi). exists (S i).
      by rewrite Nat.add_succ_r.
Qed.

Lemma row_complete_lookup (cs : list column) c i x :
  row_complete cs i = true → c ∈ cs → c.2 !! i = Some x → isna x = false.
Proof.
  unfold row_complete. intros Hall Hc Hx.
  apply Is_true_true, forallb_True in Hall.
  rewrite Forall_forall in Hall. specialize (Hall c Hc).
  rewrite Hx in Hall. by destruct (isna x).
Qed.

Lemma dropna_has_no_missing_value df c x :
  c ∈ columns (dropna df) → x ∈ c.2 → isna x = false.
Proof.
  rewrite columns_dropna. intros ([n c0] & -> & Hc0)%list_elem_of_fmap Hx.
  simpl in Hx. unfold complete_rows in Hx.
  apply elem_of_select in Hx as (i & Hi & Hrow).
  eapply row_complete_lookup; [exact Hrow | exact Hc0 | exact Hi].
Qed.

Lemma map_rows_take_drop_cells b df c x :
  c ∈ columns (map_rows (λ A, take b) df) ∨
  c ∈ columns (map_rows (λ A, drop b) df) →
  x ∈ c.2 → ∃ c0, c0 ∈ columns df ∧ c.1 = c0.1 ∧ x ∈ c0.2.
Proof.
  unfold map_rows. simpl.
  intros [([n c0] & -> & Hc0)%list_elem_of_fmap
         |([n c0] & -> & Hc0)%list_elem_of_fmap] Hx; simpl in Hx;
    exists (n, c0); split_and!; try done;
    eapply elem_of_sublist; [exact Hx | apply sublist_take
                            | exact Hx | apply sublist_drop].
Qed.

(** The cells of a table, column after column. *)
Lemma split_cells prm full p d c x :
  split prm full = Ok p →
  d ∈ [X_train p; X_test p; y_train p; y_test p] →
  c ∈ columns d → x ∈ c.2 →
  ∃ c0, c0 ∈ columns full ∧ c.1 = c0.1 ∧ x ∈ c0.2.
Proof.
  intros (y & k & Hy & _ & _ & HXtr & HXte & Hytr & Hyte)%split_inv Hd Hc Hx.
  apply getitem_one in Hy as [_ ->].
  assert (Hfrom :
    (∃ c0, c0 ∈ columns (drop_column (target_column (preprocess prm)) full)
           ∧ c.1 = c0.1 ∧ x ∈ c0.2) ∨
    (∃ c0, c0 ∈ cols_named (target_column (preprocess prm)) (columns full)
           ∧ c.1 = c0.1 ∧ x ∈ c0.2)).
  { repeat (apply elem_of_cons in Hd as [-> | Hd]);
      [..| by apply not_elem_of_nil in Hd].
    - left. rewrite HXtr in Hc. eapply map_rows_take_drop_cells; eauto.
    - left. rewrite HXte in Hc. eapply map_rows_take_drop_cells; eauto.
    - right. rewrite Hytr in Hc.
      destruct (map_rows_take_drop_cells _ _ _ _ (or_introl Hc) Hx)
        as (c0 & Hc0 & ?). eauto.
    - right. rewrite Hyte in Hc.
      destruct (map_rows_take_drop_cells _ _ _ _ (or_intror Hc) Hx)
        as (c0 & Hc0 & ?). eauto. }
  destruct Hfrom as [(c0 & Hc0 & ?) | (c0 & Hc0 & ?)]; exists c0;
    (split; [|done]).
  - unfold drop_column in Hc0. simpl in Hc0.
    by apply list_elem_of_filter in Hc0 as [_ ?].
  - by apply list_elem_of_filter in Hc0 as [_ ?].
Qed.

(** No cell of the four tables saved is missing: a row with a missing
    target or a missing lagged feature is in none of them. *)
Theorem saved_tables_have_no_missing_value
    tx fs input_path output_dir prm disk disk' :
  preprocess_data tx fs input_path output_dir prm disk = (Ok tt, disk') →
  ∃ p,
    saved_as disk' output_dir p ∧
    ∀ d c x,
      d ∈ [X_train p; X_test p; y_train p; y_test p] →
      c ∈ columns d → x ∈ c.2 → isna x = false.
Proof.
  intros (df' & full & p & _ & Hfull & _ & Hp & Hsaved)%preprocess_data_inv.
  exists p. split; [exact Hsaved|]. intros d c x Hd Hc Hx.
  destruct (split_cells _ _ _ _ _ _ Hp Hd Hc Hx) as (c0 & Hc0 & _ & Hx0).
  apply lagged_table_inv in Hfull as (y & X & _ & _ & ->).
  eapply dropna_has_no_missing_value; eassumption.
Qed.

Lemma saved_tables_have_no_missing_value_witness :
  ∃ disk',
    preprocess_data sample_text (one_file "raw.csv" five_rows) "raw.csv"
      "data/processed" (sample_params "y" ["p"] (1 # 2)) ∅ = (Ok tt, disk') ∧
    ∃ p,
      saved_as disk' "data/processed" p ∧
      ∀ d c x,
        d ∈ [X_train p; X_test p; y_train p; y_test p] →
        c ∈ columns d → x ∈ c.2 → isna x = false.
Proof.
  edestruct (preprocess_data_returns sample_text
               (one_file "raw.csv" five_rows) "raw.csv" "data/processed"
               (sample_params "y" ["p"] (1 # 2)) ∅)
    as (disk' & Hrun & _);
    [vm_compute; reflexivity | vm_compute; reflexivity |].
  exists disk'. split; [exact Hrun|].
  exact (saved_tables_have_no_missing_value sample_text
           (one_file "raw.csv" five_rows) "raw.csv" "data/processed"
           (sample_params "y" ["p"] (1 # 2)) ∅ disk' Hrun).
Defined.

(** ** The features saved are those of the row before *)

Lemma getitem_cols_from names (cs r : list column) c :
  getitem_cols names cs = Ok r → c ∈ r → c ∈ cs ∧ c.1 ∈ names.
Proof.
  revert r. induction names as [|n names IH]; simpl; intros r.
  - intros [= <-] Hc. by apply not_elem_of_nil in Hc.
  - destruct (cols_named n cs) as [|c1 found] eqn:Hfound; [discriminate|].
    destruct (getitem_cols names cs) as [more|e]; simpl; [|discriminate].
    intros [= <-] Hc. rewrite app_comm_cons in Hc.
    apply elem_of_app in Hc as [Hc | Hc].
    + rewrite <- Hfound in Hc. apply list_elem_of_filter in Hc as [Hn Hc].
      split; [exact Hc|]. rewrite Hn. left.
    + destruct (IH more eq_refl Hc) as [? ?]. split; [done | by right].
Qed.

(** The columns of the table that is split, other than the target's,
    are lagged columns of configured features of the cleaned table,
    over the rows kept. *)
Lemma lagged_table_feature_rows prm df full c :
  lagged_table prm df = Ok full →
  c ∈ columns (drop_column (target_column (preprocess prm)) full) →
  ∃ f fcells,
    f ∈ features (train prm) ∧ (f, fcells) ∈ columns df ∧
    c.1 = f +:+ "_lag1" ∧
    zip (index full) c.2 `sublist_of` zip (index df) (shift_cells 1 fcells).
Proof.
  intros (y & X & Hy & HX & ->)%lagged_table_inv Hc.
  apply getitem_one in Hy as [_ ->].
  apply getitem_inv in HX as (Xcs & HX & ->).
  unfold drop_column in Hc. cbn [columns] in Hc.
  apply list_elem_of_filter in Hc as [Hne Hc].
  rewrite columns_dropna in Hc.
  apply list_elem_of_fmap in Hc as ([n c0] & -> & Hc0).
  set (mask := complete_rows _) in *.
  unfold concat_columns in Hc0. cbn [columns fst snd] in *.
  apply elem_of_app in Hc0 as [Hc0 | Hc0].
  { apply list_elem_of_filter in Hc0 as [Hn _]. simpl in Hn. done. }
  rewrite create_lagged_features_columns in Hc0. cbn [columns] in Hc0.
  apply list_elem_of_fmap in Hc0 as ([f fcells] & [= -> ->] & Hf).
  destruct (getitem_cols_from _ _ _ _ HX Hf) as [Hin Hfeat].
  exists f, fcells. split_and!; try done.
  unfold dropna, map_rows. cbn [index concat_columns].
  rewrite select_zip. apply select_sublist.
Qed.

(** No column of the cleaned table holds strings: cleaning has made
    every column of strings numeric, and the time-based features are
    numbers. *)
Lemma is_object_ffill_from (last : cell) (l : list cell) :
  (∀ s, last ≠ Str s) → is_object l = false →
  is_object (ffill_from last l) = false.
Proof.
  revert last. induction l as [|x l IH]; intros last Hlast; [done|].
  unfold is_object in *. simpl. intros [Hx Hl]%orb_false_elim.
  destruct (isna x) eqn:Hna; simpl.
  - rewrite IH by done. destruct last; try done. by destruct (Hlast s).
  - rewrite Hx. apply IH; [|done]. intros s ->. discriminate.
Qed.

Lemma is_object_to_numeric tx (l : list cell) :
  is_object (to_numeric tx <$> l) = false.
Proof.
  induction l as [|x l IH]; [done|].
  rewrite fmap_cons. unfold is_object in *. simpl. rewrite IH, orb_false_r.
  destruct x as [v|s|t|]; try done. simpl. by destruct (num_of_str tx s).
Qed.

Lemma is_object_dt_field (f : Z → Z) (ix cells : list cell) :
  dt_field f ix = Ok cells → is_object cells = false.
Proof.
  unfold dt_field. destruct (is_datetime_index ix); [|discriminate].
  intros [= <-]. induction ix as [|c ix IH]; [done|].
  rewrite fmap_cons. unfold is_object in *. simpl. rewrite IH, orb_false_r.
  by destruct c.
Qed.

Lemma elem_of_columns_setitem c name values df :
  c ∈ columns (setitem name values df) → c ∈ columns df ∨ c = (name, values).
Proof.
  unfold setitem. cbn [columns]. destruct (has_column name df).
  - intros ([n0 c0] & -> & Hin)%list_elem_of_fmap. simpl.
    destruct (decide (n0 = name)); [by right | by left].
  - intros [Hin | ->%list_elem_of_singleton]%elem_of_app; [by left | by right].
Qed.

Lemma cleaned_not_object tx df df' c :
  cleaned tx df = Ok df' → c ∈ columns df' → is_object c.2 = false.
Proof.
  unfold cleaned, add_time_features.
  destruct (dt_field dt_hour _) as [hour|e] eqn:Hhour; simpl; [|discriminate].
  destruct (dt_field dt_dayofweek _) as [dow|e] eqn:Hdow; simpl;
    [|discriminate].
  destruct (dt_field dt_month _) as [month|e] eqn:Hmonth; simpl;
    [|discriminate].
  destruct (dt_field dt_year _) as [year|e] eqn:Hyear; simpl; [|discriminate].
  intros [= <-] Hc.
  repeat (apply elem_of_columns_setitem in Hc as [Hc | ->];
          [|simpl; by eapply is_object_dt_field]).
  unfold clean in Hc. cbn [columns] in Hc.
  apply list_elem_of_fmap in Hc as ([n0 c0] & -> & _). simpl.
  apply is_object_ffill_from; [done|].
  destruct (is_object c0) eqn:Hobj; [apply is_object_to_numeric | exact Hobj].
Qed.

(** Every feature column saved is the lagged column of a configured
    feature: under each label it holds, as a float64, the value the
    cleaned feature has in the row before that label's row, never the
    value of the label's own row or of a later one. *)
Theorem saved_features_are_lagged
    tx fs input_path output_dir prm disk disk' :
  preprocess_data tx fs input_path output_dir prm disk = (Ok tt, disk') →
  ∃ df' p,
    cleaned_table tx fs input_path = Ok df' ∧
    saved_as disk' output_dir p ∧
    ∀ j n cells,
      columns (X_train p) !! j = Some (n, cells) →
      ∃ cells' f fcells,
        columns (X_test p) !! j = Some (n, cells') ∧
        f ∈ features (train prm) ∧ (f, fcells) ∈ columns df' ∧
        n = f +:+ "_lag1" ∧
        zip (index (X_train p)) cells ++ zip (index (X_test p)) cells'
          `sublist_of` zip (index df') (shift_cells 1 fcells) ∧
        ∀ t x, (S t < length fcells)%nat → fcells !! t = Some x →
               shift_cells 1 fcells !! S t = Some (astype_float64 x).
Proof.
  intros (df' & full & p & Hclean & Hfull & _ & Hp & Hsaved)
    %preprocess_data_inv.
  exists df', p. split; [exact Hclean|]. split; [exact Hsaved|].
  apply split_inv in Hp as (y & k & _ & _ & _ & HXtr & HXte & _).
  intros j n cells Hj. rewrite HXtr in Hj. rewrite HXte.
  unfold map_rows in *. simpl in *.
  rewrite list_lookup_fmap in *.
  destruct (filter _ (columns full) !! j) as [[n0 c0]|] eqn:Hj0;
    simpl in *; [|discriminate].
  injection Hj as <- <-.
  destruct (lagged_table_feature_rows prm df' full (n0, c0) Hfull)
    as (f & fcells & Hfeat & Hin & Hname & Hsub).
  { eapply list_elem_of_lookup_2. exact Hj0. }
  simpl in *. eexists _, f, fcells. split_and!; try done.
  - rewrite HXtr. cbn [index].
    rewrite <- zip_with_take, <- zip_with_drop, take_drop. exact Hsub.
  - intros t x Ht Hx. rewrite (shift_cells_one_next fcells t x Hx Ht).
    apply cleaned_table_inv in Hclean as (df0 & _ & Hclean).
    pose proof (cleaned_not_object _ _ _ (f, fcells) Hclean Hin) as Hobj.
    simpl in Hobj. by rewrite Hobj.
Qed.

Lemma saved_features_are_lagged_witness :
  ∃ disk',
    preprocess_data sample_text (one_file "raw.csv" five_rows) "raw.csv"
      "data/processed" (sample_params "y" ["p"] (1 # 2)) ∅ = (Ok tt, disk') ∧
    ∃ df' p,
      cleaned_table sample_text (one_file "raw.csv" five_rows) "raw.csv"
        = Ok df' ∧
      saved_as disk' "data/processed" p ∧
      ∀ j n cells,
        columns (X_train p) !! j = Some (n, cells) →
        ∃ cells' f fcells,
          columns (X_test p) !! j = Some (n, cells') ∧
          f ∈ ["p"] ∧ (f, fcells) ∈ columns df' ∧
          n = f +:+ "_lag1" ∧
          zip (index (X_train p)) cells ++ zip (index (X_test p)) cells'
            `sublist_of` zip (index df') (shift_cells 1 fcells) ∧
          ∀ t x, (S t < length fcells)%nat → fcells !! t = Some x →
                 shift_cells 1 fcells !! S t = Some (astype_float64 x).
Proof.
  edestruct (preprocess_data_returns sample_text
               (one_file "raw.csv" five_rows) "raw.csv" "data/processed"
               (sample_params "y" ["p"] (1 # 2)) ∅)
    as (disk' & Hrun & _);
    [vm_compute; reflexivity | vm_compute; reflexivity |].
  exists disk'. split; [exact Hrun|].
  exact (saved_features_are_lagged sample_text
           (one_file "raw.csv" five_rows) "raw.csv" "data/processed"
           (sample_params "y" ["p"] (1 # 2)) ∅ disk' Hrun).
Defined.

(** ** Cleaning, cell by cell *)

Lemma ffill_from_lookup (last : cell) (l : list cell) i x :
  l !! i = Some x →
  ffill_from last l !! i =
  if isna x
  then match i with
       | O => Some last
       | S k => ffill_from last l !! k
       end
  else Some x.
Proof.
  revert last i. induction l as [|y l IH]; intros last i; [done|].
  destruct i as [|i]; simpl.
  - intros [= ->]. by destruct (isna x).
  - intros Hx.
    assert (Hrest : ∀ a, (a :: ffill_from a l) !! S i =
                         if isna x
                         then (a :: ffill_from a l) !! i
                         else Some x).
    { intros a. simpl. rewrite (IH a i Hx). by destruct i. }
    destruct (isna y); apply Hrest.
Qed.

Lemma length_ffill_from (last : cell) (l : list cell) :
  length (ffill_from last l) = length l.
Proof.
  revert last. induction l as [|y l IH]; intros last; [done|].
  simpl. destruct (isna y); simpl; by rewrite IH.
Qed.

Lemma to_numeric_without_text tx (l : list cell) :
  is_object l = false → Forall (λ c, ∀ t, c ≠ Tm t) l →
  to_numeric tx <$> l = l.
Proof.
  induction l as [|x l IH]; [done|].
  intros Hobj [Hnt Hall]%Forall_cons. rewrite fmap_cons.
  unfold is_object in Hobj. simpl in Hobj.
  apply orb_false_elim in Hobj as [Hx Hl].
  rewrite IH by done. f_equal.
  destruct x as [v|s|t|]; try done. by destruct (Hnt t).
Qed.

(** Cleaning keeps every number, reads every text that is a number,
    and gives every other cell the cleaned value of the row above it, a
    missing value in the first row: no cell is filled from a row below. *)
Theorem clean_fills_from_the_row_above tx df j n raw :
  columns df !! j = Some (n, raw) →
  Forall (λ c, ∀ t, c ≠ Tm t) raw →
  ∃ cells,
    columns (clean tx df) !! j = Some (n, cells) ∧
    length cells = length raw ∧
    ∀ i x, raw !! i = Some x →
      cells !! i =
      if isna (to_numeric tx x)
      then match i with
           | O => Some NaN
           | S k => cells !! k
           end
      else Some (to_numeric tx x).
Proof.
  intros Hj Hnt.
  exists (ffill_cells (to_numeric tx <$> raw)). split_and!.
  - unfold clean. cbn [columns]. rewrite list_lookup_fmap, Hj. simpl.
    destruct (is_object raw) eqn:Hobj; [done|].
    by rewrite to_numeric_without_text.
  - unfold ffill_cells. by rewrite length_ffill_from, length_fmap.
  - intros i x Hx. unfold ffill_cells. apply ffill_from_lookup.
    by rewrite list_lookup_fmap, Hx.
Qed.

Lemma clean_fills_from_the_row_above_witness :
  ∃ cells,
    columns (clean sample_text dirty_rows) !! 0%nat = Some ("y", cells) ∧
    length cells = 4%nat ∧
    cells !! 0%nat = Some NaN ∧
    cells !! 1%nat = Some (Num (inject_Z 12)) ∧
    cells !! 2%nat = cells !! 1%nat ∧
    cells !! 3%nat = cells !! 2%nat.
Proof.
  destruct (clean_fills_from_the_row_above sample_text dirty_rows 0 "y"
              [Str "?"; Str "12"; Str "?"; NaN] eq_refl)
    as (cells & Hcol & Hlen & Hcell).
  { repeat constructor; discriminate. }
  exists cells. split; [exact Hcol|]. split; [exact Hlen|].
  split; [exact (Hcell 0%nat _ eq_refl)|].
  split; [exact (Hcell 1%nat _ eq_refl)|].
  split; [exact (Hcell 2%nat _ eq_refl) | exact (Hcell 3%nat _ eq_refl)].
Defined.

(** ** The time-based features *)

Lemma cols_named_setitem_ne n name values df :
  n ≠ name →
  cols_named n (columns (setitem name values df)) = cols_named n (columns df).
Proof.
  intros Hne. unfold setitem, cols_named. cbn [columns].
  destruct (has_column name df).
  - induction (columns df) as [|[m c] cs IH]; [done|].
    rewrite fmap_cons, !filter_cons. simpl.
    destruct (decide (m = name)) as [->|Hm]; simpl.
    + rewrite !decide_False by congruence. exact IH.
    + destruct (decide (m = n)); by rewrite IH.
  - rewrite filter_app, filter_cons_False, filter_nil, app_nil_r by (simpl; congruence).
    reflexivity.
Qed.

Lemma get_column_setitem name values df :
  get_column name (setitem name values df) = Ok values.
Proof.
  unfold get_column, setitem, cols_named. cbn [columns].
  destruct (has_column name df) eqn:Hcol.
  - unfold has_column in Hcol. apply bool_decide_eq_true in Hcol.
    unfold col_names in Hcol.
    induction (columns df) as [|[m c] cs IH];
      [by apply not_elem_of_nil in Hcol|].
    rewrite fmap_cons, filter_cons. simpl.
    destruct (decide (m = name)) as [->|Hm]; simpl.
    + by rewrite decide_True.
    + rewrite decide_False by done. apply IH.
      rewrite fmap_cons in Hcol. by apply elem_of_cons in Hcol as [?|?].
  - unfold has_column in Hcol. apply bool_decide_eq_false in Hcol.
    rewrite filter_app. fold (cols_named name (columns df)).
    rewrite cols_named_absent by done.
    rewrite filter_cons_True by done. reflexivity.
Qed.

Lemma get_column_setitem_ne n name values df :
  n ≠ name → get_column n (setitem name values df) = get_column n df.
Proof.
  intros Hne. unfold get_column. by rewrite cols_named_setitem_ne.
Qed.

(** The four time-based columns of the cleaned table are read off the
    index and nothing else: a column the table read has under one of
    the four names is overwritten.  Every other column is as cleaning
    left it. *)
Theorem time_features_come_from_the_index tx df df' :
  cleaned tx df = Ok df' →
  get_column "hour_of_day" df' = dt_field dt_hour (index df) ∧
  get_column "day_of_week" df' = dt_field dt_dayofweek (index df) ∧
  get_column "month" df' = dt_field dt_month (index df) ∧
  get_column "year" df' = dt_field dt_year (index df) ∧
  ∀ n, n ∉ time_features →
       cols_named n (columns df') = cols_named n (columns (clean tx df)).
Proof.
  unfold cleaned, add_time_features, dt_field.
  change (index (clean tx df)) with (index df).
  destruct (is_datetime_index (index df)) eqn:Hix; [|discriminate].
  simpl. change (index (setitem ?n ?v ?d)) with (index d).
  change (index (clean tx df)) with (index df). rewrite Hix. simpl.
  intros [= <-]. split_and!.
  - rewrite !get_column_setitem_ne by done. apply get_column_setitem.
  - rewrite !get_column_setitem_ne by done. apply get_column_setitem.
  - rewrite !get_column_setitem_ne by done. apply get_column_setitem.
  - apply get_column_setitem.
  - intros n Hn. unfold time_features in Hn.
    rewrite !not_elem_of_cons in Hn. destruct Hn as (? & ? & ? & ? & _).
    by rewrite !cols_named_setitem_ne.
Qed.

Lemma time_features_come_from_the_index_witness :
  ∃ df',
    cleaned sample_text dirty_rows = Ok df' ∧
    get_column "year" dirty_rows = Ok [Num 1; Num 2; Num 3; Num 4]%Q ∧
    get_column "year" df'
      = Ok [Num 1970; Num 1970; Num 1970; Num 1970]%Q ∧
    get_column "hour_of_day" df' = Ok [Num 0; Num 0; Num 0; Num 0]%Q.
Proof.
  destruct (cleaned_returns sample_text dirty_rows eq_refl) as [df' Hclean].
  exists df'. split; [exact Hclean|]. split; [reflexivity|].
  destruct (time_features_come_from_the_index sample_text dirty_rows df'
              Hclean) as (Hhour & _ & _ & Hyear & _).
  split; [exact Hyear | exact Hhour].
Defined.

(** ** What a run writes *)

(** A run that returns has saved its four tables, a run changes no
    file but these four, and a run that raises changes nothing at all:
    the tables are written last, after everything that can raise. *)
Theorem preprocess_data_writes_its_four_tables
    tx fs input_path output_dir prm disk res disk' :
  preprocess_data tx fs input_path output_dir prm disk = (res, disk') →
  (res = Ok tt → ∃ p, saved_as disk' output_dir p) ∧
  (∀ e, res = Raise e → disk' = disk) ∧
  (∀ path,
     path ∉ [path_join output_dir "X_train.csv";
             path_join output_dir "X_test.csv";
             path_join output_dir "y_train.csv";
             path_join output_dir "y_test.csv"] →
     disk' !! path = disk !! path).
Proof.
  rewrite !preprocess_data_unfold.
  destruct (_ ← read_csv fs IndexDatetime input_path; partitions tx prm _)
    as [p|e].
  - intros [= <- <-]. split; [|split; [discriminate|]].
    + intros _. exists p. apply saved_as_writes.
    + intros path Hpath. rewrite !not_elem_of_cons in Hpath.
      destruct Hpath as (? & ? & ? & ? & _).
      by rewrite !lookup_insert_ne.
  - intros [= <- <-]. split; [discriminate|]. done.
Qed.

Lemma preprocess_data_writes_its_four_tables_witness :
  ∃ disk',
    preprocess_data sample_text (one_file "raw.csv" five_rows) "raw.csv"
      "data/processed" (sample_params "y" ["p"] (1 # 2))
      {[ "notes.txt" := five_rows ]} = (Ok tt, disk') ∧
    disk' !! "notes.txt" = Some five_rows ∧
    ∃ p, saved_as disk' "data/processed" p.
Proof.
  edestruct (preprocess_data_returns sample_text
               (one_file "raw.csv" five_rows) "raw.csv" "data/processed"
               (sample_params "y" ["p"] (1 # 2)) {[ "notes.txt" := five_rows ]})
    as (disk' & Hrun & _);
    [vm_compute; reflexivity | vm_compute; reflexivity |].
  exists disk'. split; [exact Hrun|].
  destruct (preprocess_data_writes_its_four_tables sample_text
              (one_file "raw.csv" five_rows) "raw.csv" "data/processed"
              (sample_params "y" ["p"] (1 # 2)) {[ "notes.txt" := five_rows ]}
              (Ok tt) disk' Hrun) as (Hsaved & _ & Hframe).
  split; [|exact (Hsaved eq_refl)].
  rewrite Hframe; [reflexivity | compute_done].
Defined.

(** ** Any lag *)

(** [create_lagged_features] with any lag: the column made of a column
    stands at its place, under its name with [_lag] and the lag, and is
    as long.  A lag of [k > 0] leaves the first [k] rows missing and
    gives every later row the value [k] rows above it; a lag below 0
    gives a row the value of a later row, and leaves the last rows
    missing.  The values moved are those of the column as float64, or
    as they are when the column holds strings.  A lag of 0 is a copy. *)
Theorem lagged_column_by_any_lag
    (df : DataFrame) (lag : Z) (j : nat) (name : string) (cells : list cell) :
  columns df !! j = Some (name, cells) →
  index (create_lagged_features df lag) = index df ∧
  ∃ lagged,
    columns (create_lagged_features df lag) !! j
      = Some (name +:+ "_lag" +:+ pretty lag, lagged) ∧
    length lagged = length cells ∧
    (lag = 0 → lagged = cells) ∧
    ∀ i, (i < length cells)%nat →
      let kept := if is_object cells then cells
                  else astype_float64 <$> cells in
      (0 < lag → Z.of_nat i < lag → lagged !! i = Some NaN) ∧
      (0 < lag → lag ≤ Z.of_nat i →
         lagged !! i = kept !! (i - Z.to_nat lag)%nat) ∧
      (lag < 0 → Z.of_nat i - lag < Z.of_nat (length cells) →
         lagged !! i = kept !! (i + Z.to_nat (- lag))%nat) ∧
      (lag < 0 → Z.of_nat (length cells) ≤ Z.of_nat i - lag →
         lagged !! i = Some NaN).
Proof.
  intros Hj. split; [reflexivity|].
  exists (shift_cells lag cells). split_and!.
  - rewrite create_lagged_features_columns, list_lookup_fmap, Hj. reflexivity.
  - apply length_shift_cells.
  - intros ->. reflexivity.
  - intros i Hi kept. subst kept.
    split_and!; intros H1 H2;
      rewrite (shift_cells_lookup lag cells i) by (done || lia).
    + apply Z.lt_le_incl, Z.leb_le in H1. apply Z.ltb_lt in H2.
      by rewrite H1, H2.
    + apply Z.lt_le_incl, Z.leb_le in H1. apply Z.ltb_ge in H2.
      by rewrite H1, H2.
    + apply Z.leb_gt in H1. apply Z.leb_gt in H2. by rewrite H1, H2.
    + apply Z.leb_gt in H1. apply Z.leb_le in H2. by rewrite H1, H2.
Qed.

Lemma lagged_column_by_any_lag_witness :
  ∃ lead,
    columns (create_lagged_features five_rows (-2)) !! 1%nat
      = Some ("p_lag-2", lead) ∧
    length lead = 5%nat ∧
    lead !! 0%nat = Some (Num 3%Q) ∧
    lead !! 3%nat = Some NaN.
Proof.
  destruct (lagged_column_by_any_lag five_rows (-2) 1 "p"
              [Num 1; Num 2; Num 3; Num 4; Num 5]%Q eq_refl)
    as (_ & lead & Hcol & Hlen & _ & Hcell).
  exists lead. split; [exact Hcol|]. split; [exact Hlen|]. split.
  - destruct (Hcell 0%nat) as (_ & _ & H & _); [simpl; lia|].
    rewrite H by (simpl; lia). vm_compute. reflexivity.
  - destruct (Hcell 3%nat) as (_ & _ & _ & H); [simpl; lia|].
    apply H; simpl; lia.
Defined.

(** * More of the raw loader *)

Lemma filter_ne_setitem name values df :
  filter (λ c : column, c.1 ≠ name) (columns (setitem name values df))
  = filter (λ c : column, c.1 ≠ name) (columns df).
Proof.
  unfold setitem. cbn [columns]. destruct (has_column name df).
  - induction (columns df) as [|[m c] cs IH]; [done|].
    rewrite fmap_cons, !filter_cons. simpl.
    destruct (decide (m = name)) as [->|Hm]; simpl.
    + rewrite !decide_False by (intros Hne; by apply Hne). exact IH.
    + rewrite !decide_True by done. by rewrite IH.
  - rewrite filter_app, filter_cons_False, filter_nil, app_nil_r
      by (intros Hne; by apply Hne).
    reflexivity.
Qed.

Lemma set_index_setitem_columns name values df df' :
  set_index name (setitem name values df) = Ok df' →
  columns df' = filter (λ c : column, c.1 ≠ name) (columns df).
Proof.
  unfold set_index. rewrite get_column_setitem. simpl. intros [= <-].
  cbn [columns]. apply filter_ne_setitem.
Qed.

Lemma index_by_date_and_time_columns tx df df' :
  index_by_date_and_time tx df = Ok df' →
  columns df' =
  filter (λ c : column, c.1 ≠ "Time")
    (filter (λ c : column, c.1 ≠ "Date")
       (filter (λ c : column, c.1 ≠ "datetime") (columns df))).
Proof.
  unfold index_by_date_and_time.
  destruct (get_column "Date" df) as [date|e]; simpl; [|discriminate].
  destruct (get_column "Time" df) as [time|e]; simpl; [|discriminate].
  destruct (set_index "datetime" (setitem "datetime" _ df)) as [df1|e] eqn:H1;
    simpl; [|discriminate].
  intros [= <-]. apply set_index_setitem_columns in H1.
  unfold drop_column. cbn [columns]. by rewrite H1.
Qed.

(** What the loader does to the columns of the table read: it drops
    columns named [Date], [Time] or [datetime] and nothing else. *)
Lemma loaded_columns (cs cs' : list column) :
  cs' = cs ∨
  cs' = filter (λ c : column, c.1 ≠ "datetime") cs ∨
  cs' = filter (λ c : column, c.1 ≠ "Time")
          (filter (λ c : column, c.1 ≠ "Date")
             (filter (λ c : column, c.1 ≠ "datetime") cs)) →
  cs' `sublist_of` cs ∧
  ∀ c, c ∈ cs → c.1 ∉ ["Date"; "Time"; "datetime"] → c ∈ cs'.
Proof.
  intros [-> | [-> | ->]]; (split; [|intros c Hc Hn]).
  - done.
  - done.
  - apply sublist_filter.
  - apply list_elem_of_filter. split; [|done]. set_solver.
  - etrans; [apply sublist_filter|]. etrans; apply sublist_filter.
  - repeat (apply list_elem_of_filter; split; [set_solver|]). done.
Qed.

Lemma load_attempt_columns tx fs input_path df :
  load_attempt tx fs input_path = Ok df →
  ∃ mode df0,
    read_csv fs mode input_path = Ok df0 ∧
    (columns df = columns df0 ∨
     columns df = filter (λ c : column, c.1 ≠ "datetime") (columns df0) ∨
     columns df = filter (λ c : column, c.1 ≠ "Time")
                    (filter (λ c : column, c.1 ≠ "Date")
                       (filter (λ c : column, c.1 ≠ "datetime") (columns df0)))).
Proof.
  unfold load_attempt. destruct (endswith input_path ".txt").
  - destruct (read_csv fs SepSemicolon input_path) as [df0|e] eqn:Hread;
      simpl; [|discriminate].
    intros Hload. exists SepSemicolon, df0. split; [done|].
    destruct (has_column "Date" df0 && has_column "Time" df0).
    { right. right. by eapply index_by_date_and_time_columns. }
    destruct (has_column "datetime" df0).
    + destruct (get_column "datetime" df0) as [stamps|e]; simpl in Hload;
        [|discriminate].
      right. left. by eapply set_index_setitem_columns.
    + injection Hload as <-. by left.
  - intros Hread. exists IndexDatetime, df. split; [done | by left].
Qed.

Lemma load_fallback_columns tx fs input_path df :
  load_fallback tx fs input_path = Ok df →
  ∃ df0,
    read_csv fs SepSniff input_path = Ok df0 ∧
    (columns df = columns df0 ∨
     columns df = filter (λ c : column, c.1 ≠ "datetime") (columns df0) ∨
     columns df = filter (λ c : column, c.1 ≠ "Time")
                    (filter (λ c : column, c.1 ≠ "Date")
                       (filter (λ c : column, c.1 ≠ "datetime") (columns df0)))).
Proof.
  unfold load_fallback.
  destruct (read_csv fs SepSniff input_path) as [df0|e]; simpl; [|discriminate].
  intros Hload. exists df0. split; [done|].
  destruct (has_column "Date" df0 && has_column "Time" df0).
  - right. right. by eapply index_by_date_and_time_columns.
  - injection Hload as <-. by left.
Qed.

(** The loader returns the columns of the table it read, cell for cell
    and in order, less the columns named [Date], [Time] and [datetime]
    it makes the index of: no value is coerced, filled or dropped at
    loading, and no column is added. *)
Theorem load_raw_file_keeps_the_data tx
    (fs : gmap string (ReadMode → result DataFrame)) input_path df :
  load_raw_file tx fs input_path = Ok df →
  ∃ mode df0,
    read_csv fs mode input_path = Ok df0 ∧
    columns df `sublist_of` columns df0 ∧
    ∀ c, c ∈ columns df0 → c.1 ∉ ["Date"; "Time"; "datetime"] →
         c ∈ columns df.
Proof.
  unfold load_raw_file.
  destruct (load_attempt tx fs input_path) as [df1|e] eqn:Hfirst.
  - simpl. intros [= <-]. cbn [columns].
    apply load_attempt_columns in Hfirst as (mode & df0 & Hread & Hcols).
    exists mode, df0. split; [exact Hread|].
    apply loaded_columns. by destruct (is_datetime_index (index df1)).
  - destruct (load_fallback tx fs input_path) as [df1|e'] eqn:Hsecond;
      simpl; [|discriminate].
    intros [= <-]. cbn [columns].
    apply load_fallback_columns in Hsecond as (df0 & Hread & Hcols).
    exists SepSniff, df0. split; [exact Hread|].
    apply loaded_columns. by destruct (is_datetime_index (index df1)).
Qed.

Lemma load_raw_file_keeps_the_data_witness :
  ∃ df mode df0,
    load_raw_file sample_text sample_files
      "data/raw/household_power_consumption.txt" = Ok df ∧
    read_csv sample_files mode "data/raw/household_power_consumption.txt"
      = Ok df0 ∧
    columns df `sublist_of` columns df0 ∧
    ∀ c, c ∈ columns df0 → c.1 ∉ ["Date"; "Time"; "datetime"] →
         c ∈ columns df.
Proof.
  eexists.
  edestruct (load_raw_file_keeps_the_data sample_text sample_files
               "data/raw/household_power_consumption.txt")
    as (mode & df0 & Hread & Hkept); [vm_compute; reflexivity|].
  exists mode, df0. split; [reflexivity|]. split; [exact Hread | exact Hkept].
Defined.

(** * The scripts *)

(** ** Loading the parameters *)

Lemma load_params_cases {A} texts (safe_load : string → yaml A) params_path :
  (∃ text params,
     texts !! params_path = Some text ∧ safe_load text = YamlValue params ∧
     load_params texts safe_load params_path = Returned params) ∨
  ((texts !! params_path = None ∨
    ∃ text, texts !! params_path = Some text ∧ safe_load text = YAMLError) ∧
   load_params texts safe_load params_path = Exited 1).
Proof.
  unfold load_params. destruct (texts !! params_path) as [text|]; [|by eauto].
  destruct (safe_load text) as [params|] eqn:Hload; [left | right]; eauto.
Qed.

(** ** The training script *)

Lemma get_model_instance_supported init_error model_name kw model :
  get_model_instance init_error model_name kw = Ok model →
  model_name ∈ supported_models.
Proof.
  unfold get_model_instance, supported_models.
  destruct (String.eqb_spec model_name "RandomForestRegressor") as [->|_];
    [set_solver|].
  destruct (String.eqb_spec model_name "XGBoostRegressor") as [->|_];
    [set_solver|].
  destruct (String.eqb_spec model_name "LightGBMRegressor") as [->|_];
    [set_solver | discriminate].
Qed.

(** Training either saves one model under [models] or leaves the saved
    models as they were. *)
Lemma train_model_cases {Fitted} init_error
    (fit : Model → DataFrame → list cell → result Fitted)
    fs model_name model_config prm (saved : gmap string Fitted) :
  (∃ fitted,
     model_name ∈ supported_models ∧
     train_model init_error fit fs model_name model_config prm saved
     = (Ok tt, <[path_join "models" (file_name model_config) := fitted]> saved)) ∨
  (∃ e, train_model init_error fit fs model_name model_config prm saved
        = (Raise e, saved)).
Proof.
  rewrite train_model_unfold.
  destruct (read_csv fs IndexDatetime "data/processed/X_train.csv")
    as [X|e]; simpl; [|by eauto].
  destruct (read_csv fs IndexDatetime "data/processed/y_train.csv")
    as [Y|e]; simpl; [|by eauto].
  destruct (iloc_col0 Y) as [y|e]; simpl; [|by eauto].
  destruct (get_model_instance init_error model_name (params model_config))
    as [m|e] eqn:Hm; simpl; [|by eauto].
  apply get_model_instance_supported in Hm.
  destruct (fit m X y) as [fitted|e]; [left | right]; eauto.
Qed.

(** The training script, from its command line on.  When [argparse]
    ends the process (with status 2 for a command line it refuses, as
    one without [--model-name], and status 0 after [--help]) the script
    exits with that status.  Given a model name, it saves a model only
    for a name that is both an entry of [models] in [params.yaml] and
    one of the three model types known, and then saves that one file;
    for a name that is no entry of [models], as for a [params.yaml]
    that is missing or is no YAML, it exits with status 1.  Whenever it
    does not return, the saved models are as they were. *)
Theorem train_main_saves_a_configured_known_model {Fitted} init_error
    (fit : Model → DataFrame → list cell → result Fitted)
    parse_args texts safe_load fs (saved : gmap string Fitted) res saved' :
  train_main init_error fit parse_args texts safe_load fs saved
    = (res, saved') →
  (res = Returned tt →
   ∃ model_name all_params model_config fitted,
     parse_args = Returned model_name ∧
     load_params texts safe_load "params.yaml" = Returned all_params ∧
     models (pipeline all_params) !! model_name = Some model_config ∧
     model_name ∈ supported_models ∧
     saved' = <[path_join "models" (file_name model_config) := fitted]> saved) ∧
  (res ≠ Returned tt → saved' = saved) ∧
  (∀ status, parse_args = Exited status → res = Exited status) ∧
  (∀ model_name all_params,
     parse_args = Returned model_name →
     load_params texts safe_load "params.yaml" = Returned all_params →
     models (pipeline all_params) !! model_name = None → res = Exited 1) ∧
  (∀ model_name,
     parse_args = Returned model_name →
     load_params texts safe_load "params.yaml" = Exited 1 → res = Exited 1).
Proof.
  unfold train_main, mbind, script_bind, script_step, script_call.
  destruct parse_args as [model_name|e|status].
  2: { intros [= <- <-]. split_and!; try done; intros; discriminate. }
  2: { intros [= <- <-]. split_and!; try done; try (intros; discriminate).
       by intros ? [= <-]. }
  destruct (load_params_cases texts safe_load "params.yaml")
    as [(text & prm & _ & _ & ->) | [_ ->]].
  - destruct (models (pipeline prm) !! model_name) as [cfg|] eqn:Hcfg.
    + destruct (train_model_cases init_error fit fs model_name cfg
                  (pipeline prm) saved)
        as [(fitted & Hin & ->) | (e & ->)]; intros [= <- <-].
      * split_and!; try done; try (intros; discriminate).
        -- intros _. exists model_name, prm, cfg, fitted. done.
        -- intros ? ? [= <-] [= <-]. congruence.
      * split_and!; try done; try (intros; discriminate).
        intros ? ? [= <-] [= <-]. congruence.
    + intros [= <- <-]. split_and!; try done; intros; discriminate.
  - intros [= <- <-]. split_and!; try done; intros; discriminate.
Qed.

Lemma train_main_saves_a_configured_known_model_witness :
  train_main sample_init_error sample_fit (Returned "XGBoostRegressor")
    {[ "params.yaml" := "ok" ]} sample_yaml sample_files ∅
  = (Returned tt,
     {[ "models/model.joblib" := XGBRegressor (params sample_config) ]}) ∧
  ∃ model_name all_params model_config fitted,
    Returned "XGBoostRegressor" = Returned model_name ∧
    load_params {[ "params.yaml" := "ok" ]} sample_yaml "params.yaml"
      = Returned all_params ∧
    models (pipeline all_params) !! model_name = Some model_config ∧
    model_name ∈ supported_models ∧
    ({[ "models/model.joblib" := XGBRegressor (params sample_config) ]}
       : gmap string Model)
    = <[path_join "models" (file_name model_config) := fitted]> ∅.
Proof.
  assert (Hrun :
    train_main sample_init_error sample_fit (Returned "XGBoostRegressor")
      {[ "params.yaml" := "ok" ]} sample_yaml sample_files ∅
    = (Returned tt,
       {[ "models/model.joblib" := XGBRegressor (params sample_config) ]}))
    by (vm_compute; reflexivity).
  split; [exact Hrun|].
  destruct (train_main_saves_a_configured_known_model sample_init_error
              sample_fit (Returned "XGBoostRegressor")
              {[ "params.yaml" := "ok" ]} sample_yaml sample_files
              ∅ _ _ Hrun) as (Hreturned & _).
  exact (Hreturned eq_refl).
Defined.

(** ** Paths that cannot meet *)

Lemma string_length_app (s1 s2 : string) :
  String.length (s1 +:+ s2) = (String.length s1 + String.length s2)%nat.
Proof. induction s1 as [|c s1 IH]; simpl; [done | by f_equal]. Qed.

Lemma string_app_assoc (s1 s2 s3 : string) :
  (s1 +:+ s2) +:+ s3 = s1 +:+ (s2 +:+ s3).
Proof.
  induction s1 as [|c s1 IH]; [done|].
  change (String c ((s1 +:+ s2) +:+ s3) = String c (s1 +:+ s2 +:+ s3)).
  by rewrite IH.
Qed.

(** Two texts that differ in a character counted from their end are
    not the end of one text. *)
Lemma string_app_ne_by_char (pre1 pre2 suf1 suf2 : string) (d : nat) :
  (d < String.length suf1)%nat → (d < String.length suf2)%nat →
  String.get (String.length suf1 - 1 - d) suf1
    ≠ String.get (String.length suf2 - 1 - d) suf2 →
  pre1 +:+ suf1 ≠ pre2 +:+ suf2.
Proof.
  intros Hd1 Hd2 Hne Heq. apply Hne.
  rewrite (String.append_correct2 pre1 suf1), (String.append_correct2 pre2 suf2).
  assert (Hlen : (String.length pre1 + String.length suf1
                  = String.length pre2 + String.length suf2)%nat)
    by (rewrite <- !string_length_app; by rewrite Heq).
  rewrite Heq. f_equal. lia.
Qed.

Lemma path_join_suffix (a n suf : string) :
  ∃ pre, path_join a (n +:+ suf) = pre +:+ suf.
Proof.
  unfold path_join. destruct (startswith (n +:+ suf) "/").
  - by exists n.
  - destruct (String.eqb a "" || endswith a "/").
    + exists (a +:+ n). by rewrite string_app_assoc.
    + exists (a +:+ "/" +:+ n). by rewrite !string_app_assoc.
Qed.

(** The metrics file and the two figures of a model are three files,
    whatever the name of the model and the directory of the figures. *)
Lemma evaluation_paths_differ (plots n : string) :
  path_join "metrics" (n +:+ "_metrics.json")
    ≠ path_join plots (n +:+ "_residuals_over_time.png") ∧
  path_join "metrics" (n +:+ "_metrics.json")
    ≠ path_join plots (n +:+ "_residuals_histogram.png") ∧
  path_join plots (n +:+ "_residuals_over_time.png")
    ≠ path_join plots (n +:+ "_residuals_histogram.png").
Proof.
  destruct (path_join_suffix "metrics" n "_metrics.json") as [p1 ->].
  destruct (path_join_suffix plots n "_residuals_over_time.png") as [p2 ->].
  destruct (path_join_suffix plots n "_residuals_histogram.png") as [p3 ->].
  split_and!.
  - apply (string_app_ne_by_char _ _ _ _ 0); simpl; [lia | lia | discriminate].
  - apply (string_app_ne_by_char _ _ _ _ 0); simpl; [lia | lia | discriminate].
  - apply (string_app_ne_by_char _ _ _ _ 4); simpl; [lia | lia | discriminate].
Qed.

(** ** The evaluation *)

Section EvaluateProperties.
Context {Fitted Score : Type}.
Context (predict : Fitted → DataFrame → result (list cell)).
Context (mean_absolute_error mean_squared_error r2_score
           : list cell → list cell → result Score).
Context (sqrt : Score → Score).
Context (subtract : list cell → list cell → result (list cell)).

(** An evaluation ends in one of three ways: it raises before it has
    written anything, it raises with the metrics written, or it returns
    with the metrics and the two figures written. *)
Lemma evaluate_model_cases (saved : gmap string Fitted) fs model_config prm
    (store : gmap string (Artifact Score)) :
  let run :=
    evaluate_model predict mean_absolute_error mean_squared_error r2_score
      sqrt subtract saved fs model_config prm store in
  let metrics_path :=
    path_join "metrics" (name model_config +:+ "_metrics.json") in
  let time_path :=
    path_join (plots_dir (validation prm))
      (name model_config +:+ "_residuals_over_time.png") in
  let histogram_path :=
    path_join (plots_dir (validation prm))
      (name model_config +:+ "_residuals_histogram.png") in
  (∃ e, run = (Raise e, store) ∧
        (saved !! path_join "models" (file_name (config model_config)) = None →
         e = FileNotFoundError)) ∨
  (∃ e model mae rmse r2,
     saved !! path_join "models" (file_name (config model_config))
       = Some model ∧
     run = (Raise e, <[metrics_path := MetricsJson mae rmse r2]> store)) ∨
  (∃ model Y mae rmse r2 residuals,
     saved !! path_join "models" (file_name (config model_config))
       = Some model ∧
     read_csv fs IndexDatetime "data/processed/y_test.csv" = Ok Y ∧
     run = (Ok tt,
            <[histogram_path :=
                ResidualsHistogram
                  (name model_config +:+ " - Distribution of Residuals")
                  residuals]>
              (<[time_path :=
                   ResidualsOverTime
                     (name model_config +:+ " - Residuals Over Time")
                     (index Y) residuals]>
                 (<[metrics_path := MetricsJson mae rmse r2]> store)))).
Proof.
  intros run metrics_path time_path histogram_path. subst run.
  unfold evaluate_model, mbind, run_bind, run_lift, write_file, run_modify,
    joblib_load.
  change (path_join "data/processed" "X_test.csv")
    with "data/processed/X_test.csv".
  change (path_join "data/processed" "y_test.csv")
    with "data/processed/y_test.csv".
  destruct (saved !! path_join "models" (file_name (config model_config)))
    as [model|]; [|left; by eauto].
  destruct (read_csv fs IndexDatetime "data/processed/X_test.csv") as [X|e];
    [|left; eexists; by split].
  destruct (read_csv fs IndexDatetime "data/processed/y_test.csv") as [Y|e];
    [|left; eexists; by split].
  destruct (iloc_col0 Y) as [y|e]; [|left; eexists; by split].
  destruct (predict model X) as [pred|e]; [|left; eexists; by split].
  destruct (mean_absolute_error y pred) as [mae|e];
    [|left; eexists; by split].
  destruct (mean_squared_error y pred) as [mse|e];
    [|left; eexists; by split].
  destruct (r2_score y pred) as [r2|e]; [|left; eexists; by split].
  destruct (subtract y pred) as [residuals|e].
  - right. right. exists model, Y, mae, (sqrt mse), r2, residuals. done.
  - right. left. exists e, model, mae, (sqrt mse), r2. done.
Qed.

(** An evaluation that returns has written the metrics of the model and
    its two figures, the residuals drawn against the labels of the test
    target, in three files named after the model; it changes no other
    file.  An evaluation that raises has written no figure, and nothing
    at all when the model was never saved, which it finds out before it
    reads a table. *)
Theorem evaluate_model_writes_metrics_and_figures
    (saved : gmap string Fitted) fs model_config prm
    (store : gmap string (Artifact Score)) res store' :
  evaluate_model predict mean_absolute_error mean_squared_error r2_score
    sqrt subtract saved fs model_config prm store = (res, store') →
  let metrics_path :=
    path_join "metrics" (name model_config +:+ "_metrics.json") in
  let time_path :=
    path_join (plots_dir (validation prm))
      (name model_config +:+ "_residuals_over_time.png") in
  let histogram_path :=
    path_join (plots_dir (validation prm))
      (name model_config +:+ "_residuals_histogram.png") in
  (res = Ok tt →
   ∃ Y mae rmse r2 residuals,
     read_csv fs IndexDatetime "data/processed/y_test.csv" = Ok Y ∧
     store' !! metrics_path = Some (MetricsJson mae rmse r2) ∧
     store' !! time_path
       = Some (ResidualsOverTime
                 (name model_config +:+ " - Residuals Over Time")
                 (index Y) residuals) ∧
     store' !! histogram_path
       = Some (ResidualsHistogram
                 (name model_config +:+ " - Distribution of Residuals")
                 residuals)) ∧
  (∀ path, path ∉ [metrics_path; time_path; histogram_path] →
           store' !! path = store !! path) ∧
  (∀ e, res = Raise e →
        ∀ path, path ≠ metrics_path → store' !! path = store !! path) ∧
  (saved !! path_join "models" (file_name (config model_config)) = None →
   res = Raise FileNotFoundError ∧ store' = store).
Proof.
  intros Hrun metrics_path time_path histogram_path.
  destruct (evaluation_paths_differ (plots_dir (validation prm))
              (name model_config)) as (Hmt & Hmh & Hth).
  fold metrics_path time_path histogram_path in Hmt, Hmh, Hth.
  destruct (evaluate_model_cases saved fs model_config prm store)
    as [(e & Hcase & Hmissing)
       |[(e & model & mae & rmse & r2 & Hmodel & Hcase)
        |(model & Y & mae & rmse & r2 & residuals & Hmodel & HY & Hcase)]];
    fold metrics_path time_path histogram_path in Hcase;
    rewrite Hcase in Hrun; injection Hrun as <- <-.
  - split_and!; try done. intros Hnone. by rewrite (Hmissing Hnone).
  - split_and!; try done.
    + intros path Hpath. rewrite !not_elem_of_cons in Hpath.
      destruct Hpath as (? & _). by rewrite lookup_insert_ne.
    + intros e' _ path Hpath. by rewrite lookup_insert_ne.
    + intros Hnone. congruence.
  - split_and!; try done.
    + intros _. exists Y, mae, rmse, r2, residuals. split; [exact HY|].
      split_and!.
      * rewrite !lookup_insert_ne by done. apply lookup_insert_eq.
      * rewrite lookup_insert_ne by done. apply lookup_insert_eq.
      * apply lookup_insert_eq.
    + intros path Hpath. rewrite !not_elem_of_cons in Hpath.
      destruct Hpath as (? & ? & ? & _). by rewrite !lookup_insert_ne.
    + intros Hnone. congruence.
Qed.

Context (parse_args : outcome string).
Context (texts : gmap string string) (safe_load : string → yaml AllParams).

(** The evaluation script, from its command line on.  When [argparse]
    ends the process (with status 2 for a command line it refuses, as
    one without [--model-name], and status 0 after [--help]) the script
    exits with that status.  Given a model name, it evaluates a model
    only for a name that is an entry of [models] in [params.yaml] and
    whose file was saved, and names the files it writes after that
    name; for a name that is no entry of [models], as for a
    [params.yaml] that is missing or is no YAML, it exits with status
    1.  Whenever it exits, it has written nothing. *)
Theorem evaluate_main_evaluates_a_configured_saved_model
    (saved : gmap string Fitted) fs
    (store : gmap string (Artifact Score)) res store' :
  evaluate_main predict mean_absolute_error mean_squared_error r2_score
    sqrt subtract parse_args texts safe_load saved fs store = (res, store') →
  (res = Returned tt →
   ∃ model_name all_params model_config mae rmse r2,
     parse_args = Returned model_name ∧
     load_params texts safe_load "params.yaml" = Returned all_params ∧
     models (pipeline all_params) !! model_name = Some model_config ∧
     is_Some (saved !! path_join "models" (file_name model_config)) ∧
     store' !! path_join "metrics" (model_name +:+ "_metrics.json")
       = Some (MetricsJson mae rmse r2)) ∧
  (∀ status, parse_args = Exited status → res = Exited status) ∧
  (∀ model_name all_params,
     parse_args = Returned model_name →
     load_params texts safe_load "params.yaml" = Returned all_params →
     models (pipeline all_params) !! model_name = None → res = Exited 1) ∧
  (∀ model_name,
     parse_args = Returned model_name →
     load_params texts safe_load "params.yaml" = Exited 1 → res = Exited 1) ∧
  (∀ status, res = Exited status → store' = store).
Proof.
  unfold evaluate_main, mbind, script_bind, script_step, script_call.
  destruct parse_args as [model_name|e|status].
  2: { intros [= <- <-]. split_and!; try done; intros; discriminate. }
  2: { intros [= <- <-]. split_and!; try done; try (intros; discriminate).
       by intros ? [= <-]. }
  destruct (load_params_cases texts safe_load "params.yaml")
    as [(text & prm & _ & _ & ->) | [_ ->]].
  - destruct (models (pipeline prm) !! model_name) as [cfg|] eqn:Hcfg.
    + destruct (evaluate_model _ _ _ _ _ _ _ _ _ _ _) as [[[]|e] st] eqn:Hrun;
        intros [= <- <-];
        (split_and!; try done; try (intros; discriminate);
         try (intros ? ? [= <-] [= <-]; congruence)).
      intros _.
      destruct (evaluate_model_writes_metrics_and_figures _ _ _ _ _ _ _ Hrun)
        as (Hreturned & _ & _ & Hmissing).
      destruct (Hreturned eq_refl)
        as (Y & mae & rmse & r2 & residuals & _ & Hmetrics & _).
      cbn [name config] in *.
      exists model_name, prm, cfg, mae, rmse, r2. split_and!; try done.
      destruct (saved !! path_join "models" (file_name cfg)) eqn:Hsaved;
        [by eauto|].
      by destruct (Hmissing eq_refl).
    + intros [= <- <-]. split_and!; try done; intros; discriminate.
  - intros [= <- <-]. split_and!; try done; intros; discriminate.
Qed.

End EvaluateProperties.

Lemma evaluate_model_writes_metrics_and_figures_witness :
  ∃ store',
    evaluate_model sample_predict sample_score sample_score sample_score
      (λ s, s) sample_subtract
      {[ "models/model.joblib" := XGBRegressor [] ]} sample_files
      {| name := "XGBoostRegressor"; config := sample_config |}
      sample_all_params ∅ = (Ok tt, store') ∧
    ∃ Y mae rmse r2 residuals,
      read_csv sample_files IndexDatetime "data/processed/y_test.csv" = Ok Y ∧
      store' !! "metrics/XGBoostRegressor_metrics.json"
        = Some (MetricsJson mae rmse r2) ∧
      store' !! "plots/XGBoostRegressor_residuals_over_time.png"
        = Some (ResidualsOverTime "XGBoostRegressor - Residuals Over Time"
                  (index Y) residuals) ∧
      store' !! "plots/XGBoostRegressor_residuals_histogram.png"
        = Some (ResidualsHistogram
                  "XGBoostRegressor - Distribution of Residuals" residuals).
Proof.
  assert (Hrun : ∃ store',
    evaluate_model sample_predict sample_score sample_score sample_score
      (λ s, s) sample_subtract
      {[ "models/model.joblib" := XGBRegressor [] ]} sample_files
      {| name := "XGBoostRegressor"; config := sample_config |}
      sample_all_params ∅ = (Ok tt, store'))
    by (eexists; vm_compute; reflexivity).
  destruct Hrun as [store' Hrun]. exists store'. split; [exact Hrun|].
  destruct (evaluate_model_writes_metrics_and_figures _ _ _ _ _ _ _ _ _ _ _
              _ _ Hrun) as (Hreturned & _).
  exact (Hreturned eq_refl).
Defined.

Lemma evaluate_main_evaluates_a_configured_saved_model_witness :
  ∃ store',
    evaluate_main sample_predict sample_score sample_score sample_score
      (λ s, s) sample_subtract (Returned "LinearRegression")
      {[ "params.yaml" := "ok" ]} sample_yaml
      {[ "models/model.joblib" := XGBRegressor [] ]} sample_files
      ∅ = (Returned tt, store') ∧
    ∃ model_name all_params model_config mae rmse r2,
      Returned "LinearRegression" = Returned model_name ∧
      load_params {[ "params.yaml" := "ok" ]} sample_yaml "params.yaml"
        = Returned all_params ∧
      models (pipeline all_params) !! model_name = Some model_config ∧
      is_Some (({[ "models/model.joblib" := XGBRegressor [] ]}
                  : gmap string Model)
               !! path_join "models" (file_name model_config)) ∧
      store' !! path_join "metrics" (model_name +:+ "_metrics.json")
        = Some (MetricsJson mae rmse r2).
Proof.
  assert (Hrun : ∃ store',
    evaluate_main sample_predict sample_score sample_score sample_score
      (λ s, s) sample_subtract (Returned "LinearRegression")
      {[ "params.yaml" := "ok" ]} sample_yaml
      {[ "models/model.joblib" := XGBRegressor [] ]} sample_files
      ∅ = (Returned tt, store'))
    by (eexists; vm_compute; reflexivity).
  destruct Hrun as [store' Hrun]. exists store'. split; [exact Hrun|].
  destruct (evaluate_main_evaluates_a_configured_saved_model _ _ _ _ _ _ _ _
              _ _ _ _ _ _ Hrun) as (Hreturned & _).
  exact (Hreturned eq_refl).
Defined.

(** ** The preprocessing script *)

(** The preprocessing script writes the table it loaded as the prepared
    copy before it preprocesses it: once the raw file is loaded the
    copy is on disk however the script ends, alone when preprocessing
    raises and with the four tables under [data/processed] when it
    returns.  When the raw file does not load the script raises what
    the loader raised, and when [params.yaml] is missing or is no YAML
    it exits with status 1, in both cases with nothing written. *)
Theorem preprocess_main_writes_the_prepared_copy_first
    tx csv_reader texts safe_load fs (disk : gmap string DataFrame) res disk' :
  preprocess_main tx csv_reader texts safe_load fs disk = (res, disk') →
  (load_params texts safe_load "params.yaml" = Exited 1 →
   res = Exited 1 ∧ disk' = disk) ∧
  (∀ prm e,
     load_params texts safe_load "params.yaml" = Returned prm →
     load_raw_file tx fs "data/raw/household_power_consumption.txt" = Raise e →
     res = Raised e ∧ disk' = disk) ∧
  (∀ prm raw_df,
     load_params texts safe_load "params.yaml" = Returned prm →
     load_raw_file tx fs "data/raw/household_power_consumption.txt"
       = Ok raw_df →
     disk' !! "data/raw/household_power_consumption_prepared.csv"
       = Some raw_df ∧
     (∀ e, res = Raised e →
           disk' = <["data/raw/household_power_consumption_prepared.csv"
                       := raw_df]> disk) ∧
     (res = Returned tt → ∃ p, saved_as disk' "data/processed" p)) ∧
  (∀ status, res = Exited status → status = 1).
Proof.
  unfold preprocess_main, mbind, script_bind, script_step, script_call,
    to_csv, run_modify.
  change (path_join (path_join "data" "raw")
            "household_power_consumption_prepared.csv")
    with "data/raw/household_power_consumption_prepared.csv".
  destruct (load_params_cases texts safe_load "params.yaml")
    as [(text & prm & _ & _ & ->) | [_ ->]].
  2: { intros [= <- <-]. split_and!; try done; try (intros; discriminate).
       by intros ? [= <-]. }
  destruct (load_raw_file tx fs "data/raw/household_power_consumption.txt")
    as [raw_df|e].
  2: { intros [= <- <-]. split_and!; try done; try (intros; discriminate).
       by intros ? ? _ [= <-]. }
  rewrite preprocess_data_unfold.
  destruct (_ ← read_csv _ IndexDatetime _; partitions tx (pipeline prm) _)
    as [p|e]; intros [= <- <-].
  - split_and!; try done; try (intros; discriminate).
    intros prm' raw_df' _ [= <-]. split_and!.
    + rewrite !lookup_insert_ne by done. apply lookup_insert_eq.
    + discriminate.
    + intros _. exists p. apply saved_as_writes.
  - split_and!; try done; try (intros; discriminate).
    intros prm' raw_df' _ [= <-]. split_and!.
    + apply lookup_insert_eq.
    + done.
    + discriminate.
Qed.

Lemma preprocess_main_writes_the_prepared_copy_first_witness :
  ∃ raw_df,
    load_raw_file sample_text sample_files
      "data/raw/household_power_consumption.txt" = Ok raw_df ∧
    preprocess_main sample_text sample_csv_reader {[ "params.yaml" := "ok" ]}
      sample_yaml sample_files ∅
    = (Raised (KeyError "y"),
       {[ "data/raw/household_power_consumption_prepared.csv" := raw_df ]}) ∧
    ({[ "data/raw/household_power_consumption_prepared.csv" := raw_df ]}
       : gmap string DataFrame)
      !! "data/raw/household_power_consumption_prepared.csv" = Some raw_df.
Proof.
  eexists. split; [vm_compute; reflexivity|].
  assert (Hrun :
    preprocess_main sample_text sample_csv_reader {[ "params.yaml" := "ok" ]}
      sample_yaml sample_files ∅
    = (Raised (KeyError "y"),
       {[ "data/raw/household_power_consumption_prepared.csv" :=
            mkFrame (Some "datetime") [Tm 1166289840000000000; NaN]
              [("Global_active_power", [Str "12"; Str "?"])] ]}))
    by (vm_compute; reflexivity).
  split; [exact Hrun|].
  destruct (preprocess_main_writes_the_prepared_copy_first _ _ _ _ _ _ _ _
              Hrun) as (_ & _ & Hloaded & _).
  destruct (Hloaded sample_all_params _ eq_refl eq_refl) as (Hcopy & _).
  exact Hcopy.
Defined.

(** * The split at its bounds, and the first row *)

Lemma slice_bound_before n k : Z.of_nat n ≤ k → slice_bound n (- k) = 0%nat.
Proof.
  intros Hk. unfold slice_bound. destruct (- k <? 0) eqn:Hneg; lia.
Qed.

(** A test size of the number of rows or more is not refused, as a
    ratio of 1 or more gives it: the run returns, with train partitions
    without rows and every row of the table that is split in the test
    partitions. *)
Theorem ratio_of_one_or_more_puts_every_row_in_test
    tx fs input_path output_dir prm disk full k :
  full_table tx fs input_path prm = Ok full →
  test_size_of (len full) (test_split_ratio (preprocess prm)) = Ok k →
  Z.of_nat (len full) ≤ k →
  ∃ disk' p,
    preprocess_data tx fs input_path output_dir prm disk = (Ok tt, disk') ∧
    saved_as disk' output_dir p ∧
    no_rows (X_train p) ∧ no_rows (y_train p) ∧
    X_test p = drop_column (target_column (preprocess prm)) full ∧
    getitem [target_column (preprocess prm)] full = Ok (y_test p).
Proof.
  intros Hfull Hk Hratio.
  destruct (full_table_splits _ _ _ _ _ _ Hfull Hk) as [p Hp].
  destruct (preprocess_data_returns tx fs input_path output_dir prm disk
              full p Hfull Hp) as (disk' & Hrun & Hsaved).
  exists disk', p. split; [exact Hrun|]. split; [exact Hsaved|].
  apply split_inv in Hp as (y & k' & Hy & _ & Hk' & HXtr & HXte & Hytr & Hyte).
  assert (k' = k) as -> by congruence. simpl in *.
  rewrite slice_bound_before in * by exact Hratio.
  rewrite HXtr, HXte, Hytr, Hyte, !map_rows_drop_0.
  split_and!; try apply map_rows_take_0; done.
Qed.

Lemma ratio_of_one_or_more_puts_every_row_in_test_witness :
  ∃ full disk' p,
    full_table sample_text (one_file "raw.csv" five_rows) "raw.csv"
      (sample_params "y" ["p"] (3 # 2)) = Ok full ∧
    test_size_of (len full) (FloatLit (3 # 2)) = Ok 6 ∧
    preprocess_data sample_text (one_file "raw.csv" five_rows) "raw.csv"
      "data/processed" (sample_params "y" ["p"] (3 # 2)) ∅ = (Ok tt, disk') ∧
    saved_as disk' "data/processed" p ∧
    no_rows (X_train p) ∧ no_rows (y_train p) ∧
    X_test p = drop_column "y" full ∧
    getitem ["y"] full = Ok (y_test p).
Proof.
  eexists.
  edestruct (ratio_of_one_or_more_puts_every_row_in_test sample_text
               (one_file "raw.csv" five_rows) "raw.csv" "data/processed"
               (sample_params "y" ["p"] (3 # 2)) ∅)
    as (disk' & p & Hrun & Hsaved & Hrest);
    [vm_compute; reflexivity | vm_compute; reflexivity | by vm_compute |].
  exists disk', p. split; [reflexivity|]. split; [vm_compute; reflexivity|].
  split; [exact Hrun|]. split; [exact Hsaved|]. exact Hrest.
Defined.

(** ** The test size *)

(** The test size is computed as Python computes it.  With a float for
    the ratio the product is a float64 and is rounded before it is cut
    to an integer: over 100 rows a ratio of 0.29 gives 28 and not the
    floor of 29, and over 10 rows a ratio of 0.7 gives 7, the exact
    product of 10 and the float of 0.7 being below 7.  A product beyond
    the float64 range is infinite and [int] raises [OverflowError], as
    it does for a ratio of [.inf]; [int] raises [ValueError] on NaN,
    the product of no rows and [.inf] and every product of [.nan].
    With an integer for the ratio the product is exact. *)
Theorem test_size_is_computed_in_floating_point :
  test_size_of 100 (FloatLit (29 # 100)) = Ok 28 ∧
  Qfloor (inject_Z 100 * (29 # 100)) = 29 ∧
  test_size_of 10 (FloatLit (7 # 10)) = Ok 7 ∧
  float64_of_Q (7 # 10) = Finite (3152519739159347 # 4503599627370496) ∧
  Qfloor (inject_Z 10 * (3152519739159347 # 4503599627370496)) = 6 ∧
  test_size_of 4 (FloatLit (inject_Z (10 ^ 308))) = Raise OverflowError ∧
  test_size_of 4 (InfLit false) = Raise OverflowError ∧
  test_size_of 0 (InfLit false)
    = Raise (ValueError "cannot convert float NaN to integer") ∧
  test_size_of 4 NanLit
    = Raise (ValueError "cannot convert float NaN to integer") ∧
  (∀ n z, test_size_of n (IntLit z) = Ok (Z.of_nat n * z)).
Proof. split_and!; try (vm_compute; reflexivity). Qed.

Lemma test_size_of_raises n ratio e :
  test_size_of n ratio = Raise e →
  e = OverflowError ∨ e = ValueError "cannot convert float NaN to integer".
Proof.
  unfold test_size_of, int_mul, float_of_int, int_of, mbind, result_bind.
  destruct (number_of_literal ratio) as [z|x]; [discriminate|].
  destruct (float64_of_Q (inject_Z (Z.of_nat n))) as [v|s|];
    try (intros [= <-]; by left).
  destruct (float64_mul (Finite v) x) as [w|s|];
    [discriminate | intros [= <-]; by left | intros [= <-]; by right].
Qed.

Lemma split_raises prm full e :
  has_column (target_column (preprocess prm)) full = true →
  test_size_of (len full) (test_split_ratio (preprocess prm)) = Raise e →
  split prm full = Raise e.
Proof.
  intros Hcol Hsize. unfold split, drop_column_strict, getitem. simpl.
  destruct (cols_named _ (columns full)) as [|c found] eqn:Hfound.
  - unfold has_column in Hcol. apply bool_decide_eq_true in Hcol.
    exfalso. apply list_elem_of_fmap in Hcol as ([n c] & Heq & Hin).
    simpl in Heq. subst n.
    assert (Hc : (target_column (preprocess prm), c)
                 ∈ cols_named (target_column (preprocess prm)) (columns full))
      by (apply list_elem_of_filter; done).
    rewrite Hfound in Hc. by apply not_elem_of_nil in Hc.
  - simpl. rewrite Hcol. simpl. rewrite Hsize. reflexivity.
Qed.

(** A run whose test size cannot be computed raises the error of [int]
    and saves nothing: [OverflowError] for an infinite product, as a
    ratio of 1e308 gives over 4 rows, and [ValueError] for NaN. *)
Theorem uncomputable_test_size_raises
    tx fs input_path output_dir prm disk full e :
  full_table tx fs input_path prm = Ok full →
  test_size_of (len full) (test_split_ratio (preprocess prm)) = Raise e →
  preprocess_data tx fs input_path output_dir prm disk = (Raise e, disk) ∧
  (e = OverflowError ∨ e = ValueError "cannot convert float NaN to integer").
Proof.
  intros Hfull Hsize. split; [|by eapply test_size_of_raises].
  rewrite preprocess_data_unfold. unfold full_table, cleaned_table in Hfull.
  unfold partitions.
  destruct (read_csv fs IndexDatetime input_path) as [df|e0]; simpl in *;
    [|discriminate].
  destruct (cleaned tx df) as [df'|e0]; simpl in *; [|discriminate].
  rewrite Hfull. simpl.
  rewrite (split_raises prm full e); [reflexivity | | exact Hsize].
  eapply lagged_table_has_target, Hfull.
Qed.

Lemma uncomputable_test_size_raises_witness :
  ∃ full,
    full_table sample_text (one_file "raw.csv" five_rows) "raw.csv"
      (sample_params "y" ["p"] (inject_Z (10 ^ 308))) = Ok full ∧
    len full = 4%nat ∧
    preprocess_data sample_text (one_file "raw.csv" five_rows) "raw.csv"
      "data/processed" (sample_params "y" ["p"] (inject_Z (10 ^ 308))) ∅
    = (Raise OverflowError, ∅).
Proof.
  eexists. split; [vm_compute; reflexivity|]. split; [reflexivity|].
  refine (proj1 (uncomputable_test_size_raises sample_text
                   (one_file "raw.csv" five_rows) "raw.csv" "data/processed"
                   (sample_params "y" ["p"] (inject_Z (10 ^ 308))) ∅ _
                   OverflowError _ _));
    vm_compute; reflexivity.
Defined.

Lemma aligned_setitem name values df :
  aligned df → length values = length (index df) →
  aligned (setitem name values df).
Proof.
  unfold aligned, setitem. cbn [columns index]. intros Hdf Hlen.
  destruct (has_column name df).
  - apply Forall_fmap. eapply Forall_impl; [exact Hdf|].
    intros [m c] Hc. simpl in *. by destruct (decide (m = name)).
  - apply Forall_app. split; [exact Hdf|]. by constructor.
Qed.

Lemma aligned_cleaned tx df df' :
  cleaned tx df = Ok df' → aligned df → aligned df'.
Proof.
  intros Hclean Hdf.
  unfold cleaned, add_time_features, dt_field in Hclean.
  change (index (clean tx df)) with (index df) in Hclean.
  destruct (is_datetime_index (index df)); [|discriminate].
  simpl in Hclean. change (index (setitem ?n ?v ?d)) with (index d) in Hclean.
  change (index (clean tx df)) with (index df) in Hclean.
  destruct (is_datetime_index (index df)); [|discriminate].
  simpl in Hclean. injection Hclean as <-.
  repeat (apply aligned_setitem;
          [|change (index (setitem ?n ?v ?d)) with (index d);
            change (index (clean tx df)) with (index df);
            by rewrite length_fmap]).
  unfold aligned, clean. cbn [columns index].
  apply Forall_fmap. eapply Forall_impl; [exact Hdf|].
  intros [n c] Hc. simpl in *. unfold ffill_cells.
  rewrite length_ffill_from. destruct (is_object c); [|done].
  by rewrite length_fmap.
Qed.

Lemma getitem_cols_nonempty n names (cs r : list column) :
  getitem_cols (n :: names) cs = Ok r → ∃ c, c ∈ r.
Proof.
  simpl. destruct (cols_named n cs) as [|c found]; [discriminate|].
  destruct (getitem_cols names cs) as [more|e]; simpl; [|discriminate].
  intros [= <-]. exists c. left.
Qed.

(** With a feature configured, the first row of the table read is in no
    table saved: its lagged features are missing, so at least one row
    is lost to the lag, and the rows saved are rows after the first. *)
Theorem first_row_is_never_saved
    tx fs input_path output_dir prm disk disk' df :
  read_csv fs IndexDatetime input_path = Ok df →
  aligned df →
  features (train prm) ≠ [] →
  preprocess_data tx fs input_path output_dir prm disk = (Ok tt, disk') →
  ∃ p,
    saved_as disk' output_dir p ∧
    index (X_train p) ++ index (X_test p) `sublist_of` drop 1 (index df) ∧
    index (y_train p) ++ index (y_test p) `sublist_of` drop 1 (index df).
Proof.
  intros Hread Hdf Hfeat
    (df' & full & p & Hclean & Hfull & _ & Hp & Hsaved)%preprocess_data_inv.
  exists p. split; [exact Hsaved|].
  destruct (split_index _ _ _ Hp) as [-> ->].
  apply cleaned_table_inv in Hclean as (df0 & Hread0 & Hclean).
  assert (df0 = df) as -> by congruence.
  pose proof (aligned_cleaned _ _ _ Hclean Hdf) as Hdf'.
  apply cleaned_inv in Hclean as (_ & <- & _).
  assert (Hgoal : index full `sublist_of` drop 1 (index df')); [|done].
  apply lagged_table_inv in Hfull as (y & X & Hy & HX & ->).
  apply getitem_inv in Hy as (ycs & _ & ->).
  apply getitem_inv in HX as (Xcs & HX & ->).
  unfold dropna, map_rows, complete_rows, len. cbn [index concat_columns].
  destruct (index df') as [|t ix] eqn:Hix; [constructor|].
  cbn [length seq fmap list_fmap].
  destruct (features (train prm)) as [|f feats] eqn:Hf; [done|].
  destruct (getitem_cols_nonempty _ _ _ _ HX) as [[n c] Hc].
  destruct (getitem_cols_from _ _ _ _ HX Hc) as [Hin _].
  unfold aligned in Hdf'. rewrite Forall_forall in Hdf'.
  specialize (Hdf' _ Hin). rewrite Hix in Hdf'. simpl in Hdf'.
  assert (Hrow : row_complete
                   (ycs ++ columns (create_lagged_features
                                      (mkFrame (index_name df') (t :: ix) Xcs) 1))
                   0 = false).
  { apply not_true_is_false. intros Hrow.
    assert (Hna : isna NaN = false); [|done].
    eapply (row_complete_lookup _ (n +:+ "_lag1", shift_cells 1 c));
      [exact Hrow | | ].
    - apply elem_of_app. right. rewrite create_lagged_features_columns.
      apply list_elem_of_fmap. by exists (n, c).
    - destruct c as [|x c]; [done|]. apply shift_cells_one_first. }
  change (columns (concat_columns ?a ?b)) with (columns a ++ columns b).
  cbn [columns] in *. rewrite Hrow. simpl. apply select_sublist.
Qed.

Lemma first_row_is_never_saved_witness :
  aligned five_rows ∧
  ∃ disk',
    preprocess_data sample_text (one_file "raw.csv" five_rows) "raw.csv"
      "data/processed" (sample_params "y" ["p"] (1 # 2)) ∅ = (Ok tt, disk') ∧
    ∃ p,
      saved_as disk' "data/processed" p ∧
      index (X_train p) ++ index (X_test p)
        `sublist_of` drop 1 (index five_rows) ∧
      index (y_train p) ++ index (y_test p)
        `sublist_of` drop 1 (index five_rows).
Proof.
  assert (Haligned : aligned five_rows) by (repeat constructor).
  split; [exact Haligned|].
  edestruct (preprocess_data_returns sample_text
               (one_file "raw.csv" five_rows) "raw.csv" "data/processed"
               (sample_params "y" ["p"] (1 # 2)) ∅)
    as (disk' & Hrun & _);
    [vm_compute; reflexivity | vm_compute; reflexivity |].
  exists disk'. split; [exact Hrun|].
  refine (first_row_is_never_saved sample_text
            (one_file "raw.csv" five_rows) "raw.csv" "data/processed"
            (sample_params "y" ["p"] (1 # 2)) ∅ disk' five_rows
            eq_refl Haligned _ Hrun).
  discriminate.
Defined.
